(** * order_app: the order and return workflows of [tub.py]

    A shallow embedding of the SQLite tables that [Database.init_db]
    creates and of the Flask handlers that read and write them, followed
    by the properties of the workflows.

    Conventions of the embedding.
    - A table is the list of its rows in rowid order; a nullable column
      is an [option]; [CURRENT_TIMESTAMP] is the argument [now], a
      number of seconds.
    - A field of a JSON object is a [jfield]: absent, [null] or given.
    - [teardown_request] commits whatever the handler executed, also
      after an exception (the rollback that follows that commit finds
      nothing to undo), so a handler is a function from the database
      before the request to the response and the database after it. *)

From Stdlib Require Import ZArith Ascii String List Bool Lia.
From stdpp Require Import base gmap strings sorting.
Import ListNotations.

Local Open Scope string_scope.
Local Open Scope Z_scope.

(** ** JSON fields and Python truthiness *)

Inductive jfield (A : Type) : Type :=
| Absent
| JNull
| Given (a : A).

Arguments Absent {A}.
Arguments JNull {A}.
Arguments Given {A} a.

(** [d.get(k)]: [None] when the key is absent or holds [null]. *)
Definition get {A} (f : jfield A) : option A :=
  match f with
  | Given a => Some a
  | _ => None
  end.

(** [d.get(k, dflt)]: the default only replaces an absent key. *)
Definition get_or {A} (f : jfield A) (dflt : A) : option A :=
  match f with
  | Absent => Some dflt
  | JNull => None
  | Given a => Some a
  end.

(** [not s] for [s] a string or [None]. *)
Definition falsy (s : option string) : bool :=
  match s with
  | None => true
  | Some s => String.eqb s ""
  end.

(** [a == b] for [a] a string or [None] and [b] a string literal. *)
Definition py_eq (a : option string) (b : string) : bool :=
  match a with
  | Some s => String.eqb s b
  | None => false
  end.

(** ** Tables *)

Module sessions.
Record row := {
  username : string;
  expiry : Z }.
End sessions.

Module decisions.
(** [CREATE TABLE decisions]: there is no [campaign_id] column. *)
Record row := {
  id : Z;
  order_id : string;
  decision : string;
  warehouse : option string;
  product_name : option string;
  quantity : option Z;
  sku : option string;
  barcode : option string;
  username : string;
  role : string;
  main_save : option Z;
  timestamp : option Z }.

Definition columns : list string :=
  ["id"; "order_id"; "decision"; "warehouse"; "product_name"; "quantity";
   "sku"; "barcode"; "username"; "role"; "main_save"; "timestamp"].
End decisions.

Module return_status.
Record row := {
  id : Z;
  order_id : string;
  campaign_id : string;
  product_name : option string;
  sku : option string;
  quantity : option Z;
  supplier_status : option string;
  seller_status : option string;
  supplier_username : option string;
  seller_username : option string;
  supplier_accepted_at : option Z;
  supplier_delivered_at : option Z;
  seller_accepted_at : option Z;
  created_at : option Z }.
End return_status.

Module daily_orders.
Record row := {
  id : Z;
  order_id : string;
  campaign_id : string;
  product_name : option string;
  sku : option string;
  quantity : option Z;
  seller_decision : option string;
  supplier_decision : option string;
  seller_username : option string;
  supplier_username : option string;
  status : option string;
  alternative_product : option string;
  created_at : option Z;
  updated_at : option Z }.
End daily_orders.

Module accepted_returned.
Record row := {
  id : Z;
  campaign_id : string;
  order_id : string;
  product_name : option string;
  quantity : option Z;
  status : string;
  seller_username : option string;
  supplier_username : option string;
  timestamp : option Z }.
End accepted_returned.

(** The database of [data/orders.db].  [processed_orders] has the
    username as primary key, so it is a finite map; [seq_*] is the
    [sqlite_sequence] entry of an AUTOINCREMENT table, the largest id
    it ever gave out. *)
Record DB := {
  sessions : gmap string sessions.row;
  decisions : list decisions.row;
  seq_decisions : Z;
  return_status : list return_status.row;
  seq_return_status : Z;
  daily_orders : list daily_orders.row;
  seq_daily_orders : Z;
  processed_orders : gmap string Z;
  accepted_returned : list accepted_returned.row;
  seq_accepted_returned : Z }.

Definition empty_db : DB :=
  {| sessions := ∅;
     decisions := []; seq_decisions := 0;
     return_status := []; seq_return_status := 0;
     daily_orders := []; seq_daily_orders := 0;
     processed_orders := ∅;
     accepted_returned := []; seq_accepted_returned := 0 |}.

(** The id an AUTOINCREMENT column gives to a new row: one more than
    the largest id that the table holds or ever held. *)
Definition next_rowid (seq : Z) (ids : list Z) : Z :=
  fold_right Z.max seq ids + 1.

(** ** Users and responses *)

(** An entry of [CONFIG["users"]], as [get_user_from_token] returns it. *)
Record user := {
  username : string;
  role : string;
  assigned_stores : list string }.

Inductive body : Type :=
| Detail (detail : string)
| Message (status message : string)
| MessagePdf (status message : string) (pdf_filename : option string)
| Saved (pdf_filename : string) (files : list string)
| Locked (detail : string)
| Attachment (content : string).

(** What a handler returns: the JSON body and the HTTP status. *)
Definition response : Type := body * Z.

Definition code (r : response) : Z := snd r.

(** ** The return manifest *)

(** The one line item that the return handlers hand to the renderer,
    read back from the [return_status] row. *)
Record pdf_item := {
  item_order_id : string;
  item_product_name : option string;
  item_sku : option string;
  item_quantity : option Z }.

(** [generate_return_pdf]: [None] stands for a raised exception.  The
    cell of the product name is [item.get("product_name", "")[:45]],
    which raises [TypeError] on a row whose [product_name] is NULL; the
    FPDF calls (fonts, [pdf.output]) succeed or not as the oracle
    [fpdf] says for the file name. *)
Definition generate_return_pdf (fpdf : string → bool) (items : list pdf_item)
    (role date_str username : string) : option string :=
  if forallb (fun it => bool_decide (is_Some (item_product_name it))) items then
    let filename :=
      "temp/return_" ++ role ++ "_" ++ date_str ++ "_" ++ username ++ ".pdf" in
    if fpdf filename then Some filename else None
  else None.


(** ** SQL helpers *)

(** [column = ?] on a nullable TEXT column: NULL is equal to nothing. *)
Definition sql_eq (cell : option string) (param : string) : bool :=
  match cell with
  | Some s => String.eqb s param
  | None => false
  end.

(** [UPDATE t SET ... WHERE ...]: the rows after the statement and
    [cursor.rowcount], the number of rows the WHERE clause selects. *)
Definition update_where {A} (where_ : A → bool) (set : A → A) (rows : list A)
    : list A * nat :=
  (List.map (fun r => if where_ r then set r else r) rows,
   length (List.filter where_ rows)).

(** [SELECT ... WHERE ...] followed by [cursor.fetchone()]. *)
Definition fetchone {A} (where_ : A → bool) (rows : list A) : option A :=
  List.find where_ rows.

Definition with_return_status (db : DB) (rows : list return_status.row) (seq : Z)
    : DB :=
  {| sessions := sessions db;
     decisions := decisions db; seq_decisions := seq_decisions db;
     return_status := rows; seq_return_status := seq;
     daily_orders := daily_orders db; seq_daily_orders := seq_daily_orders db;
     processed_orders := processed_orders db;
     accepted_returned := accepted_returned db;
     seq_accepted_returned := seq_accepted_returned db |}.

(** ** The return workflow *)

(** The body of the three return requests: [order_id], [campaign_id]. *)
Record return_request := {
  req_order_id : jfield string;
  req_campaign_id : jfield string }.

(** The WHERE clause [order_id = ? AND campaign_id = ?]. *)
Definition same_return (order_id campaign_id : string) (r : return_status.row)
    : bool :=
  String.eqb (return_status.order_id r) order_id
  && String.eqb (return_status.campaign_id r) campaign_id.

(** [INSERT OR REPLACE INTO return_status]: the rows that collide with
    the new one on the primary key or on [UNIQUE(order_id, campaign_id)]
    are deleted, then the new row is inserted. *)
Definition return_status_conflict (new r : return_status.row) : bool :=
  (return_status.id r =? return_status.id new)
  || same_return (return_status.order_id new) (return_status.campaign_id new) r.

Definition insert_or_replace_return_status (new : return_status.row) (db : DB)
    : DB :=
  with_return_status db
    (List.filter (fun r => negb (return_status_conflict new r)) (return_status db)
     ++ [new])
    (Z.max (seq_return_status db) (return_status.id new)).

(** [supplier_accept_return], under [@require_auth(["supplier"])].  The
    INSERT names five columns; the others take their defaults. *)
Definition supplier_accept_return (now : Z) (user : user) (data : return_request)
    (db : DB) : response * DB :=
  let order_id := get (req_order_id data) in
  let campaign_id := get (req_campaign_id data) in
  match order_id, campaign_id with
  | Some oid, Some cid =>
    if falsy order_id || falsy campaign_id then
      ((Detail "Order ID va Campaign ID talab qilinadi", 400), db)
    else
      let new :=
        {| return_status.id :=
             next_rowid (seq_return_status db)
               (List.map return_status.id (return_status db));
           return_status.order_id := oid;
           return_status.campaign_id := cid;
           return_status.product_name := None;
           return_status.sku := None;
           return_status.quantity := None;
           return_status.supplier_status := Some "accepted";
           return_status.seller_status := Some "pending";
           return_status.supplier_username := Some (username user);
           return_status.seller_username := None;
           return_status.supplier_accepted_at := Some now;
           return_status.supplier_delivered_at := None;
           return_status.seller_accepted_at := None;
           return_status.created_at := Some now |} in
      ((Message "success" "Qaytarilgan buyurtma qabul qilindi", 200),
       insert_or_replace_return_status new db)
  | _, _ => ((Detail "Order ID va Campaign ID talab qilinadi", 400), db)
  end.

(** The manifest step shared by the two handlers below: the row is
    read back, handed to the renderer, and any exception is caught and
    logged, leaving [pdf_filename] unbound. *)
Definition return_manifest (fpdf : string → bool) (today role : string)
    (user : user) (oid cid : string) (db : DB) : option string :=
  match fetchone (same_return oid cid) (return_status db) with
  | Some row =>
    generate_return_pdf fpdf
      [ {| item_order_id := oid;
           item_product_name := return_status.product_name row;
           item_sku := return_status.sku row;
           item_quantity := return_status.quantity row |} ]
      role today (username user)
  | None => None
  end.

Definition set_delivered (now : Z) (r : return_status.row) : return_status.row :=
  {| return_status.id := return_status.id r;
     return_status.order_id := return_status.order_id r;
     return_status.campaign_id := return_status.campaign_id r;
     return_status.product_name := return_status.product_name r;
     return_status.sku := return_status.sku r;
     return_status.quantity := return_status.quantity r;
     return_status.supplier_status := Some "delivered";
     return_status.seller_status := return_status.seller_status r;
     return_status.supplier_username := return_status.supplier_username r;
     return_status.seller_username := return_status.seller_username r;
     return_status.supplier_accepted_at := return_status.supplier_accepted_at r;
     return_status.supplier_delivered_at := Some now;
     return_status.seller_accepted_at := return_status.seller_accepted_at r;
     return_status.created_at := return_status.created_at r |}.

(** [supplier_deliver_return], under [@require_auth(["supplier"])]. *)
Definition supplier_deliver_return (fpdf : string → bool) (now : Z)
    (today : string) (user : user) (data : return_request) (db : DB)
    : response * DB :=
  let order_id := get (req_order_id data) in
  let campaign_id := get (req_campaign_id data) in
  match order_id, campaign_id with
  | Some oid, Some cid =>
    if falsy order_id || falsy campaign_id then
      ((Detail "Order ID va Campaign ID talab qilinadi", 400), db)
    else
      let '(rows, rowcount) :=
        update_where
          (fun r => same_return oid cid r
                    && sql_eq (return_status.supplier_username r) (username user))
          (set_delivered now) (return_status db) in
      let db' := with_return_status db rows (seq_return_status db) in
      if Nat.eqb rowcount 0 then
        ((Detail "Buyurtma topilmadi yoki siz qabul qilmagansiz", 400), db')
      else
        let pdf_filename := return_manifest fpdf today "supplier" user oid cid db' in
        ((MessagePdf "success" "Qaytarilgan buyurtma topshirildi" pdf_filename, 200),
         db')
  | _, _ => ((Detail "Order ID va Campaign ID talab qilinadi", 400), db)
  end.

Definition set_seller_accepted (now : Z) (seller : string) (r : return_status.row)
    : return_status.row :=
  {| return_status.id := return_status.id r;
     return_status.order_id := return_status.order_id r;
     return_status.campaign_id := return_status.campaign_id r;
     return_status.product_name := return_status.product_name r;
     return_status.sku := return_status.sku r;
     return_status.quantity := return_status.quantity r;
     return_status.supplier_status := return_status.supplier_status r;
     return_status.seller_status := Some "accepted";
     return_status.supplier_username := return_status.supplier_username r;
     return_status.seller_username := Some seller;
     return_status.supplier_accepted_at := return_status.supplier_accepted_at r;
     return_status.supplier_delivered_at := return_status.supplier_delivered_at r;
     return_status.seller_accepted_at := Some now;
     return_status.created_at := return_status.created_at r |}.

(** [seller_accept_return], under [@require_auth(["seller"])]. *)
Definition seller_accept_return (fpdf : string → bool) (now : Z)
    (today : string) (user : user) (data : return_request) (db : DB)
    : response * DB :=
  let order_id := get (req_order_id data) in
  let campaign_id := get (req_campaign_id data) in
  match order_id, campaign_id with
  | Some oid, Some cid =>
    if falsy order_id || falsy campaign_id then
      ((Detail "Order ID va Campaign ID talab qilinadi", 400), db)
    else
      let '(rows, rowcount) :=
        update_where
          (fun r => same_return oid cid r
                    && sql_eq (return_status.supplier_status r) "delivered")
          (set_seller_accepted now (username user)) (return_status db) in
      let db' := with_return_status db rows (seq_return_status db) in
      if Nat.eqb rowcount 0 then
        ((Detail "Buyurtma topilmadi yoki hali topshirilmagan", 400), db')
      else
        let pdf_filename := return_manifest fpdf today "seller" user oid cid db' in
        ((MessagePdf "success" "Qaytarilgan buyurtma qabul qilindi" pdf_filename, 200),
         db')
  | _, _ => ((Detail "Order ID va Campaign ID talab qilinadi", 400), db)
  end.

(** ** The daily order workflow *)

Definition with_daily_orders (db : DB) (rows : list daily_orders.row) (seq : Z)
    : DB :=
  {| sessions := sessions db;
     decisions := decisions db; seq_decisions := seq_decisions db;
     return_status := return_status db; seq_return_status := seq_return_status db;
     daily_orders := rows; seq_daily_orders := seq;
     processed_orders := processed_orders db;
     accepted_returned := accepted_returned db;
     seq_accepted_returned := seq_accepted_returned db |}.

(** [INSERT OR REPLACE INTO daily_orders]: the table declares no
    uniqueness but its primary key [id], so only a row with the id of
    the new one would be replaced. *)
Definition insert_or_replace_daily_orders (new : daily_orders.row) (db : DB) : DB :=
  with_daily_orders db
    (List.filter (fun r => negb (daily_orders.id r =? daily_orders.id new))
       (daily_orders db)
     ++ [new])
    (Z.max (seq_daily_orders db) (daily_orders.id new)).

(** The body of [POST /api/save_daily_decision]. *)
Record daily_request := {
  dr_order_id : jfield string;
  dr_campaign_id : jfield string;
  dr_decision : jfield string;
  dr_alternative_product : jfield string }.

(** [save_daily_decision], under [@require_auth(["seller", "supplier"])]. *)
Definition save_daily_decision (now : Z) (user : user) (data : daily_request)
    (db : DB) : response * DB :=
  let order_id := get (dr_order_id data) in
  let campaign_id := get (dr_campaign_id data) in
  let decision := get (dr_decision data) in
  let alternative_product := get_or (dr_alternative_product data) "" in
  match order_id, campaign_id with
  | Some oid, Some cid =>
    if falsy order_id || falsy campaign_id || falsy decision then
      ((Detail "Barcha maydonlar talab qilinadi", 400), db)
    else
      let id := next_rowid (seq_daily_orders db)
                  (List.map daily_orders.id (daily_orders db)) in
      let db' :=
        if String.eqb (role user) "seller" then
          insert_or_replace_daily_orders
            {| daily_orders.id := id;
               daily_orders.order_id := oid;
               daily_orders.campaign_id := cid;
               daily_orders.product_name := None;
               daily_orders.sku := None;
               daily_orders.quantity := None;
               daily_orders.seller_decision := decision;
               daily_orders.supplier_decision := None;
               daily_orders.seller_username := Some (username user);
               daily_orders.supplier_username := None;
               daily_orders.status := Some "seller_accepted";
               daily_orders.alternative_product := None;
               daily_orders.created_at := Some now;
               daily_orders.updated_at := Some now |} db
        else if String.eqb (role user) "supplier" then
          insert_or_replace_daily_orders
            {| daily_orders.id := id;
               daily_orders.order_id := oid;
               daily_orders.campaign_id := cid;
               daily_orders.product_name := None;
               daily_orders.sku := None;
               daily_orders.quantity := None;
               daily_orders.seller_decision := None;
               daily_orders.supplier_decision := decision;
               daily_orders.seller_username := None;
               daily_orders.supplier_username := Some (username user);
               daily_orders.status := Some "supplier_accepted";
               daily_orders.alternative_product := alternative_product;
               daily_orders.created_at := Some now;
               daily_orders.updated_at := Some now |} db
        else db in
      ((Message "success" "Qaror saqlandi", 200), db')
  | _, _ => ((Detail "Barcha maydonlar talab qilinadi", 400), db)
  end.

(** What [get_daily_orders] lays over one order of the marketplace:
    [seller_decision], [supplier_decision] and [status] of the row that
    [fetchone] gives for the order and the campaign. *)
Definition daily_overlay (campaign_id order_id : string) (db : DB)
    : option string * option string * option string :=
  match fetchone (fun r => String.eqb (daily_orders.order_id r) order_id
                           && String.eqb (daily_orders.campaign_id r) campaign_id)
          (daily_orders db) with
  | Some row => (daily_orders.seller_decision row,
                 daily_orders.supplier_decision row,
                 daily_orders.status row)
  | None => (None, None, Some "pending")
  end.

(** [get_daily_orders], under [@require_auth(["seller", "supplier"])];
    [orders] is what [fetch_yandex_orders] returned, as order ids. *)
Definition get_daily_orders (orders : option (list string)) (user : user)
    (campaign_id : string) (db : DB)
    : response + list (string * (option string * option string * option string)) :=
  if String.eqb (role user) "seller"
     && negb (existsb (String.eqb campaign_id) (assigned_stores user)) then
    inl (Detail "Ruxsat yo'q", 403)
  else
    match orders with
    | None => inl (Detail "Xato yuz berdi", 500)
    | Some orders =>
      inr (List.map (fun o => (o, daily_overlay campaign_id o db)) orders)
    end.

(** ** Exceptions of the database layer *)

Inductive exn : Type :=
| IntegrityError (msg : string)
| OperationalError (msg : string).

(** A statement run on the connection: the database after it, and a
    value or the exception that [cursor.execute] raised. *)
Definition M (A : Type) : Type := DB → (exn + A) * DB.

Definition raise {A} (e : exn) : M A := fun db => (inl e, db).

#[global] Instance M_ret : MRet M := fun A a db => (inr a, db).

#[global] Instance M_bind : MBind M := fun A B k m db =>
  match m db with
  | (inr a, db') => k a db'
  | (inl e, db') => (inl e, db')
  end.

(** [for d in decisions: body(d)]. *)
Fixpoint for_each {A} (body : A → M unit) (l : list A) : M unit :=
  match l with
  | [] => mret tt
  | d :: l' => body d ;; for_each body l'
  end.

(** ** Saving decisions *)

(** A line item of the body of [POST /api/save]. *)
Record line_item := {
  li_order_id : jfield string;
  li_decision : jfield string;
  li_warehouse : jfield string;
  li_product_name : jfield string;
  li_quantity : jfield Z;
  li_sku : jfield string;
  li_barcode : jfield string;
  li_campaign_id : jfield string }.

Record save_request := {
  sr_decisions : jfield (list line_item);
  sr_temp_save : jfield bool }.

Definition with_decisions (db : DB) (rows : list decisions.row) (seq : Z) : DB :=
  {| sessions := sessions db;
     decisions := rows; seq_decisions := seq;
     return_status := return_status db; seq_return_status := seq_return_status db;
     daily_orders := daily_orders db; seq_daily_orders := seq_daily_orders db;
     processed_orders := processed_orders db;
     accepted_returned := accepted_returned db;
     seq_accepted_returned := seq_accepted_returned db |}.

Definition with_accepted_returned (db : DB) (rows : list accepted_returned.row)
    (seq : Z) : DB :=
  {| sessions := sessions db;
     decisions := decisions db; seq_decisions := seq_decisions db;
     return_status := return_status db; seq_return_status := seq_return_status db;
     daily_orders := daily_orders db; seq_daily_orders := seq_daily_orders db;
     processed_orders := processed_orders db;
     accepted_returned := rows; seq_accepted_returned := seq |}.

Definition with_processed_orders (db : DB) (m : gmap string Z) : DB :=
  {| sessions := sessions db;
     decisions := decisions db; seq_decisions := seq_decisions db;
     return_status := return_status db; seq_return_status := seq_return_status db;
     daily_orders := daily_orders db; seq_daily_orders := seq_daily_orders db;
     processed_orders := m;
     accepted_returned := accepted_returned db;
     seq_accepted_returned := seq_accepted_returned db |}.

(** [INSERT INTO decisions (...) VALUES (...)]: [order_id] and
    [decision] are NOT NULL columns; [timestamp] takes its default. *)
Definition insert_decisions (now : Z) (order_id decision warehouse product_name : option string)
    (quantity : option Z) (sku barcode : option string) (username role : string)
    (main_save : Z) : M unit :=
  fun db =>
    match order_id, decision with
    | None, _ =>
      (inl (IntegrityError "NOT NULL constraint failed: decisions.order_id"), db)
    | Some _, None =>
      (inl (IntegrityError "NOT NULL constraint failed: decisions.decision"), db)
    | Some oid, Some dec =>
      let id := next_rowid (seq_decisions db) (List.map decisions.id (decisions db)) in
      (inr tt,
       with_decisions db
         (decisions db ++
          [ {| decisions.id := id;
               decisions.order_id := oid;
               decisions.decision := dec;
               decisions.warehouse := warehouse;
               decisions.product_name := product_name;
               decisions.quantity := quantity;
               decisions.sku := sku;
               decisions.barcode := barcode;
               decisions.username := username;
               decisions.role := role;
               decisions.main_save := Some main_save;
               decisions.timestamp := Some now |} ])
         id)
    end.

(** [INSERT INTO accepted_returned (...) VALUES (...)]: [campaign_id],
    [order_id] and [status] are NOT NULL columns. *)
Definition insert_accepted_returned (now : Z) (campaign_id order_id product_name : option string)
    (quantity : option Z) (status seller_username supplier_username : string)
    : M unit :=
  fun db =>
    match campaign_id, order_id with
    | None, _ =>
      (inl (IntegrityError "NOT NULL constraint failed: accepted_returned.campaign_id"),
       db)
    | Some _, None =>
      (inl (IntegrityError "NOT NULL constraint failed: accepted_returned.order_id"),
       db)
    | Some cid, Some oid =>
      let id := next_rowid (seq_accepted_returned db)
                  (List.map accepted_returned.id (accepted_returned db)) in
      (inr tt,
       with_accepted_returned db
         (accepted_returned db ++
          [ {| accepted_returned.id := id;
               accepted_returned.campaign_id := cid;
               accepted_returned.order_id := oid;
               accepted_returned.product_name := product_name;
               accepted_returned.quantity := quantity;
               accepted_returned.status := status;
               accepted_returned.seller_username := Some seller_username;
               accepted_returned.supplier_username := Some supplier_username;
               accepted_returned.timestamp := Some now |} ])
         id)
    end.

(** [INSERT OR REPLACE INTO processed_orders (username, count) VALUES
    (?, COALESCE((SELECT count ... WHERE username = ?), 0) + ?)]. *)
Definition bump_processed_orders (username : string) (n : Z) : M unit :=
  fun db =>
    (inr tt,
     with_processed_orders db
       (<[username := default 0 (processed_orders db !! username) + n]>
          (processed_orders db))).

(** [os.path.basename]: what follows the last slash. *)
Fixpoint basename_from (acc p : string) : string :=
  match p with
  | EmptyString => acc
  | String c rest =>
    if Ascii.eqb c "/"%char then basename_from "" rest
    else basename_from (acc ++ String c "") rest
  end.

Definition basename (p : string) : string := basename_from "" p.

Definition is_null {A} (f : jfield A) : bool :=
  match f with
  | JNull => true
  | _ => false
  end.

(** [generate_pdf]: [None] stands for a raised exception; the name
    cell [item.get("product_name", "")[:50]] raises on a [null] name. *)
Definition generate_pdf (fpdf : string → bool) (items : list line_item)
    (is_positive : bool) (date_str username : string) : option string :=
  if forallb (fun d => negb (is_null (li_product_name d))) items then
    let filename :=
      "temp/" ++ (if is_positive then "positive" else "negative") ++ "_report_"
      ++ date_str ++ "_" ++ username ++ ".pdf" in
    if fpdf filename then Some filename else None
  else None.

(** [generate_returned_pdf], likewise. *)
Definition generate_returned_pdf (fpdf : string → bool) (items : list line_item)
    (date_str username : string) : option string :=
  if forallb (fun d => negb (is_null (li_product_name d))) items then
    let filename := "temp/returned_report_" ++ date_str ++ "_" ++ username ++ ".pdf" in
    if fpdf filename then Some filename else None
  else None.

Definition nonempty {A} (l : list A) : bool :=
  match l with
  | [] => false
  | _ => true
  end.

(** The [try] block of [save_decisions]: the names appended to
    [pdf_filenames] before the block ends or an exception leaves it. *)
Definition save_pdfs (fpdf : string → bool) (today : string) (user : user)
    (decisions : list line_item) : list string :=
  let yes_decisions :=
    List.filter (fun d => py_eq (get (li_decision d)) "yes") decisions in
  let no_decisions :=
    List.filter (fun d => py_eq (get (li_decision d)) "no") decisions in
  let returned_decisions :=
    List.filter (fun d => py_eq (get (li_decision d)) "no"
                          && String.eqb (role user) "supplier") decisions in
  let run (go : bool) (pdf : option string) (k : list string → list string)
      (files : list string) : list string :=
    if go then
      match pdf with
      | Some f => k (files ++ [basename f])%list
      | None => files
      end
    else k files in
  run (nonempty yes_decisions)
    (generate_pdf fpdf yes_decisions true today (username user))
    (run (nonempty no_decisions)
       (generate_pdf fpdf no_decisions false today (username user))
       (run (nonempty returned_decisions)
          (generate_returned_pdf fpdf returned_decisions today (username user))
          (fun files => files)))
    [].

(** The loop body of [save_decisions] for one line item. *)
Definition save_one (now : Z) (user : user) (temp_save : bool) (d : line_item)
    : M unit :=
  insert_decisions now
    (get (li_order_id d)) (get (li_decision d))
    (get_or (li_warehouse d) "") (get_or (li_product_name d) "")
    (get_or (li_quantity d) 1) (get_or (li_sku d) "") (get_or (li_barcode d) "")
    (username user) (role user) (if temp_save then 0 else 1) ;;
  let status := if py_eq (get (li_decision d)) "yes" then "accepted" else "returned" in
  insert_accepted_returned now
    (get_or (li_campaign_id d) "") (get (li_order_id d))
    (get_or (li_product_name d) "") (get_or (li_quantity d) 1)
    status
    (if String.eqb (role user) "seller" then username user else "")
    (if String.eqb (role user) "supplier" then username user else "").

(** [save_decisions], under [@require_auth(["seller", "supplier"])];
    [data] is [None] when the body is empty ([not data]). *)
Definition save_decisions (fpdf : string → bool) (now : Z) (today : string)
    (user : user) (data : option save_request) : M response :=
  match data with
  | None => mret (Detail "Ma'lumot talab qilinadi", 400)
  | Some data =>
    let decisions := default [] (get_or (sr_decisions data) []) in
    let temp_save := default false (get_or (sr_temp_save data) false) in
    if negb (nonempty decisions) then
      mret (Detail "Hech qanday qaror berilmagan", 400)
    else
      for_each (save_one now user temp_save) decisions ;;
      bump_processed_orders (username user) (Z.of_nat (length decisions)) ;;
      let pdf_filenames :=
        if temp_save then [] else save_pdfs fpdf today user decisions in
      mret (Saved (hd "" pdf_filenames) pdf_filenames, 200)
  end.

(** ** Old orders *)

(** The predicates of the WHERE clauses of [get_old_orders], by the
    column they name. *)
Inductive cond : Type :=
| ColEq (column value : string)
| DateBefore30Days (column : string)
| ColIn (column : string) (values : list string).

(** [date(t)] as a day number, for [t] in seconds. *)
Definition date (t : Z) : Z := t / 86400.

(** The TEXT columns of [decisions] by name, which are the ones that
    the queries compare with a string; a name that is none of them
    is no column of the table, or one these queries do not compare
    so. *)
Definition text_column (c : string) : option (decisions.row → option string) :=
  if String.eqb c "order_id" then Some (fun r => Some (decisions.order_id r))
  else if String.eqb c "decision" then Some (fun r => Some (decisions.decision r))
  else if String.eqb c "warehouse" then Some decisions.warehouse
  else if String.eqb c "product_name" then Some decisions.product_name
  else if String.eqb c "sku" then Some decisions.sku
  else if String.eqb c "barcode" then Some decisions.barcode
  else if String.eqb c "username" then Some (fun r => Some (decisions.username r))
  else if String.eqb c "role" then Some (fun r => Some (decisions.role r))
  else None.

(** The DATETIME column of [decisions] by name. *)
Definition time_column (c : string) : option (decisions.row → option Z) :=
  if String.eqb c "timestamp" then Some decisions.timestamp else None.

Definition no_such_column {A} (c : string) : exn + A :=
  inl (OperationalError ("no such column: " ++ c)).

(** A predicate prepared against the table, or the error of SQLite
    for a name that is no column of it.  A comparison with NULL
    selects nothing. *)
Definition prepare (now : Z) (k : cond) : exn + (decisions.row → bool) :=
  match k with
  | ColEq c v =>
    match text_column c with
    | Some f => inr (fun r => sql_eq (f r) v)
    | None => no_such_column c
    end
  | DateBefore30Days c =>
    match time_column c with
    | Some f => inr (fun r => match f r with
                              | Some t => date t <? date now - 30
                              | None => false
                              end)
    | None => no_such_column c
    end
  | ColIn c vs =>
    match text_column c with
    | Some f => inr (fun r => existsb (sql_eq (f r)) vs)
    | None => no_such_column c
    end
  end.

Fixpoint prepare_all (now : Z) (where_ : list cond)
    : exn + list (decisions.row → bool) :=
  match where_ with
  | [] => inr []
  | k :: where' =>
    match prepare now k with
    | inl e => inl e
    | inr p =>
      match prepare_all now where' with
      | inl e => inl e
      | inr ps => inr (p :: ps)
      end
    end
  end.

(** [ORDER BY timestamp DESC]: insertion into a list that is already
    in descending order, before the first row that is not newer.  Rows
    of equal timestamp so keep their rowid order; SQLite leaves their
    order open. *)
Fixpoint insert_desc (r : decisions.row) (l : list decisions.row)
    : list decisions.row :=
  match l with
  | [] => [r]
  | r' :: l' =>
    if default 0 (decisions.timestamp r') <=? default 0 (decisions.timestamp r)
    then r :: l
    else r' :: insert_desc r l'
  end.

Definition order_by_timestamp_desc (l : list decisions.row) : list decisions.row :=
  fold_right insert_desc [] l.

(** [SELECT * FROM decisions WHERE ... ORDER BY timestamp DESC LIMIT n]
    followed by [fetchall]. *)
Definition select_decisions (now : Z) (where_ : list cond) (limit : nat)
    (db : DB) : exn + list decisions.row :=
  match prepare_all now where_ with
  | inl e => inl e
  | inr ps =>
    inr (firstn limit
           (order_by_timestamp_desc
              (List.filter (fun r => forallb (fun p => p r) ps) (decisions db))))
  end.

(** [get_old_orders], under [@require_auth()]: any role. *)
Definition get_old_orders (now : Z) (user : user) (db : DB)
    : exn + list decisions.row :=
  if String.eqb (role user) "seller" then
    select_decisions now
      [ColEq "username" (username user); ColEq "role" "seller";
       DateBefore30Days "timestamp"; ColIn "campaign_id" (assigned_stores user)]
      100 db
  else if String.eqb (role user) "supplier" then
    select_decisions now
      [ColEq "username" (username user); ColEq "role" "supplier";
       DateBefore30Days "timestamp"]
      100 db
  else if String.eqb (role user) "admin" then
    select_decisions now [DateBefore30Days "timestamp"] 200 db
  else inr [].

(** ** Strings of the request *)

(** [s.endswith(suffix)]. *)
Definition endswith (s suffix : string) : bool :=
  let n := String.length s in
  let m := String.length suffix in
  (m <=? n)%nat && String.eqb (substring (n - m) m s) suffix.

(** [s.replace(old, new)] for a non-empty [old]: the occurrences are
    taken from the left and do not overlap; [skip] counts the
    characters of an occurrence still to pass over. *)
Fixpoint replace_from (old new : string) (skip : nat) (s : string) : string :=
  match s with
  | EmptyString => EmptyString
  | String c rest =>
    match skip with
    | S k => replace_from old new k rest
    | O =>
      if String.prefix old s then new ++ replace_from old new (String.length old - 1) rest
      else String c (replace_from old new 0 rest)
    end
  end.

Definition replace (old new s : string) : string := replace_from old new 0 s.

(** The whitespace that [str.strip] removes, among the code points
    below 256 that a header can hold. *)
Definition isspace (c : ascii) : bool :=
  let n := nat_of_ascii c in
  ((9 <=? n) && (n <=? 13) || (28 <=? n) && (n <=? 32)
   || (n =? 133) || (n =? 160))%nat.

Fixpoint lstrip (l : list ascii) : list ascii :=
  match l with
  | c :: l' => if isspace c then lstrip l' else l
  | [] => []
  end.

Definition strip (s : string) : string :=
  string_of_list_ascii
    (List.rev (lstrip (List.rev (lstrip (list_ascii_of_string s))))).

(** ** SHA-256

    [hashlib.sha256(s.encode("utf-8")).hexdigest()], as FIPS 180-4
    defines the digest.  A string stands for the Python string of its
    characters' code points. *)

Definition utf8 (s : string) : list Z :=
  flat_map
    (fun c =>
       let n := Z.of_nat (nat_of_ascii c) in
       if n <? 128 then [n]
       else [Z.lor 0xC0 (Z.shiftr n 6); Z.lor 0x80 (Z.land n 0x3F)])
    (list_ascii_of_string s).

Definition add32 (x y : Z) : Z := (x + y) mod 2 ^ 32.

Definition rotr (n x : Z) : Z :=
  Z.lor (Z.shiftr x n) (Z.land (Z.shiftl x (32 - n)) 0xFFFFFFFF).

(** The constants of the digest are fractional parts of roots of the
    first primes, 32 bits each. *)
Definition is_prime (n : Z) : bool :=
  forallb (fun d => negb (n mod Z.of_nat d =? 0)) (seq 2 (Z.to_nat n - 2)).

Definition first_primes (count : nat) : list Z :=
  firstn count (List.filter is_prime (List.map Z.of_nat (seq 2 310))).

(** The largest [r] in [lo, hi) with [r ^ 3 <= x], by bisection. *)
Fixpoint cube_root (fuel : nat) (x lo hi : Z) : Z :=
  match fuel with
  | O => lo
  | S fuel' =>
    let mid := (lo + hi) / 2 in
    if mid * mid * mid <=? x then cube_root fuel' x mid hi
    else cube_root fuel' x lo mid
  end.

Definition sha256_K : list Z :=
  List.map (fun p => cube_root 40 (p * 2 ^ 96) 0 (2 ^ 36) mod 2 ^ 32)
    (first_primes 64).

Definition sha256_H0 : list Z :=
  List.map (fun p => Z.sqrt (p * 2 ^ 64) mod 2 ^ 32) (first_primes 8).

(** [n] bytes of [x], the most significant first. *)
Fixpoint be_bytes (n : nat) (x : Z) : list Z :=
  match n with
  | O => []
  | S n' => Z.land (Z.shiftr x (8 * Z.of_nat n')) 0xFF :: be_bytes n' x
  end.

Definition sha256_pad (msg : list Z) : list Z :=
  let len := Z.of_nat (length msg) in
  (msg ++ [0x80] ++ List.repeat 0 (Z.to_nat ((55 - len) mod 64))
   ++ be_bytes 8 (8 * len))%list.

Fixpoint be_words (bytes : list Z) : list Z :=
  match bytes with
  | b0 :: b1 :: b2 :: b3 :: rest =>
    (((b0 * 256 + b1) * 256 + b2) * 256 + b3) :: be_words rest
  | _ => []
  end.

(** The message schedule, the most recent word first. *)
Fixpoint sha256_schedule (n : nat) (w : list Z) : list Z :=
  match n with
  | O => w
  | S n' =>
    let w2 := nth 1 w 0 in
    let w15 := nth 14 w 0 in
    let s0 := Z.lxor (Z.lxor (rotr 7 w15) (rotr 18 w15)) (Z.shiftr w15 3) in
    let s1 := Z.lxor (Z.lxor (rotr 17 w2) (rotr 19 w2)) (Z.shiftr w2 10) in
    sha256_schedule n'
      (add32 (add32 s1 (nth 6 w 0)) (add32 s0 (nth 15 w 0)) :: w)
  end.

Definition sha256_round (st : list Z) (kw : Z * Z) : list Z :=
  match st with
  | [a; b; c; d; e; f; g; h] =>
    let S1 := Z.lxor (Z.lxor (rotr 6 e) (rotr 11 e)) (rotr 25 e) in
    let ch := Z.lxor (Z.land e f) (Z.land (Z.lxor e 0xFFFFFFFF) g) in
    let t1 := add32 (add32 (add32 h S1) (add32 ch (fst kw))) (snd kw) in
    let S0 := Z.lxor (Z.lxor (rotr 2 a) (rotr 13 a)) (rotr 22 a) in
    let maj := Z.lxor (Z.lxor (Z.land a b) (Z.land a c)) (Z.land b c) in
    [add32 t1 (add32 S0 maj); a; b; c; add32 d t1; e; f; g]
  | _ => st
  end.

Definition sha256_block (h : list Z) (block : list Z) : list Z :=
  let w := List.rev (sha256_schedule 48 (List.rev block)) in
  List.map (fun xy => add32 (fst xy) (snd xy))
    (combine h (fold_left sha256_round (combine sha256_K w) h)).

Fixpoint sha256_blocks (n : nat) (h : list Z) (words : list Z) : list Z :=
  match n with
  | O => h
  | S n' => sha256_blocks n' (sha256_block h (firstn 16 words)) (skipn 16 words)
  end.

Definition hex_digit (n : Z) : ascii :=
  ascii_of_nat (Z.to_nat (if n <? 10 then 48 + n else 87 + n)).

Definition hex_byte (b : Z) : string :=
  String (hex_digit (Z.shiftr b 4)) (String (hex_digit (Z.land b 0xF)) "").

Definition sha256_hex (s : string) : string :=
  let words := be_words (sha256_pad (utf8 s)) in
  let h := sha256_blocks (Nat.div (length words) 16) sha256_H0 words in
  String.concat "" (List.map hex_byte (flat_map (be_bytes 4) h)).

(** ** The application around the handlers *)

(** The state that requests share: the database, the module-level
    [MAINTENANCE_MODE] and [users], and the regular files of [temp/]
    by name. *)
Record app := {
  db : DB;
  MAINTENANCE_MODE : bool;
  users : gmap string user;
  temp : gmap string string }.

(** What the hooks read of a request: [request.path] and
    [request.headers.get("Authorization")]. *)
Record request := {
  path : string;
  Authorization : option string }.

Definition with_sessions (d : DB) (m : gmap string sessions.row) : DB :=
  {| sessions := m;
     decisions := decisions d; seq_decisions := seq_decisions d;
     return_status := return_status d; seq_return_status := seq_return_status d;
     daily_orders := daily_orders d; seq_daily_orders := seq_daily_orders d;
     processed_orders := processed_orders d;
     accepted_returned := accepted_returned d;
     seq_accepted_returned := seq_accepted_returned d |}.

Definition with_db (a : app) (d : DB) : app :=
  {| db := d;
     MAINTENANCE_MODE := MAINTENANCE_MODE a;
     users := users a;
     temp := temp a |}.

(** [get_user_from_token]: a session past its expiry is deleted. *)
Definition get_user_from_token (now : Z) (token : string) (a : app)
    : option user * app :=
  if String.eqb token "" then (None, a)
  else
    let hashed := sha256_hex token in
    match sessions (db a) !! hashed with
    | None => (None, a)
    | Some row =>
      if sessions.expiry row <? now then
        (None, with_db a (with_sessions (db a) (delete hashed (sessions (db a)))))
      else (users a !! sessions.username row, a)
    end.

(** [check_maintenance], a [before_request] hook: [None] lets the
    request through to its handler. *)
Definition check_maintenance (now : Z) (req : request) (a : app)
    : option response * app :=
  if MAINTENANCE_MODE a && String.prefix "/api/" (path req)
     && negb (endswith (path req) "/public_url") then
    let locked :=
      Some (Locked "Sayt vaqtincha to'xtatilgan. Iltimos, keyinroq qayta urinib ko'ring.",
            423) in
    match Authorization req with
    | Some auth_header =>
      if String.eqb auth_header "" then (locked, a)
      else
        let token := strip (replace "Bearer " "" auth_header) in
        match get_user_from_token now token a with
        | (Some user, a') =>
          if String.eqb (role user) "admin" then (None, a') else (locked, a')
        | (None, a') => (locked, a')
        end
    | None => (locked, a)
    end
  else (None, a).

(** [get_pdf]: the [@require_auth()] line above it is commented out.
    [send_from_directory] raises for a name that is no file of
    [temp/], and the bare [except] answers 404. *)
Definition get_pdf (filename : string) (a : app) : response :=
  match temp a !! filename with
  | Some content => (Attachment content, 200)
  | None => (Detail "Fayl topilmadi", 404)
  end.

(** A request [GET /api/pdf/<filename>] through the hooks and the
    handler. *)
Definition serve_get_pdf (now : Z) (authorization : option string)
    (filename : string) (a : app) : response * app :=
  let req := {| path := "/api/pdf/" ++ filename; Authorization := authorization |} in
  match check_maintenance now req a with
  | (Some resp, a') => (resp, a')
  | (None, a') => (get_pdf filename a', a')
  end.

(** * Vocabulary of the properties *)

(** ** Return status entries *)

Definition return_key (r : return_status.row) : string * string :=
  (return_status.order_id r, return_status.campaign_id r).

(** [UNIQUE(order_id, campaign_id)] as a property of the table. *)
Definition unique_keys (db : DB) : Prop :=
  NoDup (List.map return_key (return_status db)).

(** [r'] is [r] after a delivery at [now]: the supplier's status and
    delivery time are set, every other column is the one of [r]. *)
Definition delivered_from (now : Z) (r r' : return_status.row) : Prop :=
  return_status.supplier_status r' = Some "delivered"
  ∧ return_status.supplier_delivered_at r' = Some now
  ∧ return_status.id r' = return_status.id r
  ∧ return_key r' = return_key r
  ∧ return_status.product_name r' = return_status.product_name r
  ∧ return_status.sku r' = return_status.sku r
  ∧ return_status.quantity r' = return_status.quantity r
  ∧ return_status.seller_status r' = return_status.seller_status r
  ∧ return_status.supplier_username r' = return_status.supplier_username r
  ∧ return_status.seller_username r' = return_status.seller_username r
  ∧ return_status.supplier_accepted_at r' = return_status.supplier_accepted_at r
  ∧ return_status.seller_accepted_at r' = return_status.seller_accepted_at r
  ∧ return_status.created_at r' = return_status.created_at r.

(** [r'] is [r] after the seller [seller] accepted it at [now]. *)
Definition seller_accepted_from (now : Z) (seller : string)
    (r r' : return_status.row) : Prop :=
  return_status.seller_status r' = Some "accepted"
  ∧ return_status.seller_username r' = Some seller
  ∧ return_status.seller_accepted_at r' = Some now
  ∧ return_status.id r' = return_status.id r
  ∧ return_key r' = return_key r
  ∧ return_status.product_name r' = return_status.product_name r
  ∧ return_status.sku r' = return_status.sku r
  ∧ return_status.quantity r' = return_status.quantity r
  ∧ return_status.supplier_status r' = return_status.supplier_status r
  ∧ return_status.supplier_username r' = return_status.supplier_username r
  ∧ return_status.supplier_accepted_at r' = return_status.supplier_accepted_at r
  ∧ return_status.supplier_delivered_at r' = return_status.supplier_delivered_at r
  ∧ return_status.created_at r' = return_status.created_at r.

(** The tables other than [return_status], and its sequence, are the
    same in both databases. *)
Definition only_return_rows_differ (db db' : DB) : Prop :=
  db' = with_return_status db (return_status db') (seq_return_status db).

(** The position of a status on its path. *)
Definition supplier_rank (s : option string) : nat :=
  if sql_eq s "delivered" then 2
  else if sql_eq s "accepted" then 1
  else 0.

Definition seller_rank (s : option string) : nat :=
  if sql_eq s "accepted" then 1 else 0.

(** [r'] is the row of [r] with neither status further back. *)
Definition forward (r r' : return_status.row) : Prop :=
  return_key r' = return_key r
  ∧ (supplier_rank (return_status.supplier_status r)
     ≤ supplier_rank (return_status.supplier_status r'))%nat
  ∧ (seller_rank (return_status.seller_status r)
     ≤ seller_rank (return_status.seller_status r'))%nat.

(** The three operations of the return workflow, as requests. *)
Inductive return_op : Type :=
| SupplierAccept (now : Z) (user : user) (data : return_request)
| SupplierDeliver (fpdf : string → bool) (now : Z) (today : string)
    (user : user) (data : return_request)
| SellerAccept (fpdf : string → bool) (now : Z) (today : string)
    (user : user) (data : return_request).

Definition step (db : DB) (op : return_op) : DB :=
  match op with
  | SupplierAccept now user data => snd (supplier_accept_return now user data db)
  | SupplierDeliver fpdf now today user data =>
    snd (supplier_deliver_return fpdf now today user data db)
  | SellerAccept fpdf now today user data =>
    snd (seller_accept_return fpdf now today user data db)
  end.

Definition run (ops : list return_op) (db : DB) : DB := fold_left step ops db.

Definition is_accept (op : return_op) : bool :=
  match op with
  | SupplierAccept _ _ _ => true
  | _ => false
  end.

(** The requests that pass the check of the two keys. *)
Definition keys_of (data : return_request) : option (string * string) :=
  match get (req_order_id data), get (req_campaign_id data) with
  | Some oid, Some cid =>
    if String.eqb oid "" || String.eqb cid "" then None else Some (oid, cid)
  | _, _ => None
  end.


(** [r] is the row that the request names: the request carries both
    keys, neither empty, and they are the keys of [r]. *)
Definition names_row (data : return_request) (r : return_status.row) : Prop :=
  keys_of data = Some (return_key r).

(** The row that [supplier_accept_return] writes for a pair. *)
Definition accepted_row (id now : Z) (supplier oid cid : string)
    : return_status.row :=
  {| return_status.id := id;
     return_status.order_id := oid;
     return_status.campaign_id := cid;
     return_status.product_name := None;
     return_status.sku := None;
     return_status.quantity := None;
     return_status.supplier_status := Some "accepted";
     return_status.seller_status := Some "pending";
     return_status.supplier_username := Some supplier;
     return_status.seller_username := None;
     return_status.supplier_accepted_at := Some now;
     return_status.supplier_delivered_at := None;
     return_status.seller_accepted_at := None;
     return_status.created_at := Some now |}.

(** ** A return, from the supplier's acceptance to a second one *)

Definition sup1 : user :=
  {| username := "sup1"; role := "supplier"; assigned_stores := [] |}.

Definition sup2 : user :=
  {| username := "sup2"; role := "supplier"; assigned_stores := [] |}.

Definition sel1 : user :=
  {| username := "sel1"; role := "seller"; assigned_stores := ["C1"] |}.

Definition O2_C1 : return_request :=
  {| req_order_id := Given "O2"; req_campaign_id := Given "C1" |}.

Definition no_fpdf : string → bool := fun _ => false.

(** Accepted at 10, delivered at 20, accepted by the seller at 30. *)
Definition return_closed : DB :=
  run [SupplierAccept 10 sup1 O2_C1;
       SupplierDeliver no_fpdf 20 "2024-05-01" sup1 O2_C1;
       SellerAccept no_fpdf 30 "2024-05-01" sel1 O2_C1] empty_db.

(** The supplier accepts the same return once more, at 40. *)
Definition return_reaccepted : DB :=
  step return_closed (SupplierAccept 40 sup1 O2_C1).

(** Delivered at 20, after the acceptance at 10. *)
Definition return_delivered : DB :=
  run [SupplierAccept 10 sup1 O2_C1;
       SupplierDeliver no_fpdf 20 "2024-05-01" sup1 O2_C1] empty_db.

(** The operations that update a row in place. *)
Definition updates_in_place (ops : list return_op) : Prop :=
  Forall (fun op => is_accept op = false) ops.

(** [op] is a delivery request for the pair [k]. *)
Definition delivers (k : string * string) (op : return_op) : Prop :=
  match op with
  | SupplierDeliver _ _ _ _ data => keys_of data = Some k
  | _ => False
  end.

(** No row of the pair [k] is delivered. *)
Definition undelivered (k : string * string) (db : DB) : Prop :=
  ∀ r, In r (return_status db) → return_key r = k →
       return_status.supplier_status r ≠ Some "delivered".

(** ** Daily decisions *)

(** A request to [save_daily_decision]: the time, the user, the body. *)
Definition daily_op : Type := Z * user * daily_request.

Definition daily_step (db : DB) (op : daily_op) : DB :=
  let '(now, user, data) := op in
  snd (save_daily_decision now user data db).

Definition daily_run (ops : list daily_op) (db : DB) : DB :=
  fold_left daily_step ops db.

(** At most one of the two decisions of the row is set. *)
Definition one_sided (r : daily_orders.row) : Prop :=
  daily_orders.seller_decision r = None
  ∨ daily_orders.supplier_decision r = None.

Definition daily (decision : string) (alternative : jfield string)
    : daily_request :=
  {| dr_order_id := Given "O1";
     dr_campaign_id := Given "C1";
     dr_decision := Given decision;
     dr_alternative_product := alternative |}.

(** The seller says no at 10, the supplier says yes at 20. *)
Definition seller_then_supplier : DB :=
  daily_run [(10, sel1, daily "no" Absent); (20, sup1, daily "yes" Absent)]
    empty_db.

(** The body names the order, the campaign and a decision, none empty. *)
Definition daily_fields (data : daily_request)
    : option (string * string * string) :=
  match get (dr_order_id data), get (dr_campaign_id data),
        get (dr_decision data) with
  | Some oid, Some cid, Some decision =>
    if String.eqb oid "" || String.eqb cid "" || String.eqb decision ""
    then None
    else Some (oid, cid, decision)
  | _, _, _ => None
  end.

(** A seller proposes an alternative. *)
Definition seller_alternative : response * DB :=
  save_daily_decision 10 sel1 (daily "alternative" (Given "P9")) empty_db.

(** ** Saved decisions *)

(** The line item names the columns that are NOT NULL: [order_id] and
    [decision] of [decisions], [campaign_id] of [accepted_returned]
    (which is the empty string for an item without the key). *)
Definition well_formed (d : line_item) : Prop :=
  is_Some (get (li_order_id d))
  ∧ is_Some (get (li_decision d))
  ∧ is_Some (get_or (li_campaign_id d) "").

(** [r] is the ledger row of the line item [d]. *)
Definition ledger_row (now : Z) (user : user) (temp_save : bool)
    (d : line_item) (r : decisions.row) : Prop :=
  get (li_order_id d) = Some (decisions.order_id r)
  ∧ get (li_decision d) = Some (decisions.decision r)
  ∧ decisions.warehouse r = get_or (li_warehouse d) ""
  ∧ decisions.product_name r = get_or (li_product_name d) ""
  ∧ decisions.quantity r = get_or (li_quantity d) 1
  ∧ decisions.sku r = get_or (li_sku d) ""
  ∧ decisions.barcode r = get_or (li_barcode d) ""
  ∧ decisions.username r = username user
  ∧ decisions.role r = role user
  ∧ decisions.main_save r = Some (if temp_save then 0 else 1)
  ∧ decisions.timestamp r = Some now.

(** [a] is the audit row of the line item [d]. *)
Definition audit_row (now : Z) (user : user) (d : line_item)
    (a : accepted_returned.row) : Prop :=
  get_or (li_campaign_id d) "" = Some (accepted_returned.campaign_id a)
  ∧ get (li_order_id d) = Some (accepted_returned.order_id a)
  ∧ accepted_returned.status a
    = (if py_eq (get (li_decision d)) "yes" then "accepted" else "returned")
  ∧ accepted_returned.product_name a = get_or (li_product_name d) ""
  ∧ accepted_returned.quantity a = get_or (li_quantity d) 1
  ∧ accepted_returned.seller_username a
    = Some (if String.eqb (role user) "seller" then username user else "")
  ∧ accepted_returned.supplier_username a
    = Some (if String.eqb (role user) "supplier" then username user else "")
  ∧ accepted_returned.timestamp a = Some now.

(** The loop of [save_decisions] touched the two tables it writes and
    nothing else. *)
Definition only_ledger_differs (db db' : DB) : Prop :=
  sessions db' = sessions db
  ∧ return_status db' = return_status db
  ∧ seq_return_status db' = seq_return_status db
  ∧ daily_orders db' = daily_orders db
  ∧ seq_daily_orders db' = seq_daily_orders db.

Definition item (order_id decision : string) : line_item :=
  {| li_order_id := Given order_id;
     li_decision := Given decision;
     li_warehouse := Absent;
     li_product_name := Given "Phone";
     li_quantity := Given 2;
     li_sku := Absent;
     li_barcode := Absent;
     li_campaign_id := Given "C1" |}.

Definition two_items : save_request :=
  {| sr_decisions := Given [item "O1" "yes"; item "O2" "no"];
     sr_temp_save := Absent |}.


(** ** Old orders *)

(** [r1] is no older than [r2]. *)
Definition newer_or_equal (r1 r2 : decisions.row) : Prop :=
  default 0 (decisions.timestamp r2) ≤ default 0 (decisions.timestamp r1).

(** The day of [r] is more than 30 days before the day of [now]. *)
Definition older_than_30_days (now : Z) (r : decisions.row) : Prop :=
  ∃ t, decisions.timestamp r = Some t ∧ date t < date now - 30.

(** [rows] are the [limit] most recent of the rows of [ledger] that
    satisfy [eligible], the most recent first. *)
Definition most_recent (limit : nat) (eligible : decisions.row → Prop)
    (ledger rows : list decisions.row) : Prop :=
  (length rows ≤ limit)%nat
  ∧ (∀ r, In r rows → In r ledger ∧ eligible r)
  ∧ StronglySorted newer_or_equal rows
  ∧ (∀ r, In r ledger → eligible r →
       In r rows ∨ (length rows = limit ∧ ∀ r', In r' rows → newer_or_equal r' r)).

Definition old_decision (id : Z) (username role : string) (timestamp : Z)
    : decisions.row :=
  {| decisions.id := id;
     decisions.order_id := "O1";
     decisions.decision := "yes";
     decisions.warehouse := Some "";
     decisions.product_name := Some "Phone";
     decisions.quantity := Some 1;
     decisions.sku := Some "";
     decisions.barcode := Some "";
     decisions.username := username;
     decisions.role := role;
     decisions.main_save := Some 1;
     decisions.timestamp := Some timestamp |}.

(** A ledger with a decision of the seller and one of the supplier,
    both of day 0. *)
Definition old_ledger : DB :=
  with_decisions empty_db
    [old_decision 1 "sel1" "seller" 100; old_decision 2 "sup1" "supplier" 200] 2.

(** Noon of day 40. *)
Definition day_40 : Z := 40 * 86400 + 43200.

(** ** The manifest download *)

Definition root : user :=
  {| username := "root"; role := "admin"; assigned_stores := [] |}.

(** An application with one manifest in [temp/] and one session, of
    the admin, open until 1000. *)
Definition some_app (maintenance : bool) : app :=
  {| db := with_sessions empty_db
             {[ sha256_hex "tok" :=
                  {| sessions.username := "root"; sessions.expiry := 1000 |} ]};
     MAINTENANCE_MODE := maintenance;
     users := {[ "root" := root ]};
     temp := {[ "m.pdf" := "%PDF-1.3" ]} |}.

(** * The rest of the application *)

(** ** JSON answers *)

(** What [jsonify] is given, for the handlers whose answer is none of
    the [body] shapes above. *)
#[local] Unset Elimination Schemes.

Inductive json : Type :=
| Null
| Bool (b : bool)
| Num (n : Z)
| Str (s : string)
| Arr (items : list json)
| Obj (fields : list (string * json)).

#[local] Set Elimination Schemes.

Definition reply : Type := json * Z.

Definition detail (d : string) (status : Z) : reply :=
  (Obj [("detail", Str d)], status).

(** ** Authentication *)

(** [require_auth(roles)(f)]: the wrapper around a handler.  [roles]
    is the empty list for [require_auth()]; [f] gets [g.user].  The
    answer is the wrapper's own refusal or what [f] returns. *)
Definition require_auth {A} (roles : list string) (now : Z)
    (authorization : option string) (f : user → app → A * app) (a : app)
    : (reply + A) * app :=
  match authorization with
  | None => (inl (detail "Authorization token talab qilinadi" 401), a)
  | Some auth_header =>
    if String.eqb auth_header "" then
      (inl (detail "Authorization token talab qilinadi" 401), a)
    else
      let token := strip (replace "Bearer " "" auth_header) in
      match get_user_from_token now token a with
      | (None, a') =>
        (inl (detail "Yaroqsiz token yoki sessiya muddati tugagan" 401), a')
      | (Some user, a') =>
        if nonempty roles && negb (existsb (String.eqb (role user)) roles) then
          (inl (detail "Ruxsat yo'q" 403), a')
        else
          let '(r, a'') := f user a' in (inr r, a'')
      end
  end.

(** A request to a route under [require_auth], through the
    [before_request] hook and the wrapper. *)
Definition serve {A} (roles : list string) (now : Z) (req : request)
    (f : user → app → A * app) (a : app) : (response + (reply + A)) * app :=
  match check_maintenance now req a with
  | (Some resp, a') => (inl resp, a')
  | (None, a') =>
    let '(r, a'') := require_auth roles now (Authorization req) f a' in
    (inr r, a'')
  end.

(** [request.form] of [POST /api/login]. *)
Record login_form := {
  form_username : option string;
  form_password : option string }.

(** [hmac.compare_digest] takes strings of ASCII characters only. *)
Definition isascii (s : string) : bool :=
  forallb (fun c => (nat_of_ascii c <? 128)%nat) (list_ascii_of_string s).

(** The outcome of [login]: the answer, or the exception that leaves
    the handler. *)
Inductive login_result : Type :=
| Answered (r : reply)
| Raised (exception : string).

(** [login].  [session_token] is the [uuid.uuid4()] it draws,
    [PUBLIC_URL] the module's global, and [password_hashes] holds the
    [password_hash] of the entries of [users] that have one. *)
Definition login (session_token : string) (now : Z) (PUBLIC_URL : option string)
    (password_hashes : gmap string string) (form : login_form) (a : app)
    : login_result * app :=
  match form_username form, form_password form with
  | Some username', Some password =>
    if falsy (Some username') || falsy (Some password) then
      (Answered (detail "Login va parol talab qilinadi" 400), a)
    else
      match users a !! username' with
      | None => (Answered (detail "Foydalanuvchi topilmadi" 401), a)
      | Some user =>
        let provided_hash := sha256_hex password in
        let stored_hash := default "" (password_hashes !! username') in
        if negb (isascii stored_hash) then (Raised "TypeError", a)
        else if negb (String.eqb provided_hash stored_hash) then
          (Answered (detail "Noto'g'ri parol" 401), a)
        else
          let hashed_session := sha256_hex session_token in
          let expiry := now + 3600 * 8 in
          (Answered
             (Obj [("username", Str (username user));
                   ("token", Str session_token);
                   ("role", Str (role user));
                   ("is_admin", Bool (String.eqb (role user) "admin"));
                   ("assigned_stores", Arr (List.map Str (assigned_stores user)));
                   ("public_url",
                    Str (if falsy PUBLIC_URL then "http://localhost:8080"
                         else default "" PUBLIC_URL))],
              200),
           with_db a
             (with_sessions (db a)
                (<[hashed_session :=
                     {| sessions.username := username';
                        sessions.expiry := expiry |}]>
                   (sessions (db a)))))
      end
  | _, _ => (Answered (detail "Login va parol talab qilinadi" 400), a)
  end.

(** [logout], under [@require_auth()], which has seen the header. *)
Definition logout (auth_header : string) (a : app) : reply * app :=
  let token := strip (replace "Bearer " "" auth_header) in
  let hashed := sha256_hex token in
  ((Obj [("status", Str "logged out")], 200),
   with_db a (with_sessions (db a) (delete hashed (sessions (db a))))).

(** ** Maintenance mode *)

Definition with_maintenance (a : app) (mode : bool) : app :=
  {| db := db a;
     MAINTENANCE_MODE := mode;
     users := users a;
     temp := temp a |}.

(** [toggle_maintenance], under [@require_auth(["admin"])]. *)
Definition toggle_maintenance (a : app) : reply * app :=
  let mode := negb (MAINTENANCE_MODE a) in
  ((Obj [("status", Str "success");
         ("maintenance_mode", Bool mode);
         ("message", Str ("Sayt " ++ (if mode then "to'xtatildi" else "yoqildi")))],
    200),
   with_maintenance a mode).

(** ** Vocabulary *)

(** The session that a token names is open at [now] and belongs to
    the user [u] of [users]. *)
Definition authenticates (now : Z) (token : string) (a : app) (u : user) : Prop :=
  token ≠ ""
  ∧ ∃ row, sessions (db a) !! sha256_hex token = Some row
           ∧ now ≤ sessions.expiry row
           ∧ users a !! sessions.username row = Some u.

(** The token that the wrapper reads from a header. *)
Definition token_of (auth_header : string) : string :=
  strip (replace "Bearer " "" auth_header).

(** [a'] is [a] but for sessions that [a'] no longer has. *)
Definition sessions_dropped (a a' : app) : Prop :=
  sessions (db a') ⊆ sessions (db a)
  ∧ a' = with_db a (with_sessions (db a) (sessions (db a'))).

(** [roles] lets the role through. *)
Definition allowed (roles : list string) (r : string) : Prop :=
  roles = [] ∨ In r roles.

(** The request carries the token of an open session of an admin. *)
Definition admin_request (now : Z) (req : request) (a : app) : Prop :=
  ∃ h u, Authorization req = Some h
         ∧ authenticates now (token_of h) a u
         ∧ role u = "admin".

(** The hook looks at the request: maintenance mode is on and the
    path is under [/api/] and does not end in [/public_url]. *)
Definition gated (req : request) (a : app) : bool :=
  MAINTENANCE_MODE a && String.prefix "/api/" (path req)
  && negb (endswith (path req) "/public_url").

Definition locked : response :=
  (Locked "Sayt vaqtincha to'xtatilgan. Iltimos, keyinroq qayta urinib ko'ring.",
   423).

(** A token as [uuid.uuid4()] writes it, and the password table of
    [some_app]. *)
Definition a_token : string := "0b1e6a4c-7d1f-4f6e-9a53-2c8d5e9f0a11".

Definition root_secret : gmap string string := {[ "root" := sha256_hex "secret" ]}.

Definition ping (u : user) (a : app) : string * app := (username u, a).

(** ** Returned orders, as the supplier and the seller see them *)

(** What [get_supplier_returned_orders] lays over one cancelled order
    of the marketplace: the two statuses of the row of the order and
    the campaign, ['pending'] twice when there is none. *)
Definition return_overlay (campaign_id order_id : string) (db : DB)
    : option string * option string :=
  match fetchone (same_return order_id campaign_id) (return_status db) with
  | Some row => (return_status.supplier_status row, return_status.seller_status row)
  | None => (Some "pending", Some "pending")
  end.

(** [get_supplier_returned_orders], under [@require_auth(["supplier"])];
    [campaign_id] is the query argument, empty when it is missing, and
    [orders] is what [fetch_yandex_orders] returned, as order ids. *)
Definition get_supplier_returned_orders (orders : option (list string))
    (campaign_id : string) (db : DB)
    : response + list (string * (option string * option string)) :=
  if String.eqb campaign_id "" then inl (Detail "Campaign ID talab qilinadi", 400)
  else
    match orders with
    | None => inl (Detail "Xato yuz berdi", 500)
    | Some orders =>
      inr (List.map (fun o => (o, return_overlay campaign_id o db)) orders)
    end.

(** [a <= b] for two cells of a DATETIME column; NULL is below every
    time. *)
Definition time_le (a b : option Z) : bool :=
  match a, b with
  | None, _ => true
  | Some _, None => false
  | Some x, Some y => x <=? y
  end.

(** [ORDER BY supplier_delivered_at DESC], as [insert_desc] above. *)
Fixpoint insert_delivered_desc (r : return_status.row)
    (l : list return_status.row) : list return_status.row :=
  match l with
  | [] => [r]
  | r' :: l' =>
    if time_le (return_status.supplier_delivered_at r')
               (return_status.supplier_delivered_at r)
    then r :: l
    else r' :: insert_delivered_desc r l'
  end.

Definition order_by_delivered_desc (l : list return_status.row)
    : list return_status.row :=
  fold_right insert_delivered_desc [] l.

(** The WHERE clause [campaign_id = ? AND supplier_status = 'delivered']. *)
Definition delivered_in (campaign_id : string) (r : return_status.row) : bool :=
  String.eqb (return_status.campaign_id r) campaign_id
  && sql_eq (return_status.supplier_status r) "delivered".

(** [get_seller_returned_orders], under [@require_auth(["seller"])].
    [fetch_single_order] is the lookup at the marketplace, [None] when
    it fails; an entry of the answer is the row and, laid over it,
    what the lookup gave. *)
Definition get_seller_returned_orders {E : Type}
    (fetch_single_order : string → string → option E) (user : user)
    (campaign_id : string) (db : DB)
    : response + list (return_status.row * option E) :=
  if String.eqb campaign_id "" then inl (Detail "Campaign ID talab qilinadi", 400)
  else if negb (existsb (String.eqb campaign_id) (assigned_stores user)) then
    inl (Detail "Ruxsat yo'q", 403)
  else
    inr (List.map
           (fun row =>
              (row, fetch_single_order campaign_id (return_status.order_id row)))
           (order_by_delivered_desc
              (List.filter (delivered_in campaign_id) (return_status db)))).

(** ** The ledger, as the supplier and the admin read it *)

(** The nine columns that [supplier_get_orders] answers with. *)
Record supplier_order := {
  so_id : Z;
  so_order_id : string;
  so_decision : string;
  so_warehouse : option string;
  so_product_name : option string;
  so_quantity : option Z;
  so_sku : option string;
  so_barcode : option string;
  so_username : string }.

Definition supplier_order_of (r : decisions.row) : supplier_order :=
  {| so_id := decisions.id r;
     so_order_id := decisions.order_id r;
     so_decision := decisions.decision r;
     so_warehouse := decisions.warehouse r;
     so_product_name := decisions.product_name r;
     so_quantity := decisions.quantity r;
     so_sku := decisions.sku r;
     so_barcode := decisions.barcode r;
     so_username := decisions.username r |}.

(** The WHERE clause [role = 'seller' AND main_save = 0 AND decision =
    'yes']. *)
Definition awaits_supplier (r : decisions.row) : bool :=
  String.eqb (decisions.role r) "seller"
  && match decisions.main_save r with
     | Some n => n =? 0
     | None => false
     end
  && String.eqb (decisions.decision r) "yes".

(** [supplier_get_orders], under [@require_auth(["supplier"])]. *)
Definition supplier_get_orders (db : DB) : list supplier_order :=
  List.map supplier_order_of (List.filter awaits_supplier (decisions db)).


(** ** Vocabulary *)

(** [r1] was delivered no earlier than [r2]. *)
Definition delivered_later (r1 r2 : return_status.row) : Prop :=
  time_le (return_status.supplier_delivered_at r2)
          (return_status.supplier_delivered_at r1) = true.

Definition return_of (order_id campaign_id : string) : return_request :=
  {| req_order_id := Given order_id; req_campaign_id := Given campaign_id |}.

Definition no_lookup : string → string → option unit := fun _ _ => None.

(** The table of daily orders has a row for the order and the
    campaign. *)
Definition has_daily_row (order_id campaign_id : string) (db : DB) : Prop :=
  ∃ r, In r (daily_orders db)
       ∧ daily_orders.order_id r = order_id
       ∧ daily_orders.campaign_id r = campaign_id.

(** A temp save of the two items. *)
Definition temp_items : save_request :=
  {| sr_decisions := Given [item "O1" "yes"; item "O2" "no"];
     sr_temp_save := Given true |}.

(** A return of the store C9, accepted at 10 and delivered at 20;
    [sel1] has the store C1 only. *)
Definition delivered_C9 : DB :=
  run [SupplierAccept 10 sup1 (return_of "O2" "C9");
       SupplierDeliver no_fpdf 20 "2024-05-01" sup1 (return_of "O2" "C9")]
    empty_db.

(** ** The administration of users *)

(** [s.split(",")]: the pieces between the commas, one piece for a
    string without a comma, the empty string included. *)
Fixpoint split_from (acc s : string) : list string :=
  match s with
  | EmptyString => [acc]
  | String c rest =>
    if Ascii.eqb c ","%char then acc :: split_from "" rest
    else split_from (acc ++ String c "") rest
  end.

Definition split_comma (s : string) : list string := split_from "" s.

(** [[x.strip() for x in stores_str.split(",") if x.strip()]]. *)
Definition parse_stores (stores_str : string) : list string :=
  List.filter (fun x => negb (String.eqb x ""))
    (List.map strip (split_comma stores_str)).

(** The module's [users] with the fields that [user] leaves out, and
    the user names of [CONFIG["users"]] in their order.  The entries
    of [users] are the entries of that list, each name once. *)
Record accounts := {
  acc_app : app;
  password_hashes : gmap string string;
  tokens : gmap string string;
  CONFIG_users : list string }.

(** [request.form] of the two admin routes. *)
Record user_form := {
  uf_username : option string;
  uf_password : option string;
  uf_role : option string;
  uf_token : option string;
  uf_assigned_stores : option string }.

Definition with_users (a : app) (m : gmap string user) : app :=
  {| db := db a;
     MAINTENANCE_MODE := MAINTENANCE_MODE a;
     users := m;
     temp := temp a |}.

(** [admin_create_user], under [@require_auth(["admin"])]. *)
Definition admin_create_user (form : user_form) (s : accounts) : reply * accounts :=
  match uf_username form, uf_password form, uf_role form with
  | Some name, Some password, Some role' =>
    if falsy (Some name) || falsy (Some password) || falsy (Some role') then
      (detail "Username, password va role talab qilinadi" 400, s)
    else if bool_decide (is_Some (users (acc_app s) !! name)) then
      (detail "Foydalanuvchi allaqachon mavjud" 400, s)
    else
      let assigned_stores :=
        if String.eqb role' "seller"
        then parse_stores (default "" (uf_assigned_stores form))
        else [] in
      ((Obj [("status", Str "created")], 200),
       {| acc_app :=
            with_users (acc_app s)
              (<[name := {| username := name;
                            role := role';
                            assigned_stores := assigned_stores |}]>
                 (users (acc_app s)));
          password_hashes := <[name := sha256_hex password]> (password_hashes s);
          tokens := <[name := default "" (uf_token form)]> (tokens s);
          CONFIG_users := CONFIG_users s ++ [name] |})
  | _, _, _ => (detail "Username, password va role talab qilinadi" 400, s)
  end.

(** [d.get(k)] is truthy: the field is there and not empty. *)
Definition given (f : option string) : option string :=
  match f with
  | Some s => if String.eqb s "" then None else Some s
  | None => None
  end.

(** [admin_update_user], under [@require_auth(["admin"])]: the entry
    is changed in place, so [users] and [CONFIG["users"]] both see
    it. *)
Definition admin_update_user (form : user_form) (s : accounts) : reply * accounts :=
  match given (uf_username form) with
  | None => (detail "Username talab qilinadi" 400, s)
  | Some name =>
    match users (acc_app s) !! name with
    | None => (detail "Foydalanuvchi topilmadi" 404, s)
    | Some user =>
      let password_hashes' :=
        match given (uf_password form) with
        | Some password => <[name := sha256_hex password]> (password_hashes s)
        | None => password_hashes s
        end in
      let tokens' :=
        match given (uf_token form) with
        | Some token => <[name := token]> (tokens s)
        | None => tokens s
        end in
      let user' :=
        match given (uf_role form) with
        | Some role' =>
          {| username := username user;
             role := role';
             assigned_stores :=
               if String.eqb role' "seller"
               then parse_stores (default "" (uf_assigned_stores form))
               else [] |}
        | None => user
        end in
      ((Obj [("status", Str "updated")], 200),
       {| acc_app := with_users (acc_app s) (<[name := user']> (users (acc_app s)));
          password_hashes := password_hashes';
          tokens := tokens';
          CONFIG_users := CONFIG_users s |})
    end
  end.

(** [login] on the accounts. *)
Definition login_to (session_token : string) (now : Z) (PUBLIC_URL : option string)
    (form : login_form) (s : accounts) : login_result * app :=
  login session_token now PUBLIC_URL (password_hashes s) form (acc_app s).

(** ** Vocabulary *)

Definition has_char (c : ascii) (s : string) : bool :=
  existsb (Ascii.eqb c) (list_ascii_of_string s).

(** A store name as [parse_stores] leaves it: not empty, no comma, no
    whitespace at either end. *)
Definition store_name (x : string) : Prop :=
  x ≠ "" ∧ strip x = x ∧ has_char ","%char x = false.

Definition some_accounts : accounts :=
  {| acc_app := some_app false;
     password_hashes := root_secret;
     tokens := ∅;
     CONFIG_users := ["root"] |}.

Definition new_seller : user_form :=
  {| uf_username := Some "sel9";
     uf_password := Some "pw9";
     uf_role := Some "seller";
     uf_token := None;
     uf_assigned_stores := Some "C1, C2 ,,C3" |}.

(** The token names a session of the user name that is open at
    [now]. *)
Definition open_session (now : Z) (token name : string) (a : app) : Prop :=
  token ≠ ""
  ∧ ∃ row, sessions (db a) !! sha256_hex token = Some row
           ∧ now ≤ sessions.expiry row
           ∧ sessions.username row = name.

(** The credentials of a login form. *)
Definition credentials (name password : string) : login_form :=
  {| form_username := Some name; form_password := Some password |}.

(** The admin becomes a supplier with another password. *)
Definition demote_root : user_form :=
  {| uf_username := Some "root";
     uf_password := Some "fresh";
     uf_role := Some "supplier";
     uf_token := None;
     uf_assigned_stores := Some "C1" |}.

(** ** Orders of a campaign *)

(** [get_orders], under [@require_auth()].  [fetch_yandex_orders] is
    the request to the marketplace for the orders of a campaign in a
    status, [None] when it fails. *)
Definition get_orders {E : Type}
    (fetch_yandex_orders : string → string → user → option (list E))
    (user : user) (campaign_id : string) : response + list E :=
  if String.eqb (role user) "seller"
     && negb (existsb (String.eqb campaign_id) (assigned_stores user)) then
    inl (Detail "Bu campaign ga ruxsatingiz yo'q", 403)
  else
    match fetch_yandex_orders campaign_id "PROCESSING" user with
    | None => inl (Detail "Buyurtmalarni olishda xato", 500)
    | Some orders => inr orders
    end.

(** [get_today_orders], under [@require_auth()]: the day is computed
    and not used. *)
Definition get_today_orders {E : Type}
    (fetch_yandex_orders : string → string → user → option (list E))
    (user : user) (campaign_id : string) : response + list E :=
  if String.eqb (role user) "seller"
     && negb (existsb (String.eqb campaign_id) (assigned_stores user)) then
    inl (Detail "Ruxsat yo'q", 403)
  else
    match fetch_yandex_orders campaign_id "PROCESSING" user with
    | None => inl (Detail "Xato yuz berdi", 500)
    | Some orders => inr orders
    end.

(** [SELECT d.* FROM decisions d JOIN accepted_returned ar ON
    d.order_id = ar.order_id WHERE ar.campaign_id = ? AND d.role =
    'supplier' AND d.decision = 'yes']: a row of [decisions] once for
    every row of [accepted_returned] it joins.  SQL leaves the order
    of the answer open; here it is that of [decisions]. *)
Definition joins (campaign_id : string) (d : decisions.row)
    (ar : accepted_returned.row) : bool :=
  String.eqb (decisions.order_id d) (accepted_returned.order_id ar)
  && String.eqb (accepted_returned.campaign_id ar) campaign_id.

Definition select_canceled (campaign_id : string) (db : DB) : list decisions.row :=
  flat_map
    (fun d =>
       List.map (fun _ => d)
         (List.filter (joins campaign_id d) (accepted_returned db)))
    (List.filter
       (fun d => String.eqb (decisions.role d) "supplier"
                 && String.eqb (decisions.decision d) "yes")
       (decisions db)).

(** [get_canceled_orders], under [@require_auth()]: rows of the
    ledger for a seller, orders of the marketplace for the others. *)
Definition get_canceled_orders {E : Type}
    (fetch_yandex_orders : string → string → user → option (list E))
    (user : user) (campaign_id : string) (db : DB)
    : response + (list decisions.row + list E) :=
  if String.eqb (role user) "seller" then
    if negb (existsb (String.eqb campaign_id) (assigned_stores user)) then
      inl (Detail "Ruxsat yo'q", 403)
    else inr (inl (select_canceled campaign_id db))
  else
    match fetch_yandex_orders campaign_id "CANCELLED" user with
    | None => inl (Detail "Xato yuz berdi", 500)
    | Some orders => inr (inr orders)
    end.

(** ** The list of users *)




(** ** The backend URL *)

(** The columns of [sessions] that a statement can set to a text, by
    name.  [CREATE TABLE sessions] has [token_hash], [username],
    [expiry] and [created_at]; a name that is none of them is no
    column of the table. *)
Definition sessions_text_column (c : string)
    : option (string → sessions.row → sessions.row) :=
  if String.eqb c "username" then
    Some (fun v r => {| sessions.username := v; sessions.expiry := sessions.expiry r |})
  else None.

(** [UPDATE sessions SET <column> = ?], on every row. *)
Definition update_sessions_set (column value : string) : M unit :=
  fun db =>
    match sessions_text_column column with
    | Some set => (inr tt, with_sessions db (set value <$> sessions db))
    | None => (no_such_column column, db)
    end.

(** [update_backend_url], under [@require_auth(["admin"])].  [url] is
    the field of the JSON object of the body, [backend_url] is
    [CONFIG["backend_url"]], which is written to [config.json] as
    well, and [metadata] the text that [json.dumps] makes of the new
    URL.  An exception of the statement leaves the handler. *)
Definition update_backend_url (PUBLIC_URL : option string) (metadata : string)
    (url : jfield string) (backend_url : option string) (a : app)
    : (exn + reply) * (option string * app) :=
  let new_url := get_or url "" in
  if falsy new_url then
    (inr (detail "URL talab qilinadi" 400), (backend_url, a))
  else
    match update_sessions_set "metadata" metadata (db a) with
    | (inl e, d) => (inl e, (new_url, with_db a d))
    | (inr _, d) =>
      (inr (Obj [("status", Str "success");
                 ("message", Str ("Backend URL yangilandi: " ++ default "" new_url));
                 ("public_url", match PUBLIC_URL with
                                | Some u => Str u
                                | None => Null
                                end)],
            200),
       (new_url, with_db a d))
    end.

(** ** Files of [temp/] *)

(** What [send_from_directory] gives: the file, or the [NotFound]
    that Flask answers with 404. *)
Inductive served : Type :=
| File (content : string)
| NotFound.

(** [serve_temp], which has no [require_auth]. *)
Definition serve_temp (filename : string) (a : app) : served :=
  match temp a !! filename with
  | Some content => File content
  | None => NotFound
  end.

(** A request [GET /temp/<filename>] through the hook and the
    handler. *)
Definition serve_serve_temp (now : Z) (authorization : option string)
    (filename : string) (a : app) : (response + served) * app :=
  let req := {| path := "/temp/" ++ filename; Authorization := authorization |} in
  match check_maintenance now req a with
  | (Some resp, a') => (inl resp, a')
  | (None, a') => (inr (serve_temp filename a'), a')
  end.

(** ** Vocabulary *)


(** The three names that [save_decisions] can report for a user on a
    day. *)
Definition report_names (today : string) (user : user) : list string :=
  let stem := today ++ "_" ++ username user ++ ".pdf" in
  ["positive_report_" ++ stem; "negative_report_" ++ stem;
   "returned_report_" ++ stem].

(** A supplier whose user name has a slash. *)
Definition sup_slash : user :=
  {| username := "a/b"; role := "supplier"; assigned_stores := [] |}.

Definition fpdf_ok : string → bool := fun _ => true.

Definition no_orders : string → string → user → option (list string) :=
  fun _ _ _ => None.

(** * Properties *)

(** ** The digest and the string functions on known values *)

Example sha256_constants :
  firstn 2 sha256_K = [0x428a2f98; 0x71374491]
  /\ last sha256_K = Some 0xc67178f2
  /\ firstn 2 sha256_H0 = [0x6a09e667; 0xbb67ae85]
  /\ length sha256_K = 64%nat.
Proof. vm_compute. repeat split. Qed.

Example sha256_abc :
  sha256_hex "abc"
  = "ba7816bf8f01cfea414140de5dae2223b00361a396177a9cb410ff61f20015ad".
Proof. vm_compute. reflexivity. Qed.

Example sha256_empty :
  sha256_hex ""
  = "e3b0c44298fc1c149afbf4c8996fb92427ae41e4649b934ca495991b7852b855".
Proof. vm_compute. reflexivity. Qed.

Example sha256_two_blocks :
  sha256_hex "abcdbcdecdefdefgefghfghighijhijkijkljklmklmnlmnomnopnopq"
  = "248d6a61d20638b8e5c026930c3e6039a33ce45964ff2167f6ecedd419db06c1".
Proof. vm_compute. reflexivity. Qed.

Example strip_bearer :
  strip (replace "Bearer " "" "Bearer  tok ") = "tok".
Proof. reflexivity. Qed.

Example endswith_public_url :
  endswith "/api/public_url" "/public_url" = true
  /\ endswith "/api/pdf/x.pdf" "/public_url" = false
  /\ endswith "url" "/public_url" = false.
Proof. repeat split. Qed.

(** ** SQL helpers *)

Lemma eqb_eq_true (a b : string) : String.eqb a b = true ↔ a = b.
Proof. apply String.eqb_eq. Qed.

Lemma sql_eq_true (cell : option string) (param : string) :
  sql_eq cell param = true ↔ cell = Some param.
Proof.
  destruct cell as [s|]; simpl.
  - rewrite String.eqb_eq. split; congruence.
  - split; discriminate.
Qed.

Lemma same_return_true oid cid r :
  same_return oid cid r = true ↔ return_key r = (oid, cid).
Proof.
  unfold same_return, return_key.
  rewrite andb_true_iff, !String.eqb_eq. split.
  - intros [-> ->]. reflexivity.
  - intros [= -> ->]. auto.
Qed.

Section UpdateWhere.
Context {A : Type} (where_ : A → bool) (set : A → A).

Lemma rowcount_zero (rows : list A) :
  Nat.eqb (length (List.filter where_ rows)) 0 = negb (existsb where_ rows).
Proof.
  induction rows as [|r rows IH]; simpl; [reflexivity|].
  destruct (where_ r); simpl; [reflexivity | exact IH].
Qed.

Lemma update_nothing (rows : list A) :
  existsb where_ rows = false →
  List.map (fun r => if where_ r then set r else r) rows = rows.
Proof.
  induction rows as [|r rows IH]; simpl; [reflexivity|].
  intros [Hr Hrows]%orb_false_iff. rewrite Hr, IH; auto.
Qed.

Lemma update_where_rows (rows : list A) :
  Forall2 (fun r r' => r' = if where_ r then set r else r)
    rows (fst (update_where where_ set rows)).
Proof.
  unfold update_where; simpl.
  induction rows as [|r rows IH]; simpl; constructor; auto.
Qed.
End UpdateWhere.

Lemma with_return_status_same db :
  with_return_status db (return_status db) (seq_return_status db) = db.
Proof. destruct db; reflexivity. Qed.

Lemma fetchone_some {A} (where_ : A → bool) rows r :
  fetchone where_ rows = Some r → In r rows ∧ where_ r = true.
Proof. apply find_some. Qed.

(** ** The two guarded transitions, unfolded *)

Lemma supplier_deliver_return_unfold fpdf now today user data db :
  supplier_deliver_return fpdf now today user data db =
  match keys_of data with
  | None => ((Detail "Order ID va Campaign ID talab qilinadi", 400), db)
  | Some (oid, cid) =>
    let owned r := same_return oid cid r
                   && sql_eq (return_status.supplier_username r) (username user) in
    let db' := with_return_status db
                 (fst (update_where owned (set_delivered now) (return_status db)))
                 (seq_return_status db) in
    if existsb owned (return_status db) then
      ((MessagePdf "success" "Qaytarilgan buyurtma topshirildi"
          (return_manifest fpdf today "supplier" user oid cid db'), 200), db')
    else ((Detail "Buyurtma topilmadi yoki siz qabul qilmagansiz", 400), db)
  end.
Proof.
  unfold supplier_deliver_return, keys_of.
  destruct (get (req_order_id data)) as [oid|]; [|reflexivity].
  destruct (get (req_campaign_id data)) as [cid|]; [|reflexivity].
  simpl falsy. destruct (String.eqb oid "" || String.eqb cid ""); [reflexivity|].
  unfold update_where. cbv beta iota zeta. simpl fst.
  rewrite rowcount_zero.
  destruct (existsb _ (return_status db)) eqn:Ex; simpl; [reflexivity|].
  rewrite update_nothing by exact Ex.
  rewrite with_return_status_same. reflexivity.
Qed.

Lemma seller_accept_return_unfold fpdf now today user data db :
  seller_accept_return fpdf now today user data db =
  match keys_of data with
  | None => ((Detail "Order ID va Campaign ID talab qilinadi", 400), db)
  | Some (oid, cid) =>
    let ready r := same_return oid cid r
                   && sql_eq (return_status.supplier_status r) "delivered" in
    let db' := with_return_status db
                 (fst (update_where ready (set_seller_accepted now (username user))
                         (return_status db)))
                 (seq_return_status db) in
    if existsb ready (return_status db) then
      ((MessagePdf "success" "Qaytarilgan buyurtma qabul qilindi"
          (return_manifest fpdf today "seller" user oid cid db'), 200), db')
    else ((Detail "Buyurtma topilmadi yoki hali topshirilmagan", 400), db)
  end.
Proof.
  unfold seller_accept_return, keys_of.
  destruct (get (req_order_id data)) as [oid|]; [|reflexivity].
  destruct (get (req_campaign_id data)) as [cid|]; [|reflexivity].
  simpl falsy. destruct (String.eqb oid "" || String.eqb cid ""); [reflexivity|].
  unfold update_where. cbv beta iota zeta. simpl fst.
  rewrite rowcount_zero.
  destruct (existsb _ (return_status db)) eqn:Ex; simpl; [reflexivity|].
  rewrite update_nothing by exact Ex.
  rewrite with_return_status_same. reflexivity.
Qed.

Lemma delivered_from_set now r : delivered_from now r (set_delivered now r).
Proof. repeat split. Qed.

Lemma seller_accepted_from_set now seller r :
  seller_accepted_from now seller r (set_seller_accepted now seller r).
Proof. repeat split. Qed.

Lemma guard_true oid cid (cell : return_status.row → option string) v r :
  same_return oid cid r && sql_eq (cell r) v = true
  ↔ return_key r = (oid, cid) ∧ cell r = Some v.
Proof. rewrite andb_true_iff, same_return_true, sql_eq_true. reflexivity. Qed.

Lemma existsb_false_all {A} (p : A → bool) l r :
  existsb p l = false → In r l → p r = false.
Proof.
  intros Hex Hin. destruct (p r) eqn:Hr; [|reflexivity].
  rewrite <- Hex. symmetry. apply existsb_exists. eauto.
Qed.

(** A guarded UPDATE of [return_status], for a guard [w] that decides
    [P] and a SET clause that takes a row to one related to it by [R]:
    the statement selects a row exactly when some row satisfies [P],
    and it relates the rows that satisfy [P] and keeps the others. *)
Section GuardedUpdate.
Context (P : return_status.row → Prop) (R : relation return_status.row).
Context (w : return_status.row → bool) (set : return_status.row → return_status.row).
Hypothesis w_decides : ∀ r, w r = true ↔ P r.
Hypothesis set_relates : ∀ r, R r (set r).

Lemma guarded_update_selects rows :
  existsb w rows = true ↔ ∃ r, In r rows ∧ P r.
Proof.
  rewrite existsb_exists. split; intros (r & Hin & Hr); exists r;
    (split; [exact Hin | apply w_decides, Hr]).
Qed.

Lemma guarded_update_rows rows :
  Forall2 (fun r r' => (P r → R r r') ∧ (¬ P r → r' = r))
    rows (fst (update_where w set rows)).
Proof.
  eapply Forall2_impl; [apply update_where_rows|].
  intros r r' ->. destruct (w r) eqn:E; split.
  - intros _. apply set_relates.
  - intros Hn. destruct Hn. apply w_decides, E.
  - intros Hr%w_decides. congruence.
  - reflexivity.
Qed.
End GuardedUpdate.

Lemma Forall2_kept (P : return_status.row → Prop) (R : relation return_status.row)
    rows :
  (∀ r, In r rows → ¬ P r) →
  Forall2 (fun r r' => (P r → R r r') ∧ (¬ P r → r' = r)) rows rows.
Proof.
  induction rows as [|r rows IH]; intros Hnone; constructor.
  - split; [intros Hr; destruct (Hnone r (or_introl eq_refl) Hr) | reflexivity].
  - apply IH. intros r' Hin. apply Hnone. right. exact Hin.
Qed.

Lemma only_return_rows_differ_refl db : only_return_rows_differ db db.
Proof.
  unfold only_return_rows_differ. symmetry. apply with_return_status_same.
Qed.

(** ** Delivery by the supplier *)

(** C4. [supplier_deliver_return] succeeds exactly when the table has
    a row that carries the order id and the campaign id of the request
    and whose [supplier_username] is the acting supplier; otherwise
    (the pair was never accepted, or another supplier accepted it) the
    request is answered 400 and the database is left as it was.  The
    rows it selects get [supplier_status = 'delivered'] and
    [supplier_delivered_at = now]; nothing else changes. *)
Theorem supplier_deliver_return_owned fpdf now today user data db :
  let result := supplier_deliver_return fpdf now today user data db in
  let owned r :=
    names_row data r ∧ return_status.supplier_username r = Some (username user) in
  (code (fst result) = 200 ↔ ∃ r, In r (return_status db) ∧ owned r)
  ∧ (code (fst result) = 200 ∨ code (fst result) = 400 ∧ snd result = db)
  ∧ only_return_rows_differ db (snd result)
  ∧ Forall2 (fun r r' => (owned r → delivered_from now r r') ∧ (¬ owned r → r' = r))
      (return_status db) (return_status (snd result)).
Proof.
  cbv zeta. unfold names_row. rewrite supplier_deliver_return_unfold.
  destruct (keys_of data) as [[oid cid]|]; cbv zeta.
  - set (w := fun r => same_return oid cid r && _).
    assert (Hw : ∀ r, w r = true
                      ↔ Some (oid, cid) = Some (return_key r)
                        ∧ return_status.supplier_username r = Some (username user)).
    { intros r. unfold w. rewrite guard_true.
      split; intros [Hk ?]; (split; [congruence | assumption]). }
    rewrite <- (guarded_update_selects _ w Hw).
    destruct (existsb w (return_status db)) eqn:Ex; simpl.
    + split; [tauto | split; [auto | split; [reflexivity|]]].
      apply (guarded_update_rows _ _ w _ Hw (delivered_from_set now)).
    + split; [split; discriminate | split; [auto | split]].
      * apply only_return_rows_differ_refl.
      * apply Forall2_kept. intros r Hin Hr%Hw.
        rewrite (existsb_false_all _ _ _ Ex Hin) in Hr. discriminate.
  - simpl. split; [|split; [auto | split]].
    + split; [discriminate | intros (r & _ & [=] & _)].
    + apply only_return_rows_differ_refl.
    + apply Forall2_kept. intros r _ [[=] _].
Qed.

(** ** Acceptance by the seller *)

(** C3. [seller_accept_return] succeeds exactly when the stored row
    of the order and the campaign has [supplier_status = 'delivered'];
    otherwise (the supplier has not delivered) the request is answered
    400 and the database is left as it was.  On success the row gets
    [seller_status = 'accepted'], the acting seller as
    [seller_username] and [seller_accepted_at = now]; nothing else
    changes. *)
Theorem seller_accept_return_guarded fpdf now today user data db :
  let result := seller_accept_return fpdf now today user data db in
  let ready r :=
    names_row data r ∧ return_status.supplier_status r = Some "delivered" in
  (code (fst result) = 200 ↔ ∃ r, In r (return_status db) ∧ ready r)
  ∧ (code (fst result) = 200 ∨ code (fst result) = 400 ∧ snd result = db)
  ∧ only_return_rows_differ db (snd result)
  ∧ Forall2
      (fun r r' =>
         (ready r → seller_accepted_from now (username user) r r')
         ∧ (¬ ready r → r' = r))
      (return_status db) (return_status (snd result)).
Proof.
  cbv zeta. unfold names_row. rewrite seller_accept_return_unfold.
  destruct (keys_of data) as [[oid cid]|]; cbv zeta.
  - set (w := fun r => same_return oid cid r && _).
    assert (Hw : ∀ r, w r = true
                      ↔ Some (oid, cid) = Some (return_key r)
                        ∧ return_status.supplier_status r = Some "delivered").
    { intros r. unfold w. rewrite guard_true.
      split; intros [Hk ?]; (split; [congruence | assumption]). }
    rewrite <- (guarded_update_selects _ w Hw).
    destruct (existsb w (return_status db)) eqn:Ex; simpl.
    + split; [tauto | split; [auto | split; [reflexivity|]]].
      apply (guarded_update_rows _ _ w _ Hw
               (seller_accepted_from_set now (username user))).
    + split; [split; discriminate | split; [auto | split]].
      * apply only_return_rows_differ_refl.
      * apply Forall2_kept. intros r Hin Hr%Hw.
        rewrite (existsb_false_all _ _ _ Ex Hin) in Hr. discriminate.
  - simpl. split; [|split; [auto | split]].
    + split; [discriminate | intros (r & _ & [=] & _)].
    + apply only_return_rows_differ_refl.
    + apply Forall2_kept. intros r _ [[=] _].
Qed.

(** ** Acceptance by the supplier *)

Lemma next_rowid_fresh seq ids id : In id ids → id < next_rowid seq ids.
Proof.
  unfold next_rowid. induction ids as [|i ids IH]; simpl; [intros []|].
  intros [-> | Hin]; [lia|]. specialize (IH Hin). lia.
Qed.

Lemma filter_ext_in' {A} (p q : A → bool) l :
  (∀ x, In x l → p x = q x) → List.filter p l = List.filter q l.
Proof.
  induction l as [|x l IH]; simpl; intros H; [reflexivity|].
  rewrite (H x (or_introl eq_refl)), IH; [reflexivity|].
  intros y Hy. apply H. right. exact Hy.
Qed.

Lemma supplier_accept_return_unfold now user data db :
  supplier_accept_return now user data db =
  match keys_of data with
  | None => ((Detail "Order ID va Campaign ID talab qilinadi", 400), db)
  | Some (oid, cid) =>
    let id := next_rowid (seq_return_status db)
                (List.map return_status.id (return_status db)) in
    ((Message "success" "Qaytarilgan buyurtma qabul qilindi", 200),
     with_return_status db
       (List.filter (fun r => negb (same_return oid cid r)) (return_status db)
        ++ [accepted_row id now (username user) oid cid])
       (Z.max (seq_return_status db) id))
  end.
Proof.
  unfold supplier_accept_return, keys_of.
  destruct (get (req_order_id data)) as [oid|]; [|reflexivity].
  destruct (get (req_campaign_id data)) as [cid|]; [|reflexivity].
  simpl falsy. destruct (String.eqb oid "" || String.eqb cid ""); [reflexivity|].
  cbv zeta. unfold insert_or_replace_return_status. fold (accepted_row
    (next_rowid (seq_return_status db) (List.map return_status.id (return_status db)))
    now (username user) oid cid).
  do 3 f_equal. apply filter_ext_in'. intros r Hin.
  unfold return_status_conflict. simpl.
  replace (return_status.id r =? _) with false; [reflexivity|].
  symmetry. apply Z.eqb_neq.
  pose proof (next_rowid_fresh (seq_return_status db) _ _
                (in_map return_status.id _ _ Hin)). lia.
Qed.

(** C9. The failing input, evaluated: a return that the supplier
    accepted, delivered and the seller accepted holds the seller's
    acceptance and the delivery time; after the supplier accepts it
    again the row of the pair is a new one, with [seller_status] back
    at ['pending'] and [seller_username], [supplier_delivered_at] and
    [seller_accepted_at] NULL, under a new [id] and [created_at]. *)
Theorem reaccept_replaces_row :
  return_status return_closed =
    [ {| return_status.id := 1;
         return_status.order_id := "O2";
         return_status.campaign_id := "C1";
         return_status.product_name := None;
         return_status.sku := None;
         return_status.quantity := None;
         return_status.supplier_status := Some "delivered";
         return_status.seller_status := Some "accepted";
         return_status.supplier_username := Some "sup1";
         return_status.seller_username := Some "sel1";
         return_status.supplier_accepted_at := Some 10;
         return_status.supplier_delivered_at := Some 20;
         return_status.seller_accepted_at := Some 30;
         return_status.created_at := Some 10 |} ]
  ∧ return_status return_reaccepted =
    [ {| return_status.id := 2;
         return_status.order_id := "O2";
         return_status.campaign_id := "C1";
         return_status.product_name := None;
         return_status.sku := None;
         return_status.quantity := None;
         return_status.supplier_status := Some "accepted";
         return_status.seller_status := Some "pending";
         return_status.supplier_username := Some "sup1";
         return_status.seller_username := None;
         return_status.supplier_accepted_at := Some 40;
         return_status.supplier_delivered_at := None;
         return_status.seller_accepted_at := None;
         return_status.created_at := Some 40 |} ].
Proof. split; vm_compute; reflexivity. Qed.

(** What the second acceptance does on any database: the rows of the
    pair are deleted and the row that takes their place holds nothing
    of them. *)
Lemma supplier_accept_return_replaces now user data db oid cid :
  keys_of data = Some (oid, cid) →
  ∃ id,
    return_status (snd (supplier_accept_return now user data db)) =
      (List.filter (fun r => negb (same_return oid cid r)) (return_status db)
       ++ [accepted_row id now (username user) oid cid])%list
    ∧ ∀ r, In r (return_status db) → return_status.id r < id.
Proof.
  intros Hk. rewrite supplier_accept_return_unfold, Hk. cbv zeta.
  eexists. split; [reflexivity|].
  intros r Hin. apply next_rowid_fresh. apply in_map. exact Hin.
Qed.

(** ** The manifest is best effort *)

Lemma in_update {A} (w : A → bool) (set : A → A) rows r :
  In r rows → w r = true →
  In (set r) (fst (update_where w set rows)).
Proof.
  intros Hin Hw. unfold update_where; simpl.
  apply in_map_iff. exists r. rewrite Hw. auto.
Qed.

(** C6. Whatever the renderer does, [supplier_deliver_return] and
    [seller_accept_return] leave the same database and answer with
    the same status; when the guarded UPDATE selected a row and the
    renderer fails, the answer is still the success message, with
    [pdf_filename] null, and the table holds the row in its new
    state: [supplier_status = 'delivered'] with the time of the
    delivery after [supplier_deliver_return], [seller_status =
    'accepted'] with the seller and the time of the acceptance after
    [seller_accept_return], every other column as it was. *)
Theorem manifest_failure_keeps_transition fpdf now today user data db :
  let failing := fun _ : string => false in
  let delivered := supplier_deliver_return failing now today user data db in
  let accepted := seller_accept_return failing now today user data db in
  (snd delivered = snd (supplier_deliver_return fpdf now today user data db)
   ∧ code (fst delivered)
     = code (fst (supplier_deliver_return fpdf now today user data db))
   ∧ ∀ r, In r (return_status db) → names_row data r →
       return_status.supplier_username r = Some (username user) →
       fst delivered
       = (MessagePdf "success" "Qaytarilgan buyurtma topshirildi" None, 200)
       ∧ ∃ r', In r' (return_status (snd delivered))
               ∧ delivered_from now r r')
  ∧ (snd accepted = snd (seller_accept_return fpdf now today user data db)
     ∧ code (fst accepted)
       = code (fst (seller_accept_return fpdf now today user data db))
     ∧ ∀ r, In r (return_status db) → names_row data r →
         return_status.supplier_status r = Some "delivered" →
         fst accepted
         = (MessagePdf "success" "Qaytarilgan buyurtma qabul qilindi" None, 200)
         ∧ ∃ r', In r' (return_status (snd accepted))
                 ∧ seller_accepted_from now (username user) r r').
Proof.
  cbv zeta. unfold names_row.
  rewrite !supplier_deliver_return_unfold, !seller_accept_return_unfold.
  destruct (keys_of data) as [[oid cid]|]; cbv zeta.
  2:{ repeat split; discriminate. }
  split.
  - set (w := fun r => same_return oid cid r && _).
    destruct (existsb w (return_status db)) eqn:Ex.
    + split; [reflexivity | split; [reflexivity | intros r Hin Hk Hu; split]].
      * unfold return_manifest, generate_return_pdf.
        destruct (fetchone _ _); [|reflexivity]. simpl.
        destruct (bool_decide _); reflexivity.
      * exists (set_delivered now r). split; [|apply delivered_from_set].
        simpl. apply in_update; [assumption|].
        unfold w. apply guard_true. split; congruence.
    + split; [reflexivity | split; [reflexivity | intros r Hin Hk Hu]].
      assert (Hw : w r = true) by (apply guard_true; split; congruence).
      rewrite (existsb_false_all _ _ _ Ex Hin) in Hw. discriminate.
  - set (w := fun r => same_return oid cid r && _).
    destruct (existsb w (return_status db)) eqn:Ex.
    + split; [reflexivity | split; [reflexivity | intros r Hin Hk Hu; split]].
      * unfold return_manifest, generate_return_pdf.
        destruct (fetchone _ _); [|reflexivity]. simpl.
        destruct (bool_decide _); reflexivity.
      * exists (set_seller_accepted now (username user) r).
        split; [|apply seller_accepted_from_set].
        simpl. apply in_update; [assumption|].
        unfold w. apply guard_true. split; congruence.
    + split; [reflexivity | split; [reflexivity | intros r Hin Hk Hu]].
      assert (Hw : w r = true) by (apply guard_true; split; congruence).
      rewrite (existsb_false_all _ _ _ Ex Hin) in Hw. discriminate.
Qed.

(** The delivery at 20 of the return accepted at 10, and its
    acceptance by the seller at 30, with a renderer that fails. *)
Example manifest_failure_at_delivery :
  fst (supplier_deliver_return no_fpdf 20 "2024-05-01" sup1 O2_C1
         (run [SupplierAccept 10 sup1 O2_C1] empty_db))
  = (MessagePdf "success" "Qaytarilgan buyurtma topshirildi" None, 200)
  ∧ List.map (fun r => (return_status.supplier_status r,
                        return_status.supplier_delivered_at r))
      (return_status
         (snd (supplier_deliver_return no_fpdf 20 "2024-05-01" sup1 O2_C1
                 (run [SupplierAccept 10 sup1 O2_C1] empty_db))))
    = [(Some "delivered", Some 20)]
  ∧ fst (seller_accept_return no_fpdf 30 "2024-05-01" sel1 O2_C1 return_delivered)
    = (MessagePdf "success" "Qaytarilgan buyurtma qabul qilindi" None, 200)
  ∧ List.map (fun r => (return_status.seller_status r,
                        return_status.seller_username r,
                        return_status.seller_accepted_at r))
      (return_status
         (snd (seller_accept_return no_fpdf 30 "2024-05-01" sel1 O2_C1
                 return_delivered)))
    = [(Some "accepted", Some "sel1", Some 30)].
Proof. repeat split; vm_compute; reflexivity. Qed.

(** The renderer never gets as far as the file on the rows this
    program writes: their [product_name] is NULL, and the slice of it
    raises. *)
Lemma return_manifest_of_null_name fpdf today role user oid cid db :
  (∀ r, In r (return_status db) → return_status.product_name r = None) →
  return_manifest fpdf today role user oid cid db = None.
Proof.
  intros Hnull. unfold return_manifest.
  destruct (fetchone _ _) as [row|] eqn:E; [|reflexivity].
  apply fetchone_some in E as [Hin _].
  unfold generate_return_pdf. simpl. rewrite (Hnull row Hin). reflexivity.
Qed.

(** ** One row per pair, and the direction of the statuses *)

Lemma supplier_rank_le s : (supplier_rank s ≤ 2)%nat.
Proof. unfold supplier_rank. repeat destruct (sql_eq _ _); lia. Qed.

Lemma seller_rank_le s : (seller_rank s ≤ 1)%nat.
Proof. unfold seller_rank. destruct (sql_eq _ _); lia. Qed.

Lemma forward_refl r : forward r r.
Proof. repeat split; lia. Qed.

Lemma forward_trans r1 r2 r3 : forward r1 r2 → forward r2 r3 → forward r1 r3.
Proof.
  intros (Hk1 & Hs1 & Hb1) (Hk2 & Hs2 & Hb2).
  repeat split; [congruence | lia | lia].
Qed.

Lemma Forall2_forward_refl rows : Forall2 forward rows rows.
Proof. induction rows; constructor; auto using forward_refl. Qed.

Lemma Forall2_forward_trans l1 l2 l3 :
  Forall2 forward l1 l2 → Forall2 forward l2 l3 → Forall2 forward l1 l3.
Proof.
  intros H12. revert l3. induction H12 as [|r1 r2 l1 l2 Hr H12 IH]; intros l3 H23.
  - inversion H23. constructor.
  - inversion H23 as [|? r3 ? l3' Hr' H23']; subst.
    constructor; [eapply forward_trans; eauto | auto].
Qed.

Lemma forward_set_delivered now r : forward r (set_delivered now r).
Proof.
  repeat split; simpl; [apply supplier_rank_le | lia].
Qed.

Lemma forward_set_seller_accepted now seller r :
  forward r (set_seller_accepted now seller r).
Proof.
  repeat split; simpl; [lia | apply seller_rank_le].
Qed.

Lemma Forall2_forward_update w set rows :
  (∀ r, forward r (set r)) →
  Forall2 forward rows (fst (update_where w set rows)).
Proof.
  intros Hset. eapply Forall2_impl; [apply update_where_rows|].
  intros r r' ->. destruct (w r); auto using forward_refl.
Qed.

Lemma Forall2_forward_keys l l' :
  Forall2 forward l l' → List.map return_key l' = List.map return_key l.
Proof.
  induction 1 as [|r r' l l' (Hk & _) _ IH]; simpl; [reflexivity|].
  rewrite Hk, IH. reflexivity.
Qed.

(** A step that is not an acceptance by the supplier moves every row
    forward or leaves it. *)
Lemma step_forward db op :
  is_accept op = false →
  Forall2 forward (return_status db) (return_status (step db op)).
Proof.
  destruct op as [now user data | fpdf now today user data
                 | fpdf now today user data]; simpl; [discriminate| |]; intros _.
  - rewrite supplier_deliver_return_unfold.
    destruct (keys_of data) as [[oid cid]|]; cbv zeta;
      [|apply Forall2_forward_refl].
    destruct (existsb _ _); simpl; [|apply Forall2_forward_refl].
    apply Forall2_forward_update. apply forward_set_delivered.
  - rewrite seller_accept_return_unfold.
    destruct (keys_of data) as [[oid cid]|]; cbv zeta;
      [|apply Forall2_forward_refl].
    destruct (existsb _ _); simpl; [|apply Forall2_forward_refl].
    apply Forall2_forward_update. apply forward_set_seller_accepted.
Qed.

Lemma NoDup_filter_keys (p : return_status.row → bool) rows :
  NoDup (List.map return_key rows) →
  NoDup (List.map return_key (List.filter p rows)).
Proof.
  induction rows as [|r rows IH]; simpl; intros Hnd; [constructor|].
  apply NoDup_cons in Hnd as [Hnotin Hnd].
  destruct (p r); simpl; [|auto].
  apply NoDup_cons. split; [|auto].
  intros Hin. apply Hnotin.
  apply list_elem_of_In in Hin. apply list_elem_of_In.
  apply in_map_iff in Hin as (r' & Hk & Hin').
  apply in_map_iff. exists r'. split; [exact Hk|].
  apply filter_In in Hin'. tauto.
Qed.

Lemma step_unique_keys db op : unique_keys db → unique_keys (step db op).
Proof.
  unfold unique_keys. intros Hnd.
  destruct (is_accept op) eqn:Hop.
  - destruct op as [now user data| |]; try discriminate. simpl.
    rewrite supplier_accept_return_unfold.
    destruct (keys_of data) as [[oid cid]|]; cbv zeta; simpl; [|exact Hnd].
    rewrite map_app. simpl. apply NoDup_app. split; [|split].
    + apply NoDup_filter_keys. exact Hnd.
    + intros k Hin Hk. apply list_elem_of_In in Hin.
      apply in_map_iff in Hin as (r & <- & Hr).
      apply filter_In in Hr as [_ Hr]. apply negb_true_iff in Hr.
      apply list_elem_of_In in Hk. destruct Hk as [Hk|[]].
      unfold accepted_row, return_key in Hk; simpl in Hk.
      assert (same_return oid cid r = true)
        by (apply same_return_true; unfold return_key; congruence).
      congruence.
    + apply NoDup_singleton.
  - rewrite (Forall2_forward_keys _ _ (step_forward db op Hop)). exact Hnd.
Qed.

Lemma run_app ops ops' db : run (ops ++ ops') db = run ops' (run ops db).
Proof. unfold run. apply fold_left_app. Qed.

Lemma run_unique_keys ops db : unique_keys db → unique_keys (run ops db).
Proof.
  revert db. induction ops as [|op ops IH]; intros db Hnd; [exact Hnd|].
  simpl. apply IH. apply step_unique_keys. exact Hnd.
Qed.

Lemma run_forward ops db :
  updates_in_place ops →
  Forall2 forward (return_status db) (return_status (run ops db)).
Proof.
  revert db. induction ops as [|op ops IH]; intros db Hops.
  - apply Forall2_forward_refl.
  - apply Forall_cons in Hops as [Hop Hops]. simpl.
    eapply Forall2_forward_trans; [apply step_forward, Hop | apply IH, Hops].
Qed.

Lemma fetchone_app_last {A} (w : A → bool) rows r :
  existsb w rows = false → w r = true →
  fetchone w (rows ++ [r]) = Some r.
Proof.
  unfold fetchone. induction rows as [|x rows IH]; simpl; intros Hex Hr.
  - rewrite Hr. reflexivity.
  - apply orb_false_iff in Hex as [Hx Hex]. rewrite Hx. auto.
Qed.

Lemma existsb_filter_negb {A} (w : A → bool) rows :
  existsb w (List.filter (fun r => negb (w r)) rows) = false.
Proof.
  induction rows as [|x rows IH]; simpl; [reflexivity|].
  destruct (w x) eqn:E; simpl; [exact IH|]. rewrite E. exact IH.
Qed.

(** C2, as the code has it.  Under any sequence of the three
    operations a table with one row per (order_id, campaign_id) keeps
    one row per pair; under [supplier_deliver_return] and
    [seller_accept_return] no row changes its pair and neither status
    of a row moves back; [supplier_accept_return] sets the
    [supplier_status] of the pair to ['accepted'] whatever it was. *)
Theorem return_status_direction ops db :
  unique_keys db →
  unique_keys (run ops db)
  ∧ (updates_in_place ops →
     Forall2 forward (return_status db) (return_status (run ops db)))
  ∧ ∀ now user data oid cid,
      keys_of data = Some (oid, cid) →
      ∃ r, fetchone (same_return oid cid)
             (return_status (step (run ops db) (SupplierAccept now user data)))
           = Some r
           ∧ return_status.supplier_status r = Some "accepted".
Proof.
  intros Hnd. split; [apply run_unique_keys, Hnd | split; [apply run_forward|]].
  intros now user data oid cid Hk. simpl.
  rewrite supplier_accept_return_unfold, Hk. cbv zeta. simpl.
  eexists. split.
  - apply fetchone_app_last.
    + apply existsb_filter_negb.
    + apply same_return_true. reflexivity.
  - reflexivity.
Qed.

Lemma return_status_direction_witness :
  unique_keys (run [SupplierAccept 10 sup1 O2_C1;
                    SupplierDeliver no_fpdf 20 "2024-05-01" sup1 O2_C1] empty_db)
  ∧ Forall2 forward (return_status return_delivered)
      (return_status
         (run [SellerAccept no_fpdf 30 "2024-05-01" sel1 O2_C1] return_delivered)).
Proof.
  split.
  - apply (return_status_direction _ empty_db). constructor.
  - apply (return_status_direction
             [SellerAccept no_fpdf 30 "2024-05-01" sel1 O2_C1] return_delivered).
    + apply (return_status_direction _ empty_db). constructor.
    + repeat constructor.
Defined.

(** C2, as the claim states it, fails: the pair that was delivered is
    back at ['accepted'] after the supplier accepts it again. *)
Lemma reaccept_moves_status_back :
  List.map return_status.supplier_status (return_status return_delivered)
  = [Some "delivered"]
  ∧ List.map return_status.supplier_status
      (return_status (step return_delivered (SupplierAccept 40 sup1 O2_C1)))
    = [Some "accepted"]
  ∧ (supplier_rank (Some "accepted") < supplier_rank (Some "delivered"))%nat.
Proof. repeat split; vm_compute; lia. Qed.

(** ** Before the delivery *)

Lemma in_update_inv {A} (w : A → bool) (set : A → A) rows r' :
  In r' (fst (update_where w set rows)) →
  ∃ r, In r rows ∧ r' = if w r then set r else r.
Proof.
  unfold update_where; simpl. intros (r & <- & Hin)%in_map_iff. eauto.
Qed.

Lemma step_undelivered k db op :
  ¬ delivers k op → undelivered k db → undelivered k (step db op).
Proof.
  intros Hop Hun.
  destruct op as [now user data | fpdf now today user data
                 | fpdf now today user data]; simpl.
  - rewrite supplier_accept_return_unfold.
    destruct (keys_of data) as [[oid cid]|]; cbv zeta; simpl; [|exact Hun].
    intros r [Hr%filter_In | [<- | []]]%in_app_iff Hk.
    + apply Hun; tauto.
    + discriminate.
  - rewrite supplier_deliver_return_unfold.
    destruct (keys_of data) as [[oid cid]|] eqn:Hd; cbv zeta; [|exact Hun].
    destruct (existsb _ _); simpl; [|exact Hun].
    intros r' (r & Hin & ->)%in_update_inv Hk.
    destruct (same_return oid cid r) eqn:Hs; simpl in *.
    + destruct (sql_eq _ _); [|apply Hun; assumption].
      apply same_return_true in Hs. destruct Hop. simpl.
      rewrite Hd. f_equal. rewrite <- Hs, <- Hk. reflexivity.
    + apply Hun; assumption.
  - rewrite seller_accept_return_unfold.
    destruct (keys_of data) as [[oid cid]|]; cbv zeta; [|exact Hun].
    destruct (existsb _ _); simpl; [|exact Hun].
    intros r' (r & Hin & ->)%in_update_inv Hk.
    destruct (_ && _); [|apply Hun; assumption].
    simpl. apply Hun; assumption.
Qed.

Lemma run_undelivered k ops db :
  Forall (fun op => ¬ delivers k op) ops →
  undelivered k db → undelivered k (run ops db).
Proof.
  revert db. induction ops as [|op ops IH]; intros db Hops Hun; [exact Hun|].
  apply Forall_cons in Hops as [Hop Hops]. simpl.
  apply IH; [exact Hops | apply step_undelivered; assumption].
Qed.

(** From the empty database, as long as no delivery request named the
    pair, the seller's acceptance of the pair is refused and changes
    nothing. *)
Lemma seller_accept_before_deliver ops fpdf now today user data k :
  keys_of data = Some k →
  Forall (fun op => ¬ delivers k op) ops →
  seller_accept_return fpdf now today user data (run ops empty_db)
  = ((Detail "Buyurtma topilmadi yoki hali topshirilmagan", 400),
     run ops empty_db).
Proof.
  intros Hk Hops.
  assert (Hun : undelivered k (run ops empty_db))
    by (apply run_undelivered; [exact Hops | intros r []]).
  rewrite seller_accept_return_unfold, Hk. destruct k as [oid cid]. cbv zeta.
  destruct (existsb _ _) eqn:Ex; [|reflexivity].
  apply existsb_exists in Ex as (r & Hin & (Hs & Hd)%guard_true).
  destruct (Hun r Hin Hs Hd).
Qed.

(** ** Daily decisions *)

Lemma filter_fresh_id {A} (id_of : A → Z) (rows : list A) seq :
  List.filter (fun r => negb (id_of r =? next_rowid seq (List.map id_of rows))) rows
  = rows.
Proof.
  rewrite <- (filter_ext_in' (fun _ => true)).
  - induction rows as [|r rows IH]; simpl; [reflexivity | f_equal; exact IH].
  - intros r Hin. symmetry. apply negb_true_iff, Z.eqb_neq.
    pose proof (next_rowid_fresh seq _ _ (in_map id_of _ _ Hin)). lia.
Qed.

(** The row that a seller's decision writes, and a supplier's. *)
Lemma save_daily_decision_unfold now user data db :
  save_daily_decision now user data db =
  match daily_fields data with
  | None => ((Detail "Barcha maydonlar talab qilinadi", 400), db)
  | Some (oid, cid, decision) =>
    let id := next_rowid (seq_daily_orders db)
                (List.map daily_orders.id (daily_orders db)) in
    let written row :=
      with_daily_orders db (daily_orders db ++ [row])
        (Z.max (seq_daily_orders db) id) in
    ((Message "success" "Qaror saqlandi", 200),
     if String.eqb (role user) "seller" then
       written
         {| daily_orders.id := id;
            daily_orders.order_id := oid;
            daily_orders.campaign_id := cid;
            daily_orders.product_name := None;
            daily_orders.sku := None;
            daily_orders.quantity := None;
            daily_orders.seller_decision := Some decision;
            daily_orders.supplier_decision := None;
            daily_orders.seller_username := Some (username user);
            daily_orders.supplier_username := None;
            daily_orders.status := Some "seller_accepted";
            daily_orders.alternative_product := None;
            daily_orders.created_at := Some now;
            daily_orders.updated_at := Some now |}
     else if String.eqb (role user) "supplier" then
       written
         {| daily_orders.id := id;
            daily_orders.order_id := oid;
            daily_orders.campaign_id := cid;
            daily_orders.product_name := None;
            daily_orders.sku := None;
            daily_orders.quantity := None;
            daily_orders.seller_decision := None;
            daily_orders.supplier_decision := Some decision;
            daily_orders.seller_username := None;
            daily_orders.supplier_username := Some (username user);
            daily_orders.status := Some "supplier_accepted";
            daily_orders.alternative_product :=
              get_or (dr_alternative_product data) "";
            daily_orders.created_at := Some now;
            daily_orders.updated_at := Some now |}
     else db)
  end.
Proof.
  unfold save_daily_decision, daily_fields.
  destruct (get (dr_order_id data)) as [oid|]; [|reflexivity].
  destruct (get (dr_campaign_id data)) as [cid|]; [|reflexivity].
  destruct (get (dr_decision data)) as [decision|]; simpl falsy;
    [|rewrite !orb_true_r; reflexivity].
  destruct (String.eqb oid "" || String.eqb cid "" || String.eqb decision "");
    [reflexivity|].
  cbv zeta. unfold insert_or_replace_daily_orders. simpl daily_orders.id.
  rewrite !filter_fresh_id. reflexivity.
Qed.

Lemma daily_step_one_sided db op :
  Forall one_sided (daily_orders db) →
  Forall one_sided (daily_orders (daily_step db op)).
Proof.
  destruct op as [[now user] data]. intros Hall. simpl.
  rewrite save_daily_decision_unfold.
  destruct (daily_fields data) as [[[oid cid] decision]|]; cbv zeta; [|exact Hall].
  simpl. destruct (String.eqb (role user) "seller"); simpl.
  - apply Forall_app. split; [exact Hall|].
    constructor; [right; reflexivity | constructor].
  - destruct (String.eqb (role user) "supplier"); simpl; [|exact Hall].
    apply Forall_app. split; [exact Hall|].
    constructor; [left; reflexivity | constructor].
Qed.

Lemma daily_step_appends db op :
  ∃ new, daily_orders (daily_step db op) = (daily_orders db ++ new)%list.
Proof.
  destruct op as [[now user] data]. simpl.
  rewrite save_daily_decision_unfold.
  destruct (daily_fields data) as [[[oid cid] decision]|]; cbv zeta; simpl.
  - destruct (String.eqb (role user) "seller"); simpl; [eauto|].
    destruct (String.eqb (role user) "supplier"); simpl; [eauto|].
    exists []. symmetry. apply app_nil_r.
  - exists []. symmetry. apply app_nil_r.
Qed.

(** C1. The failing input, evaluated, and what holds of every table
    that [save_daily_decision] builds.  After the seller's "no" and
    the supplier's "yes" for the same order and campaign the table has
    two rows, each with one decision, and [get_daily_orders] shows
    the first: the seller's decision, no supplier decision, status
    ['seller_accepted'].  In general no row ever holds both decisions:
    a request appends a row and leaves the rows before it as they
    were. *)
Theorem daily_decisions_never_meet :
  (List.map (fun r => (daily_orders.id r,
                  daily_orders.seller_decision r,
                  daily_orders.supplier_decision r,
                  daily_orders.status r))
     (daily_orders seller_then_supplier)
   = [(1, Some "no", None, Some "seller_accepted");
      (2, None, Some "yes", Some "supplier_accepted")]
   ∧ daily_overlay "C1" "O1" seller_then_supplier
     = (Some "no", None, Some "seller_accepted"))
  ∧ (∀ ops, Forall one_sided (daily_orders (daily_run ops empty_db)))
  ∧ (∀ db op, ∃ new,
       daily_orders (daily_step db op) = (daily_orders db ++ new)%list).
Proof.
  split; [split; vm_compute; reflexivity | split].
  - intros ops. unfold daily_run.
    assert (H : Forall one_sided (daily_orders empty_db)) by constructor.
    revert H. generalize empty_db.
    induction ops as [|op ops IH]; intros db H; simpl; [exact H|].
    apply IH. apply daily_step_one_sided. exact H.
  - apply daily_step_appends.
Qed.

(** C8. The seller's "alternative" is not refused: it is answered
    with success and written as [seller_decision], without the
    product.  The table's own comments give ['yes', 'no'] for
    [seller_decision] and keep ['alternative'] for
    [supplier_decision], and only the supplier's statement has
    [alternative_product]. *)
Lemma seller_alternative_is_saved :
  fst seller_alternative = (Message "success" "Qaror saqlandi", 200)
  ∧ List.map (fun r => (daily_orders.seller_decision r,
                        daily_orders.seller_username r,
                        daily_orders.status r,
                        daily_orders.alternative_product r))
      (daily_orders (snd seller_alternative))
    = [(Some "alternative", Some "sel1", Some "seller_accepted", None)].
Proof. split; vm_compute; reflexivity. Qed.

(** The decision "alternative" for both roles.  A body that names
    the order, the campaign and the decision "alternative" is
    accepted from a supplier and from a seller alike, and one row is
    appended: the supplier's row holds the decision and the
    [alternative_product] of the body (the empty string when the body
    has none), the seller's row holds the decision and no
    [alternative_product]. *)
Theorem alternative_is_saved now user data db oid cid :
  daily_fields data = Some (oid, cid, "alternative") →
  role user = "seller" ∨ role user = "supplier" →
  fst (save_daily_decision now user data db)
  = (Message "success" "Qaror saqlandi", 200)
  ∧ ∃ row,
      daily_orders (snd (save_daily_decision now user data db))
      = (daily_orders db ++ [row])%list
      ∧ daily_orders.order_id row = oid
      ∧ daily_orders.campaign_id row = cid
      ∧ (role user = "supplier" →
         daily_orders.supplier_decision row = Some "alternative"
         ∧ daily_orders.supplier_username row = Some (username user)
         ∧ daily_orders.alternative_product row
           = get_or (dr_alternative_product data) "")
      ∧ (role user = "seller" →
         daily_orders.seller_decision row = Some "alternative"
         ∧ daily_orders.seller_username row = Some (username user)
         ∧ daily_orders.alternative_product row = None).
Proof.
  intros Hf Hrole. rewrite save_daily_decision_unfold, Hf. cbv zeta.
  split; [reflexivity|]. simpl snd.
  destruct Hrole as [Hr | Hr]; rewrite Hr; simpl;
    (eexists; split; [reflexivity|]; repeat split; congruence).
Qed.

Lemma alternative_is_saved_witness :
  fst (save_daily_decision 10 sup1 (daily "alternative" (Given "P9")) empty_db)
  = (Message "success" "Qaror saqlandi", 200)
  ∧ ∃ row,
      daily_orders
        (snd (save_daily_decision 10 sup1 (daily "alternative" (Given "P9"))
                empty_db))
      = [row]
      ∧ daily_orders.order_id row = "O1"
      ∧ daily_orders.campaign_id row = "C1"
      ∧ (role sup1 = "supplier" →
         daily_orders.supplier_decision row = Some "alternative"
         ∧ daily_orders.supplier_username row = Some "sup1"
         ∧ daily_orders.alternative_product row = Some "P9")
      ∧ (role sup1 = "seller" →
         daily_orders.seller_decision row = Some "alternative"
         ∧ daily_orders.seller_username row = Some "sup1"
         ∧ daily_orders.alternative_product row = None).
Proof.
  apply (alternative_is_saved 10 sup1 (daily "alternative" (Given "P9"))
           empty_db "O1" "C1").
  - reflexivity.
  - right. reflexivity.
Defined.

(** ** Saved decisions *)

Lemma save_one_ok now user temp_save d db :
  well_formed d →
  ∃ db' r a,
    save_one now user temp_save d db = (inr tt, db')
    ∧ decisions db' = (decisions db ++ [r])%list
    ∧ ledger_row now user temp_save d r
    ∧ accepted_returned db' = (accepted_returned db ++ [a])%list
    ∧ audit_row now user d a
    ∧ processed_orders db' = processed_orders db
    ∧ only_ledger_differs db db'.
Proof.
  intros ([oid Ho] & [dec Hd] & [cid Hc]).
  unfold save_one, mbind, M_bind, insert_decisions, insert_accepted_returned.
  rewrite Ho, Hd, Hc. simpl.
  eexists _, _, _. split; [reflexivity|]. simpl.
  unfold ledger_row, audit_row. rewrite Ho, Hd, Hc.
  split; [reflexivity|]. split; [repeat split|].
  split; [reflexivity|]. split; [repeat split|].
  split; [reflexivity | repeat split].
Qed.

Lemma for_each_save_one now user temp_save items db :
  Forall well_formed items →
  ∃ db' rows audit,
    for_each (save_one now user temp_save) items db = (inr tt, db')
    ∧ decisions db' = (decisions db ++ rows)%list
    ∧ Forall2 (ledger_row now user temp_save) items rows
    ∧ accepted_returned db' = (accepted_returned db ++ audit)%list
    ∧ Forall2 (audit_row now user) items audit
    ∧ processed_orders db' = processed_orders db
    ∧ only_ledger_differs db db'.
Proof.
  intros Hwf. revert db.
  induction Hwf as [|d items Hd _ IH]; intros db.
  - exists db, [], []. simpl. rewrite !app_nil_r.
    repeat split; constructor.
  - destruct (save_one_ok now user temp_save d db Hd)
      as (db1 & r & a & Hone & Hr1 & Hr & Ha1 & Ha & Hp1 & Hf1).
    destruct (IH db1)
      as (db' & rows & audit & Hrun & Hrows & Hl & Haudit & Hal & Hp & Hframe).
    exists db', (r :: rows), (a :: audit).
    split.
    { simpl. unfold mbind, M_bind at 1. rewrite Hone. exact Hrun. }
    rewrite Hrows, Haudit, Hr1, Ha1, Hp, Hp1, <- !app_assoc. simpl.
    destruct Hf1 as (? & ? & ? & ? & ?), Hframe as (? & ? & ? & ? & ?).
    repeat split; try constructor; try assumption; congruence.
Qed.




(** ** Old orders *)

Lemma text_column_in_columns c f :
  text_column c = Some f → In c decisions.columns.
Proof.
  unfold text_column, decisions.columns. intros H.
  repeat match type of H with
         | (if String.eqb c ?s then _ else _) = Some _ =>
           destruct (String.eqb_spec c s) as [->|_]; [simpl; tauto|]
         end.
  discriminate.
Qed.

Lemma campaign_id_is_no_column : ¬ In "campaign_id" decisions.columns.
Proof. simpl. intuition discriminate. Qed.

Lemma insert_desc_perm r l : Permutation (insert_desc r l) (r :: l).
Proof.
  induction l as [|r' l IH]; simpl; [reflexivity|].
  destruct (_ <=? _); [reflexivity|].
  rewrite IH. apply perm_swap.
Qed.

Lemma order_by_timestamp_desc_perm l : Permutation (order_by_timestamp_desc l) l.
Proof.
  unfold order_by_timestamp_desc.
  induction l as [|r l IH]; simpl; [reflexivity|].
  rewrite insert_desc_perm, IH. reflexivity.
Qed.

Lemma insert_desc_sorted r l :
  StronglySorted newer_or_equal l →
  StronglySorted newer_or_equal (insert_desc r l).
Proof.
  induction l as [|r' l IH]; simpl; intros Hs.
  - repeat constructor.
  - apply StronglySorted_cons in Hs as [Hall Hs].
    destruct (_ <=? _) eqn:E.
    + apply Z.leb_le in E. apply StronglySorted_cons. split.
      * constructor; [exact E|].
        eapply Forall_impl; [exact Hall|]. unfold newer_or_equal. intros; lia.
      * apply StronglySorted_cons. auto.
    + apply Z.leb_gt in E. apply StronglySorted_cons. split; [|auto].
      rewrite (insert_desc_perm r l). constructor; [|exact Hall].
      unfold newer_or_equal. lia.
Qed.

Lemma order_by_timestamp_desc_sorted l :
  StronglySorted newer_or_equal (order_by_timestamp_desc l).
Proof.
  unfold order_by_timestamp_desc.
  induction l as [|r l IH]; simpl; [constructor | apply insert_desc_sorted, IH].
Qed.

Lemma in_firstn {A} n (l : list A) x : In x (firstn n l) → In x l.
Proof.
  intros H. rewrite <- (firstn_skipn n l). apply in_or_app. left. exact H.
Qed.

Lemma limit_order_filter limit (p : decisions.row → bool) ledger :
  most_recent limit (fun r => p r = true) ledger
    (firstn limit (order_by_timestamp_desc (List.filter p ledger))).
Proof.
  set (l := order_by_timestamp_desc (List.filter p ledger)).
  assert (Hin : ∀ r, In r l ↔ In r ledger ∧ p r = true).
  { intros r. rewrite <- filter_In. unfold l.
    rewrite <- !list_elem_of_In.
    rewrite (order_by_timestamp_desc_perm (List.filter p ledger)). reflexivity. }
  assert (Hs : StronglySorted newer_or_equal (firstn limit l ++ skipn limit l))
    by (rewrite firstn_skipn; apply order_by_timestamp_desc_sorted).
  split; [apply firstn_le_length|].
  split; [intros r Hr; apply Hin; eapply in_firstn; exact Hr|].
  split; [eapply StronglySorted_app_1_l; exact Hs|].
  - intros r Hr Hp.
    assert (Hl : In r (firstn limit l ++ skipn limit l))
      by (rewrite firstn_skipn; apply Hin; auto).
    apply in_app_iff in Hl as [Hl | Hl]; [left; exact Hl | right].
    split.
    + rewrite length_firstn. apply Nat.min_l.
      destruct (Nat.le_gt_cases limit (length l)) as [Hle | Hgt]; [exact Hle|].
      rewrite skipn_all2 in Hl by lia. destruct Hl.
    + intros r' Hr'. eapply StronglySorted_app_1_elem_of; [exact Hs | |];
        apply list_elem_of_In; assumption.
Qed.

Lemma most_recent_ext limit (P Q : decisions.row → Prop) ledger rows :
  (∀ r, P r ↔ Q r) → most_recent limit P ledger rows → most_recent limit Q ledger rows.
Proof.
  intros HPQ (Hlen & Hin & Hs & Htop).
  split; [exact Hlen|]. split; [|split; [exact Hs|]].
  - intros r Hr. destruct (Hin r Hr). split; [assumption | apply HPQ; assumption].
  - intros r Hr Hq. apply Htop; [assumption | apply HPQ, Hq].
Qed.

Lemma date_before_true now (r : decisions.row) :
  match decisions.timestamp r with
  | Some t => date t <? date now - 30
  | None => false
  end = true ↔ older_than_30_days now r.
Proof.
  unfold older_than_30_days. destruct (decisions.timestamp r) as [t|].
  - rewrite Z.ltb_lt. split; [eauto | intros (t' & [= <-] & H); exact H].
  - split; [discriminate | intros (t' & [=] & _)].
Qed.

(** The sibling paths: the supplier gets the 100 most recent of the
    own decisions older than 30 days, the admin the 200 most recent of
    all decisions older than 30 days. *)
Lemma old_orders_of_supplier now user db :
  role user = "supplier" →
  ∃ rows,
    get_old_orders now user db = inr rows
    ∧ most_recent 100
        (fun r => decisions.username r = username user
                  ∧ decisions.role r = "supplier"
                  ∧ older_than_30_days now r)
        (decisions db) rows.
Proof.
  intros Hrole. unfold get_old_orders. rewrite Hrole. simpl.
  unfold select_decisions. simpl. eexists. split; [reflexivity|].
  eapply most_recent_ext; [|apply limit_order_filter].
  intros r. simpl. rewrite !andb_true_iff, !String.eqb_eq, date_before_true.
  tauto.
Qed.

Lemma old_orders_of_admin now user db :
  role user = "admin" →
  ∃ rows,
    get_old_orders now user db = inr rows
    ∧ most_recent 200 (older_than_30_days now) (decisions db) rows.
Proof.
  intros Hrole. unfold get_old_orders. rewrite Hrole. simpl.
  unfold select_decisions. simpl. eexists. split; [reflexivity|].
  eapply most_recent_ext; [|apply limit_order_filter].
  intros r. simpl. rewrite andb_true_iff, date_before_true. tauto.
Qed.

(** C7. The failing input, evaluated.  The query of a seller names
    the column [campaign_id], which [decisions] does not have: for
    every seller, on every ledger, it raises and returns no row.  On a
    ledger with an old decision of the seller "sel1" and one of the
    supplier "sup1", the seller gets the error and the supplier gets
    the own row. *)
Theorem old_orders_of_seller_raise :
  (∀ now user db,
     role user = "seller" →
     get_old_orders now user db
     = inl (OperationalError "no such column: campaign_id"))
  ∧ get_old_orders day_40 sel1 old_ledger
    = inl (OperationalError "no such column: campaign_id")
  ∧ get_old_orders day_40 sup1 old_ledger
    = inr [old_decision 2 "sup1" "supplier" 200].
Proof.
  split; [|split; vm_compute; reflexivity].
  intros now user db Hrole. unfold get_old_orders. rewrite Hrole. reflexivity.
Qed.

(** ** The manifest download *)

(** C10, as the claim states it, fails: in maintenance mode the hook
    that runs before every handler lets the request with the admin's
    token through to the file and answers the request without a token
    423. *)
Lemma get_pdf_behind_maintenance :
  fst (serve_get_pdf 500 (Some "Bearer tok") "m.pdf" (some_app true))
  = (Attachment "%PDF-1.3", 200)
  ∧ fst (serve_get_pdf 500 None "m.pdf" (some_app true))
    = (Locked "Sayt vaqtincha to'xtatilgan. Iltimos, keyinroq qayta urinib ko'ring.",
       423).
Proof. split; vm_compute; reflexivity. Qed.

(** C10, as the code has it.  While maintenance mode is off, a
    request for a manifest is answered by [get_pdf] alone, which reads
    no credential: whatever the [Authorization] headers of two
    requests for the same file name, the answers are the same, the
    file or the 404, and the application state is untouched. *)
Theorem get_pdf_ignores_credentials now auth1 auth2 filename a :
  MAINTENANCE_MODE a = false →
  serve_get_pdf now auth1 filename a = serve_get_pdf now auth2 filename a
  ∧ serve_get_pdf now auth1 filename a = (get_pdf filename a, a)
  ∧ (get_pdf filename a = (Detail "Fayl topilmadi", 404)
     ∨ ∃ content, temp a !! filename = Some content
                  ∧ get_pdf filename a = (Attachment content, 200)).
Proof.
  intros Hoff. unfold serve_get_pdf, check_maintenance. simpl.
  rewrite Hoff. simpl. split; [reflexivity | split; [reflexivity|]].
  unfold get_pdf. destruct (temp a !! filename) as [content|]; eauto.
Qed.

Lemma get_pdf_ignores_credentials_witness :
  serve_get_pdf 500 (Some "Bearer tok") "m.pdf" (some_app false)
  = serve_get_pdf 500 None "m.pdf" (some_app false)
  ∧ serve_get_pdf 500 (Some "Bearer tok") "m.pdf" (some_app false)
    = (get_pdf "m.pdf" (some_app false), some_app false)
  ∧ (get_pdf "m.pdf" (some_app false) = (Detail "Fayl topilmadi", 404)
     ∨ ∃ content, temp (some_app false) !! "m.pdf" = Some content
                  ∧ get_pdf "m.pdf" (some_app false) = (Attachment content, 200)).
Proof.
  apply (get_pdf_ignores_credentials 500 (Some "Bearer tok") None "m.pdf"
           (some_app false)).
  reflexivity.
Defined.

(** An expired token is treated like none, and its session is
    deleted on the way. *)
Example expired_token_is_locked_out :
  fst (serve_get_pdf 2000 (Some "Bearer tok") "m.pdf" (some_app true))
  = (Locked "Sayt vaqtincha to'xtatilgan. Iltimos, keyinroq qayta urinib ko'ring.",
     423)
  ∧ sessions (db (snd (serve_get_pdf 2000 (Some "Bearer tok") "m.pdf"
                         (some_app true)))) = ∅.
Proof. split; vm_compute; reflexivity. Qed.

(** * The rest of the application *)

(** ** Tokens *)

Lemma with_sessions_same d : with_sessions d (sessions d) = d.
Proof. destruct d; reflexivity. Qed.

Lemma with_db_same a : with_db a (db a) = a.
Proof. destruct a; reflexivity. Qed.

Lemma sessions_dropped_refl a : sessions_dropped a a.
Proof.
  split; [reflexivity|]. rewrite with_sessions_same, with_db_same. reflexivity.
Qed.

Lemma authenticates_unique now token a u u' :
  authenticates now token a u → authenticates now token a u' → u = u'.
Proof.
  intros (_ & row & Hrow & _ & Hu) (_ & row' & Hrow' & _ & Hu'). congruence.
Qed.

(** What [get_user_from_token] returns and what it leaves. *)
Lemma get_user_from_token_cases now token a :
  (∃ u, authenticates now token a u
        ∧ get_user_from_token now token a = (Some u, a))
  ∨ ((∀ u, ¬ authenticates now token a u)
     ∧ fst (get_user_from_token now token a) = None
     ∧ sessions_dropped a (snd (get_user_from_token now token a))).
Proof.
  unfold get_user_from_token, authenticates.
  destruct (String.eqb_spec token "") as [->|Hne].
  { right. split; [intros u [H _]; apply H; reflexivity|].
    split; [reflexivity | apply sessions_dropped_refl]. }
  destruct (sessions (db a) !! sha256_hex token) as [row|] eqn:Hrow.
  2:{ right. split; [intros u (_ & row & [=] & _) | ].
      split; [reflexivity | apply sessions_dropped_refl]. }
  destruct (sessions.expiry row <? now) eqn:Hexp.
  - apply Z.ltb_lt in Hexp. right.
    split; [intros u (_ & row' & [= <-] & Hle & _); lia|].
    split; [reflexivity|]. split; simpl.
    + apply delete_subseteq.
    + reflexivity.
  - apply Z.ltb_ge in Hexp.
    destruct (users a !! sessions.username row) as [u|] eqn:Hu.
    + left. exists u. split; [|reflexivity]. eauto 6.
    + right. split; [intros u (_ & row' & [= <-] & _ & Hu'); congruence|].
      split; [reflexivity | apply sessions_dropped_refl].
Qed.

Lemma string_prefix_nil s : String.prefix "" s = true.
Proof. destruct s; reflexivity. Qed.

(** The prefix [Bearer ] of a header is optional: the token read is
    the same with it and without. *)
Lemma token_of_bearer t : token_of ("Bearer " ++ t) = token_of t.
Proof.
  unfold token_of, replace. simpl. rewrite string_prefix_nil. reflexivity.
Qed.

(** ** The digest is a string of hexadecimal digits *)

Lemma isascii_app s1 s2 : isascii (s1 ++ s2) = isascii s1 && isascii s2.
Proof.
  unfold isascii. induction s1 as [|c s1 IH]; simpl; [reflexivity|].
  rewrite IH. apply andb_assoc.
Qed.

Lemma isascii_concat l :
  Forall (fun s => isascii s = true) l → isascii (String.concat "" l) = true.
Proof.
  induction 1 as [|s l Hs Hl IH]; [reflexivity|]. simpl.
  destruct l as [|s' l']; [exact Hs|].
  rewrite isascii_app, Hs. exact IH.
Qed.

Lemma hex_digit_ascii n :
  0 ≤ n < 16 → (nat_of_ascii (hex_digit n) <? 128)%nat = true.
Proof.
  intros Hn.
  assert (H : n = 0 ∨ n = 1 ∨ n = 2 ∨ n = 3 ∨ n = 4 ∨ n = 5 ∨ n = 6 ∨ n = 7
              ∨ n = 8 ∨ n = 9 ∨ n = 10 ∨ n = 11 ∨ n = 12 ∨ n = 13 ∨ n = 14
              ∨ n = 15) by lia.
  repeat (destruct H as [->|H]; [reflexivity|]). subst. reflexivity.
Qed.

Lemma hex_byte_ascii b : 0 ≤ b < 256 → isascii (hex_byte b) = true.
Proof.
  intros Hb. unfold isascii, hex_byte. simpl.
  rewrite !hex_digit_ascii; [reflexivity | |].
  - change 15 with (Z.ones 4). rewrite Z.land_ones by lia.
    apply Z.mod_pos_bound. lia.
  - rewrite Z.shiftr_div_pow2 by lia. change (2 ^ 4) with 16.
    split; [apply Z.div_pos; lia | apply Z.div_lt_upper_bound; lia].
Qed.

Lemma be_bytes_range n x : Forall (fun b => 0 ≤ b < 256) (be_bytes n x).
Proof.
  induction n as [|n IH]; simpl; constructor; [|exact IH].
  change 255 with (Z.ones 8). rewrite Z.land_ones by lia.
  apply Z.mod_pos_bound. lia.
Qed.

Lemma sha256_hex_ascii s : isascii (sha256_hex s) = true.
Proof.
  unfold sha256_hex. apply isascii_concat. apply Forall_map.
  generalize (sha256_blocks
                (Nat.div (length (be_words (sha256_pad (utf8 s)))) 16)
                sha256_H0 (be_words (sha256_pad (utf8 s)))).
  intros h. induction h as [|x h IH]; [constructor|].
  change (Forall (fun b => isascii (hex_byte b) = true)
            (be_bytes 4 x ++ flat_map (be_bytes 4) h)).
  apply Forall_app. split; [|exact IH].
  eapply Forall_impl; [apply be_bytes_range|]. apply hex_byte_ascii.
Qed.

(** ** The wrapper *)

Lemma allowed_decide roles r :
  nonempty roles && negb (existsb (String.eqb r) roles) = false ↔ allowed roles r.
Proof.
  unfold allowed. destruct roles as [|r0 roles]; [simpl; tauto|].
  change (nonempty (r0 :: roles)) with true.
  rewrite andb_true_l, negb_false_iff, existsb_exists. split.
  - intros (x & Hin & ->%String.eqb_eq). right. exact Hin.
  - intros [[=] | Hin]. exists r. split; [exact Hin | apply String.eqb_refl].
Qed.

Lemma require_auth_cases {A} roles now h (f : user → app → A * app) a :
  h ≠ "" →
  (∃ u, authenticates now (token_of h) a u
        ∧ require_auth roles now (Some h) f a =
          if nonempty roles && negb (existsb (String.eqb (role u)) roles)
          then (inl (detail "Ruxsat yo'q" 403), a)
          else (inr (fst (f u a)), snd (f u a)))
  ∨ ((∀ u, ¬ authenticates now (token_of h) a u)
     ∧ fst (require_auth roles now (Some h) f a)
       = inl (detail "Yaroqsiz token yoki sessiya muddati tugagan" 401)
     ∧ sessions_dropped a (snd (require_auth roles now (Some h) f a))).
Proof.
  intros Hh. unfold require_auth.
  destruct (String.eqb_spec h "") as [|_]; [contradiction|].
  cbv zeta. fold (token_of h).
  destruct (get_user_from_token_cases now (token_of h) a)
    as [(u & Hu & ->) | (Hnone & Hfst & Hsnd)].
  - left. exists u. split; [exact Hu|].
    destruct (_ && _); [reflexivity|]. destruct (f u a). reflexivity.
  - right. destruct (get_user_from_token now (token_of h) a) as [[u|] a'];
      [discriminate|]. auto.
Qed.

(** X1. A handler under [require_auth] runs exactly when the header
    holds a token (with or without [Bearer ]) whose digest names a
    session that is not past its expiry, of a user of [users] whose
    role is among the roles the route names (any role when it names
    none); it then runs on the state as it was.  Otherwise the answer
    is 401 or 403, 403 only for an authenticated user of another
    role, and the state has changed at most by sessions that were
    deleted. *)
Theorem require_auth_guard {A} roles now authorization
    (f : user → app → A * app) a :
  let result := require_auth roles now authorization f a in
  (∀ h u, authorization = Some h →
          authenticates now (token_of h) a u → allowed roles (role u) →
          result = (inr (fst (f u a)), snd (f u a)))
  ∧ (∀ r, fst result = inr r →
          ∃ h u, authorization = Some h
                 ∧ authenticates now (token_of h) a u ∧ allowed roles (role u))
  ∧ (∀ e, fst result = inl e →
          sessions_dropped a (snd result)
          ∧ (snd e = 401
             ∨ snd e = 403
               ∧ ∃ h u, authorization = Some h
                        ∧ authenticates now (token_of h) a u
                        ∧ ¬ allowed roles (role u))).
Proof.
  cbv zeta. destruct authorization as [h|].
  2:{ simpl. split; [discriminate | split; [discriminate|]].
      intros e [= <-]. split; [apply sessions_dropped_refl | left; reflexivity]. }
  destruct (String.eqb_spec h "") as [->|Hh].
  { simpl. split; [|split; [discriminate|]].
    - intros h u [= <-] [Hne _]. destruct Hne. reflexivity.
    - intros e [= <-]. split; [apply sessions_dropped_refl | left; reflexivity]. }
  destruct (require_auth_cases roles now h f a Hh)
    as [(u & Hu & ->) | (Hnone & Hfst & Hsnd)].
  - destruct (nonempty roles && negb (existsb (String.eqb (role u)) roles)) eqn:E.
    + assert (Hna : ¬ allowed roles (role u))
        by (rewrite <- allowed_decide; congruence).
      split; [|split; [discriminate|]].
      * intros h' u' [= <-] Hu' Hal.
        rewrite (authenticates_unique _ _ _ _ _ Hu Hu') in Hna. contradiction.
      * intros e [= <-]. split; [apply sessions_dropped_refl|].
        right. split; [reflexivity|]. eauto.
    + apply allowed_decide in E. split; [|split; [|discriminate]].
      * intros h' u' [= <-] Hu' _.
        rewrite (authenticates_unique _ _ _ _ _ Hu Hu'). reflexivity.
      * intros r _. eauto.
  - rewrite Hfst. split; [|split; [discriminate|]].
    + intros h' u' [= <-] Hu' _. destruct (Hnone u' Hu').
    + intros e [= <-]. split; [exact Hsnd | left; reflexivity].
Qed.

(** ** Login and logout *)

Lemma get_user_from_token_open now token a row u :
  token ≠ "" →
  sessions (db a) !! sha256_hex token = Some row →
  now ≤ sessions.expiry row →
  users a !! sessions.username row = Some u →
  get_user_from_token now token a = (Some u, a).
Proof.
  intros Hne Hrow Hle Hu.
  destruct (get_user_from_token_cases now token a)
    as [(u' & Hu' & ->) | (Hnone & _)].
  - f_equal. f_equal. eapply authenticates_unique; [exact Hu'|].
    split; [exact Hne|]. eauto.
  - destruct (Hnone u). split; [exact Hne|]. eauto.
Qed.

Lemma login_ok session_token now PUBLIC_URL password_hashes name password u a :
  users a !! name = Some u →
  default "" (password_hashes !! name) = sha256_hex password →
  name ≠ "" → password ≠ "" →
  login session_token now PUBLIC_URL password_hashes
    {| form_username := Some name; form_password := Some password |} a
  = (Answered
       (Obj [("username", Str (username u));
             ("token", Str session_token);
             ("role", Str (role u));
             ("is_admin", Bool (String.eqb (role u) "admin"));
             ("assigned_stores", Arr (List.map Str (assigned_stores u)));
             ("public_url",
              Str (if falsy PUBLIC_URL then "http://localhost:8080"
                   else default "" PUBLIC_URL))],
        200),
     with_db a
       (with_sessions (db a)
          (<[sha256_hex session_token :=
               {| sessions.username := name;
                  sessions.expiry := now + 3600 * 8 |}]>
             (sessions (db a))))).
Proof.
  intros Hu Hhash Hname Hpw. unfold login, falsy.
  cbn [form_username form_password].
  rewrite (proj2 (String.eqb_neq _ _) Hname), (proj2 (String.eqb_neq _ _) Hpw).
  cbn [orb]. rewrite Hu. cbv zeta. rewrite Hhash.
  rewrite sha256_hex_ascii, String.eqb_refl. reflexivity.
Qed.

(** X2. After a login with the password whose digest is stored for
    the user, a request that carries the token drawn for the session
    passes [require_auth] as that user until eight hours have gone,
    and is answered 401 from then on. *)
Theorem login_opens_session {A} session_token now PUBLIC_URL password_hashes
    name password u a roles (f : user → app → A * app) :
  users a !! name = Some u →
  password_hashes !! name = Some (sha256_hex password) →
  name ≠ "" → password ≠ "" →
  session_token ≠ "" → token_of session_token = session_token →
  allowed roles (role u) →
  let form := {| form_username := Some name;
                 form_password := Some password |} in
  let result := login session_token now PUBLIC_URL password_hashes form a in
  (∃ body, fst result = Answered (body, 200))
  ∧ (∀ now', now' ≤ now + 28800 →
       require_auth roles now' (Some ("Bearer " ++ session_token)) f (snd result)
       = (inr (fst (f u (snd result))), snd (f u (snd result))))
  ∧ (∀ now', now + 28800 < now' →
       fst (require_auth roles now' (Some ("Bearer " ++ session_token)) f
              (snd result))
       = inl (detail "Yaroqsiz token yoki sessiya muddati tugagan" 401)).
Proof.
  intros Hu Hhash Hname Hpw Htok Hfix Hal. cbv zeta.
  rewrite (login_ok session_token now PUBLIC_URL password_hashes name
             password u a Hu) by (try rewrite Hhash; auto).
  cbn [fst snd]. split; [eauto|].
  set (a' := with_db a _).
  assert (Hrow : sessions (db a') !! sha256_hex session_token
                 = Some {| sessions.username := name;
                           sessions.expiry := now + 3600 * 8 |})
    by (simpl; apply lookup_insert_eq).
  assert (Husers : users a' !! name = Some u) by exact Hu.
  assert (Hbearer : "Bearer " ++ session_token ≠ "") by discriminate.
  split; intros now' Hnow.
  - destruct (require_auth_cases roles now' _ f a' Hbearer)
      as [(u' & Hu' & ->) | (Hnone & _)].
    + assert (u' = u) as ->.
      { eapply authenticates_unique; [exact Hu'|].
        rewrite token_of_bearer, Hfix. split; [exact Htok|].
        eexists. split; [exact Hrow|]. split; [simpl; lia | exact Husers]. }
      apply allowed_decide in Hal. rewrite Hal. reflexivity.
    + destruct (Hnone u). rewrite token_of_bearer, Hfix. split; [exact Htok|].
      eexists. split; [exact Hrow|]. split; [simpl; lia | exact Husers].
  - destruct (require_auth_cases roles now' _ f a' Hbearer)
      as [(u' & Hu' & _) | (_ & Hfst & _)]; [|exact Hfst].
    rewrite token_of_bearer, Hfix in Hu'.
    destruct Hu' as (_ & row & Hrow' & Hle & _).
    rewrite Hrow in Hrow'. injection Hrow' as <-. simpl in Hle. lia.
Qed.

Lemma login_opens_session_witness :
  (∃ body,
     fst (login a_token 1000 None root_secret
            {| form_username := Some "root"; form_password := Some "secret" |}
            (some_app false))
     = Answered (body, 200))
  ∧ (∀ now', now' ≤ 1000 + 28800 →
       require_auth ["admin"] now' (Some ("Bearer " ++ a_token)) ping
         (snd (login a_token 1000 None root_secret
                 {| form_username := Some "root"; form_password := Some "secret" |}
                 (some_app false)))
       = (inr (fst (ping root
                      (snd (login a_token 1000 None root_secret
                              {| form_username := Some "root";
                                 form_password := Some "secret" |}
                              (some_app false))))),
          snd (ping root
                 (snd (login a_token 1000 None root_secret
                         {| form_username := Some "root";
                            form_password := Some "secret" |}
                         (some_app false))))))
  ∧ (∀ now', 1000 + 28800 < now' →
       fst (require_auth ["admin"] now' (Some ("Bearer " ++ a_token)) ping
              (snd (login a_token 1000 None root_secret
                      {| form_username := Some "root";
                         form_password := Some "secret" |}
                      (some_app false))))
       = inl (detail "Yaroqsiz token yoki sessiya muddati tugagan" 401)).
Proof.
  apply (login_opens_session a_token 1000 None root_secret "root" "secret" root
           (some_app false) ["admin"] ping).
  - reflexivity.
  - reflexivity.
  - discriminate.
  - discriminate.
  - discriminate.
  - vm_compute. reflexivity.
  - right. left. reflexivity.
Defined.

(** X3. [login] changes nothing unless the form names a user of
    [users] and a password whose digest is the stored one; then it
    answers 200 and adds one session, under the digest of the token it
    drew, for that user name, open for eight hours.  Its refusals are
    400, 401, or the [TypeError] of the comparison with a stored hash
    that is not ASCII. *)
Theorem login_needs_password session_token now PUBLIC_URL password_hashes form a :
  let result := login session_token now PUBLIC_URL password_hashes form a in
  (snd result = a
   ∧ (fst result = Raised "TypeError"
      ∨ ∃ d c, fst result = Answered (detail d c) ∧ (c = 400 ∨ c = 401)))
  ∨ ∃ name password u body,
      form_username form = Some name
      ∧ form_password form = Some password
      ∧ users a !! name = Some u
      ∧ default "" (password_hashes !! name) = sha256_hex password
      ∧ fst result = Answered (body, 200)
      ∧ snd result
        = with_db a
            (with_sessions (db a)
               (<[sha256_hex session_token :=
                    {| sessions.username := name;
                       sessions.expiry := now + 28800 |}]>
                  (sessions (db a)))).
Proof.
  cbv zeta. unfold login.
  destruct (form_username form) as [name|];
    [|left; split; [reflexivity | right; eauto]].
  destruct (form_password form) as [password|];
    [|left; split; [reflexivity | right; eauto]].
  destruct (falsy (Some name) || falsy (Some password));
    [left; split; [reflexivity | right; eauto]|].
  destruct (users a !! name) as [u|] eqn:Hu;
    [|left; split; [reflexivity | right; eauto]].
  cbv zeta. destruct (isascii _); cbn [negb];
    [|left; split; [reflexivity | left; reflexivity]].
  destruct (String.eqb_spec (sha256_hex password)
              (default "" (password_hashes !! name))) as [Heq|_]; cbn [negb];
    [|left; split; [reflexivity | right; eauto]].
  right. exists name, password, u. eexists.
  repeat split; [exact Hu | symmetry; exact Heq].
Qed.

(** X4. After [logout] the header that was used is refused with 401
    by every route under [require_auth], whatever its roles and
    whenever it is tried, and the handler does not run; the sessions
    under other digests are the ones there were. *)
Theorem logout_revokes {A} auth_header a roles now (f : user → app → A * app) :
  (∃ e, require_auth roles now (Some auth_header) f (snd (logout auth_header a))
        = (inl e, snd (logout auth_header a))
        ∧ snd e = 401)
  ∧ ∀ k, k ≠ sha256_hex (token_of auth_header) →
         sessions (db (snd (logout auth_header a))) !! k = sessions (db a) !! k.
Proof.
  split.
  - unfold require_auth.
    destruct (String.eqb auth_header ""); [eexists; split; reflexivity|].
    cbv zeta. fold (token_of auth_header).
    unfold get_user_from_token.
    destruct (String.eqb (token_of auth_header) "");
      [eexists; split; reflexivity|].
    unfold logout. fold (token_of auth_header). cbn [snd db with_db sessions
      with_sessions].
    rewrite lookup_delete_eq. eexists; split; reflexivity.
  - intros k Hk. unfold logout. fold (token_of auth_header). simpl.
    apply lookup_delete_ne. congruence.
Qed.

(** X5. A lookup of a token deletes at most the session of that
    token, and only when it is past its expiry: the sessions that are
    still open at the time of the lookup all stay, the sessions under
    other digests stay, and the expired session of the token is gone
    afterwards. *)
Theorem lookup_evicts_only_expired now token a :
  let a' := snd (get_user_from_token now token a) in
  (∀ k row, sessions (db a) !! k = Some row → now ≤ sessions.expiry row →
            sessions (db a') !! k = Some row)
  ∧ (∀ k, k ≠ sha256_hex token → sessions (db a') !! k = sessions (db a) !! k)
  ∧ (∀ row, token ≠ "" → sessions (db a) !! sha256_hex token = Some row →
            sessions.expiry row < now →
            sessions (db a') !! sha256_hex token = None)
  ∧ sessions_dropped a a'.
Proof.
  cbv zeta. unfold get_user_from_token.
  destruct (String.eqb_spec token "") as [->|Hne].
  { cbn [snd]. split; [intros; assumption|]. split; [intros; reflexivity|].
    split; [|apply sessions_dropped_refl].
    intros row H. destruct H. reflexivity. }
  destruct (sessions (db a) !! sha256_hex token) as [row|] eqn:Hrow.
  2:{ cbn [snd]. split; [intros; assumption|]. split; [intros; reflexivity|].
      split; [|apply sessions_dropped_refl].
      intros row _ [=]. }
  destruct (sessions.expiry row <? now) eqn:Hexp.
  - apply Z.ltb_lt in Hexp. cbn [snd db with_db sessions with_sessions].
    split; [|split; [|split; [|split]]].
    + intros k row' Hk Hle.
      rewrite lookup_delete_ne; [exact Hk|].
      intros <-. rewrite Hrow in Hk. injection Hk as <-. lia.
    + intros k Hk. apply lookup_delete_ne. congruence.
    + intros row' _ _ _. apply lookup_delete_eq.
    + apply delete_subseteq.
    + reflexivity.
  - apply Z.ltb_ge in Hexp.
    assert (Hsame : snd (users a !! sessions.username row, a) = a) by reflexivity.
    rewrite Hsame. split; [intros; assumption|]. split; [intros; reflexivity|].
    split; [|apply sessions_dropped_refl].
    intros row' _ [= <-] Hlt. lia.
Qed.

(** ** Maintenance mode *)

Lemma sessions_dropped_mode a a' :
  sessions_dropped a a' →
  MAINTENANCE_MODE a' = MAINTENANCE_MODE a ∧ users a' = users a ∧ temp a' = temp a.
Proof. intros [_ ->]. auto. Qed.

Lemma check_maintenance_cases now req a :
  (check_maintenance now req a = (None, a)
   ∧ (gated req a = false ∨ admin_request now req a))
  ∨ (fst (check_maintenance now req a) = Some locked
     ∧ gated req a = true
     ∧ ¬ admin_request now req a
     ∧ sessions_dropped a (snd (check_maintenance now req a))).
Proof.
  unfold check_maintenance, admin_request. fold (gated req a).
  destruct (gated req a); [|left; auto]. cbv zeta.
  destruct (Authorization req) as [h|].
  2:{ right. split; [reflexivity | split; [reflexivity | split]].
      - intros (h & u & [=] & _).
      - apply sessions_dropped_refl. }
  destruct (String.eqb_spec h "") as [->|Hh].
  { right. split; [reflexivity | split; [reflexivity | split]].
    - intros (h & u & [= <-] & [Hne _] & _). apply Hne. reflexivity.
    - apply sessions_dropped_refl. }
  fold (token_of h).
  destruct (get_user_from_token_cases now (token_of h) a)
    as [(u & Hu & ->) | (Hnone & Hfst & Hsnd)].
  - destruct (String.eqb_spec (role u) "admin") as [Hr|Hr].
    + left. split; [reflexivity|]. right. eauto.
    + right. split; [reflexivity | split; [reflexivity | split]].
      * intros (h' & u' & [= <-] & Hu' & Hr').
        rewrite (authenticates_unique _ _ _ _ _ Hu Hu') in Hr. contradiction.
      * apply sessions_dropped_refl.
  - right. destruct (get_user_from_token now (token_of h) a) as [[u|] a'];
      [discriminate|].
    split; [reflexivity | split; [reflexivity | split; [|exact Hsnd]]].
    intros (h' & u' & [= <-] & Hu' & _). destruct (Hnone u' Hu').
Qed.

(** X6. In maintenance mode the hook lets a request to a path under
    [/api/] through only with the token of an open session of an
    admin, and answers every other one 423; with the mode off, or for
    a path outside [/api/] or one that ends in [/public_url], it lets
    every request through.  It changes the state at most by deleting
    sessions. *)
Theorem check_maintenance_gate now req a :
  let result := check_maintenance now req a in
  (fst result = None ↔ gated req a = false ∨ admin_request now req a)
  ∧ (fst result = None ∨ fst result = Some locked)
  ∧ sessions_dropped a (snd result).
Proof.
  cbv zeta.
  destruct (check_maintenance_cases now req a)
    as [(-> & Hwhy) | (Hfst & Hg & Hna & Hsnd)].
  - split; [tauto|]. split; [left; reflexivity | apply sessions_dropped_refl].
  - rewrite Hfst. split; [|split; [right; reflexivity | exact Hsnd]].
    split; [discriminate|]. intros [Hg' | Had]; [congruence | contradiction].
Qed.

(** X7. A request to the toggle route flips [MAINTENANCE_MODE] when
    it carries the token of an open session of an admin, in either
    mode, so an admin can always end the maintenance; any other
    request leaves the mode as it is. *)
Theorem toggle_maintenance_needs_admin now req a :
  path req = "/api/admin/toggle_maintenance" →
  let result := serve ["admin"] now req (fun _ => toggle_maintenance) a in
  (admin_request now req a →
   MAINTENANCE_MODE (snd result) = negb (MAINTENANCE_MODE a))
  ∧ (¬ admin_request now req a →
     MAINTENANCE_MODE (snd result) = MAINTENANCE_MODE a).
Proof.
  intros Hpath. cbv zeta. unfold serve.
  assert (Hrun : ∀ h u, Authorization req = Some h →
            authenticates now (token_of h) a u → role u = "admin" →
            require_auth ["admin"] now (Authorization req)
              (fun _ => toggle_maintenance) a
            = (inr (fst (toggle_maintenance a)), snd (toggle_maintenance a))).
  { intros h u Hh Hu Hr. rewrite Hh.
    assert (Hne : h ≠ "").
    { intros ->. destruct Hu as [Hne _]. apply Hne. reflexivity. }
    destruct (require_auth_cases ["admin"] now h (fun _ => toggle_maintenance) a Hne)
      as [(u' & Hu' & ->) | (Hnone & _)]; [|destruct (Hnone u Hu)].
    rewrite (authenticates_unique _ _ _ _ _ Hu' Hu), Hr. reflexivity. }
  assert (Hstay : ¬ admin_request now req a →
            MAINTENANCE_MODE
              (snd (require_auth ["admin"] now (Authorization req)
                      (fun _ => toggle_maintenance) a))
            = MAINTENANCE_MODE a).
  { intros Hna. destruct (Authorization req) as [h|] eqn:Hh; [|reflexivity].
    destruct (String.eqb_spec h "") as [->|Hne]; [reflexivity|].
    destruct (require_auth_cases ["admin"] now h (fun _ => toggle_maintenance) a Hne)
      as [(u & Hu & ->) | (_ & _ & Hsnd)].
    - destruct (String.eqb_spec (role u) "admin") as [Hr|Hr].
      + destruct Hna. exists h, u. auto.
      + simpl. rewrite (proj2 (String.eqb_neq _ _) Hr). reflexivity.
    - apply sessions_dropped_mode in Hsnd. apply Hsnd. }
  destruct (check_maintenance_cases now req a)
    as [(-> & Hwhy) | (Hfst & Hg & Hna & Hsnd)].
  - split.
    + intros (h & u & Hh & Hu & Hr). rewrite (Hrun h u Hh Hu Hr). reflexivity.
    + intros Hna. specialize (Hstay Hna).
      destruct (require_auth _ _ _ _ a). exact Hstay.
  - destruct (check_maintenance now req a) as [[resp|] a'] eqn:E;
      [|discriminate].
    split; [contradiction|]. intros _. simpl in *.
    apply sessions_dropped_mode in Hsnd. apply Hsnd.
Qed.

Lemma toggle_maintenance_needs_admin_witness :
  (admin_request 500
     {| path := "/api/admin/toggle_maintenance";
        Authorization := Some ("Bearer tok") |} (some_app true) →
   MAINTENANCE_MODE
     (snd (serve ["admin"] 500
             {| path := "/api/admin/toggle_maintenance";
                Authorization := Some ("Bearer tok") |}
             (fun _ => toggle_maintenance) (some_app true)))
   = negb (MAINTENANCE_MODE (some_app true)))
  ∧ (¬ admin_request 500
         {| path := "/api/admin/toggle_maintenance";
            Authorization := Some ("Bearer tok") |} (some_app true) →
     MAINTENANCE_MODE
       (snd (serve ["admin"] 500
               {| path := "/api/admin/toggle_maintenance";
                  Authorization := Some ("Bearer tok") |}
               (fun _ => toggle_maintenance) (some_app true)))
     = MAINTENANCE_MODE (some_app true)).
Proof.
  apply (toggle_maintenance_needs_admin 500
           {| path := "/api/admin/toggle_maintenance";
              Authorization := Some ("Bearer tok") |} (some_app true)).
  reflexivity.
Defined.

(** The admin of [some_app] ends the maintenance. *)
Example admin_ends_maintenance :
  MAINTENANCE_MODE
    (snd (serve ["admin"] 500
            {| path := "/api/admin/toggle_maintenance";
               Authorization := Some ("Bearer tok") |}
            (fun _ => toggle_maintenance) (some_app true)))
  = false.
Proof. vm_compute. reflexivity. Qed.

(** ** Returned orders, as the seller sees them *)

Lemma time_le_total a b : time_le a b = false → time_le b a = true.
Proof.
  destruct a as [x|], b as [y|]; simpl; try reflexivity; try discriminate.
  rewrite Z.leb_gt, Z.leb_le. lia.
Qed.

Lemma time_le_trans a b c :
  time_le a b = true → time_le b c = true → time_le a c = true.
Proof.
  destruct a as [x|], b as [y|], c as [z|]; simpl; try reflexivity;
    try discriminate.
  rewrite !Z.leb_le. lia.
Qed.

Lemma insert_delivered_desc_perm r l :
  Permutation (insert_delivered_desc r l) (r :: l).
Proof.
  induction l as [|r' l IH]; simpl; [reflexivity|].
  destruct (time_le _ _); [reflexivity|].
  rewrite IH. apply perm_swap.
Qed.

Lemma order_by_delivered_desc_perm l : Permutation (order_by_delivered_desc l) l.
Proof.
  unfold order_by_delivered_desc.
  induction l as [|r l IH]; simpl; [reflexivity|].
  rewrite insert_delivered_desc_perm, IH. reflexivity.
Qed.

Lemma insert_delivered_desc_sorted r l :
  StronglySorted delivered_later l →
  StronglySorted delivered_later (insert_delivered_desc r l).
Proof.
  induction l as [|r' l IH]; simpl; intros Hs.
  - repeat constructor.
  - apply StronglySorted_cons in Hs as [Hall Hs].
    destruct (time_le _ _) eqn:E.
    + apply StronglySorted_cons. split.
      * constructor; [exact E|].
        eapply Forall_impl; [exact Hall|]. unfold delivered_later.
        intros y Hy. eapply time_le_trans; eassumption.
      * apply StronglySorted_cons. auto.
    + apply time_le_total in E. apply StronglySorted_cons. split; [|auto].
      rewrite (insert_delivered_desc_perm r l). constructor; [exact E | exact Hall].
Qed.

Lemma order_by_delivered_desc_sorted l :
  StronglySorted delivered_later (order_by_delivered_desc l).
Proof.
  unfold order_by_delivered_desc.
  induction l as [|r l IH]; simpl;
    [constructor | apply insert_delivered_desc_sorted, IH].
Qed.

Lemma existsb_eqb_in (x : string) l : existsb (String.eqb x) l = true ↔ In x l.
Proof.
  rewrite existsb_exists. split.
  - intros (y & Hin & ->%String.eqb_eq). exact Hin.
  - intros Hin. exists x. split; [exact Hin | apply String.eqb_refl].
Qed.

Lemma delivered_in_true c r :
  delivered_in c r = true
  ↔ return_status.campaign_id r = c
    ∧ return_status.supplier_status r = Some "delivered".
Proof.
  unfold delivered_in. rewrite andb_true_iff, String.eqb_eq, sql_eq_true.
  reflexivity.
Qed.

Lemma get_seller_returned_orders_unfold {E} (fetch : string → string → option E)
    user c db :
  c ≠ "" → In c (assigned_stores user) →
  get_seller_returned_orders fetch user c db
  = inr (List.map (fun row => (row, fetch c (return_status.order_id row)))
           (order_by_delivered_desc
              (List.filter (delivered_in c) (return_status db)))).
Proof.
  intros Hc Hin. unfold get_seller_returned_orders.
  rewrite (proj2 (String.eqb_neq _ _) Hc).
  rewrite (proj2 (existsb_eqb_in c _) Hin). reflexivity.
Qed.

(** X8. A seller gets the list of returned orders only for a campaign
    among the assigned stores: 400 without a campaign, 403 for
    another one.  The list then holds the rows of the campaign with
    [supplier_status = 'delivered'], each once, the latest delivery
    first, each with what the lookup at the marketplace gave for its
    order. *)
Theorem seller_returned_orders_listed {E} (fetch : string → string → option E)
    user c db :
  let result := get_seller_returned_orders fetch user c db in
  (c = "" → result = inl (Detail "Campaign ID talab qilinadi", 400))
  ∧ (c ≠ "" → ¬ In c (assigned_stores user) →
     result = inl (Detail "Ruxsat yo'q", 403))
  ∧ (c ≠ "" → In c (assigned_stores user) →
     ∃ listed,
       result = inr listed
       ∧ Permutation (List.map fst listed)
           (List.filter (delivered_in c) (return_status db))
       ∧ (∀ r, In r (List.map fst listed)
               ↔ In r (return_status db)
                 ∧ return_status.campaign_id r = c
                 ∧ return_status.supplier_status r = Some "delivered")
       ∧ StronglySorted delivered_later (List.map fst listed)
       ∧ Forall (fun e => snd e = fetch c (return_status.order_id (fst e)))
           listed).
Proof.
  cbv zeta. split; [|split].
  - intros ->. reflexivity.
  - intros Hc Hnot. unfold get_seller_returned_orders.
    rewrite (proj2 (String.eqb_neq _ _) Hc).
    destruct (existsb (String.eqb c) (assigned_stores user)) eqn:Ex;
      [|reflexivity].
    apply existsb_eqb_in in Ex. contradiction.
  - intros Hc Hin. rewrite (get_seller_returned_orders_unfold fetch user c db Hc Hin).
    eexists. split; [reflexivity|].
    rewrite List.map_map. simpl. rewrite List.map_id.
    split; [apply order_by_delivered_desc_perm|].
    split; [|split].
    + intros r. rewrite <- delivered_in_true, <- filter_In.
      rewrite <- !list_elem_of_In.
      rewrite (order_by_delivered_desc_perm
                 (List.filter (delivered_in c) (return_status db))).
      reflexivity.
    + apply order_by_delivered_desc_sorted.
    + apply Forall_forall. intros e He. apply list_elem_of_In in He.
      apply in_map_iff in He as (row & <- & _). reflexivity.
Qed.

(** X9. [seller_accept_return] answers 200 for an order and a
    campaign exactly when [return_status] holds a row of the pair
    with [supplier_status = 'delivered']; it does not look at the
    stores assigned to the seller.  For a campaign among the assigned
    stores, the orders on the seller's list of returned orders are
    exactly the orders whose acceptance is answered 200.  For a
    campaign that is not among them the list is refused with 403,
    and the acceptance is answered 200 all the same when such a row
    exists. *)
Theorem seller_list_and_acceptance {E} (fetch : string → string → option E)
    fpdf now today user c o db :
  o ≠ "" →
  c ≠ "" →
  let accepted :=
    code (fst (seller_accept_return fpdf now today user (return_of o c) db)) = 200 in
  (accepted
   ↔ ∃ row, In row (return_status db)
            ∧ return_status.order_id row = o
            ∧ return_status.campaign_id row = c
            ∧ return_status.supplier_status row = Some "delivered")
  ∧ (In c (assigned_stores user) →
     ∃ listed,
       get_seller_returned_orders fetch user c db = inr listed
       ∧ ((∃ row, In row (List.map fst listed) ∧ return_status.order_id row = o)
          ↔ accepted))
  ∧ (¬ In c (assigned_stores user) →
     get_seller_returned_orders fetch user c db = inl (Detail "Ruxsat yo'q", 403)).
Proof.
  intros Ho Hc. cbv zeta.
  assert (Hk : keys_of (return_of o c) = Some (o, c)).
  { unfold keys_of, return_of. simpl.
    rewrite (proj2 (String.eqb_neq _ _) Ho), (proj2 (String.eqb_neq _ _) Hc).
    reflexivity. }
  assert (Hacc : code (fst (seller_accept_return fpdf now today user
                              (return_of o c) db)) = 200
                 ↔ ∃ row, In row (return_status db)
                          ∧ return_status.order_id row = o
                          ∧ return_status.campaign_id row = c
                          ∧ return_status.supplier_status row = Some "delivered").
  { rewrite seller_accept_return_unfold, Hk. cbv zeta. split.
    - destruct (existsb _ (return_status db)) eqn:Ex; [|discriminate].
      intros _. apply existsb_exists in Ex as (row & Hrow & Hg).
      apply guard_true in Hg as [Hkey Hst]. unfold return_key in Hkey.
      injection Hkey as Hoid Hcid. exists row. auto.
    - intros (row & Hrow & Hoid & Hcid & Hst).
      replace (existsb _ (return_status db)) with true; [reflexivity|].
      symmetry. apply existsb_exists. exists row. split; [exact Hrow|].
      apply guard_true. unfold return_key. split; congruence. }
  split; [exact Hacc|]. split.
  - intros Hin.
    rewrite (get_seller_returned_orders_unfold fetch user c db Hc Hin).
    eexists. split; [reflexivity|].
    rewrite List.map_map. simpl. rewrite List.map_id. rewrite Hacc.
    assert (Hlist : ∀ row,
              In row (order_by_delivered_desc
                        (List.filter (delivered_in c) (return_status db)))
              ↔ In row (return_status db) ∧ delivered_in c row = true).
    { intros row. rewrite <- filter_In, <- !list_elem_of_In.
      rewrite (order_by_delivered_desc_perm
                 (List.filter (delivered_in c) (return_status db))).
      reflexivity. }
    split.
    + intros (row & Hrow%Hlist & Hoid). destruct Hrow as [Hrow Hd].
      apply delivered_in_true in Hd as [Hcid Hst]. exists row. auto.
    + intros (row & Hrow & Hoid & Hcid & Hst).
      exists row. split; [|exact Hoid].
      apply Hlist. split; [exact Hrow|]. apply delivered_in_true. auto.
  - intros Hnot. unfold get_seller_returned_orders.
    rewrite (proj2 (String.eqb_neq _ _) Hc).
    destruct (existsb (String.eqb c) (assigned_stores user)) eqn:Ex;
      [|reflexivity].
    apply existsb_eqb_in in Ex. contradiction.
Qed.

Lemma seller_list_and_acceptance_witness :
  (code (fst (seller_accept_return no_fpdf 30 "2024-05-01" sel1
                (return_of "O2" "C9") delivered_C9)) = 200
   ↔ ∃ row, In row (return_status delivered_C9)
            ∧ return_status.order_id row = "O2"
            ∧ return_status.campaign_id row = "C9"
            ∧ return_status.supplier_status row = Some "delivered")
  ∧ (In "C9" (assigned_stores sel1) →
     ∃ listed,
       get_seller_returned_orders no_lookup sel1 "C9" delivered_C9 = inr listed
       ∧ ((∃ row, In row (List.map fst listed) ∧ return_status.order_id row = "O2")
          ↔ code (fst (seller_accept_return no_fpdf 30 "2024-05-01" sel1
                         (return_of "O2" "C9") delivered_C9)) = 200))
  ∧ (¬ In "C9" (assigned_stores sel1) →
     get_seller_returned_orders no_lookup sel1 "C9" delivered_C9
     = inl (Detail "Ruxsat yo'q", 403)).
Proof.
  apply (seller_list_and_acceptance no_lookup no_fpdf 30 "2024-05-01" sel1
           "C9" "O2" delivered_C9).
  - discriminate.
  - discriminate.
Defined.

(** The seller of the store C1 is refused the list of the store C9
    and accepts its delivered return; in the store C1 the delivered
    return is on the list and its acceptance is answered 200. *)
Example seller_accepts_outside_stores :
  get_seller_returned_orders no_lookup sel1 "C9" delivered_C9
  = inl (Detail "Ruxsat yo'q", 403)
  ∧ code (fst (seller_accept_return no_fpdf 30 "2024-05-01" sel1
                 (return_of "O2" "C9") delivered_C9)) = 200
  ∧ List.map (fun r => (return_status.seller_status r,
                        return_status.seller_username r))
      (return_status
         (snd (seller_accept_return no_fpdf 30 "2024-05-01" sel1
                 (return_of "O2" "C9") delivered_C9)))
    = [(Some "accepted", Some "sel1")]
  ∧ (∃ listed,
       get_seller_returned_orders no_lookup sel1 "C1" return_delivered = inr listed
       ∧ List.map (fun e => return_status.order_id (fst e)) listed = ["O2"])
  ∧ code (fst (seller_accept_return no_fpdf 30 "2024-05-01" sel1
                 (return_of "O2" "C1") return_delivered)) = 200.
Proof.
  split; [vm_compute; reflexivity|]. split; [vm_compute; reflexivity|].
  split; [vm_compute; reflexivity|]. split; [|vm_compute; reflexivity].
  eexists. split; vm_compute; reflexivity.
Qed.

(** ** Returned orders, as the supplier sees them *)

Lemma fetchone_update {A} (key w : A → bool) (set : A → A) rows :
  (∀ r, key (set r) = key r) →
  fetchone key (fst (update_where w set rows))
  = option_map (fun r => if w r then set r else r) (fetchone key rows).
Proof.
  intros Hkey. unfold fetchone, update_where. simpl.
  induction rows as [|r rows IH]; simpl; [reflexivity|].
  replace (key (if w r then set r else r)) with (key r)
    by (destruct (w r); [symmetry; apply Hkey | reflexivity]).
  destruct (key r); [reflexivity | exact IH].
Qed.

Lemma fetchone_unique o c rows r :
  NoDup (List.map return_key rows) →
  In r rows → return_key r = (o, c) →
  fetchone (same_return o c) rows = Some r.
Proof.
  unfold fetchone. induction rows as [|r0 rows IH]; simpl; [intros _ []|].
  intros Hnd Hin Hk. apply NoDup_cons in Hnd as [Hnotin Hnd].
  destruct (same_return o c r0) eqn:E.
  - apply same_return_true in E.
    destruct Hin as [-> | Hin]; [reflexivity|].
    destruct Hnotin. apply list_elem_of_In. apply in_map_iff.
    exists r. split; [congruence | exact Hin].
  - destruct Hin as [-> | Hin]; [|auto].
    apply same_return_true in Hk. congruence.
Qed.

Lemma fetchone_none {A} (key : A → bool) rows :
  (∀ r, In r rows → key r = false) → fetchone key rows = None.
Proof.
  unfold fetchone. induction rows as [|r rows IH]; simpl; intros H; [reflexivity|].
  rewrite (H r (or_introl eq_refl)). apply IH. intros r' Hr'. apply H. right.
  exact Hr'.
Qed.

(** X10. What a supplier is shown for a cancelled order follows the
    return workflow: ['pending'] twice while the table has no row for
    the order and the campaign; ['accepted'] and ['pending'] right
    after [supplier_accept_return]; and in a table with one row per
    pair, ['delivered'] after a [supplier_deliver_return] that
    answered 200 and a seller status ['accepted'] after a
    [seller_accept_return] that answered 200. *)
Theorem return_overlay_follows_workflow fpdf now today user data o c db :
  keys_of data = Some (o, c) →
  ((∀ r, In r (return_status db) → return_key r ≠ (o, c)) →
   return_overlay c o db = (Some "pending", Some "pending"))
  ∧ return_overlay c o (snd (supplier_accept_return now user data db))
    = (Some "accepted", Some "pending")
  ∧ (unique_keys db →
     code (fst (supplier_deliver_return fpdf now today user data db)) = 200 →
     fst (return_overlay c o
            (snd (supplier_deliver_return fpdf now today user data db)))
     = Some "delivered")
  ∧ (unique_keys db →
     code (fst (seller_accept_return fpdf now today user data db)) = 200 →
     return_overlay c o (snd (seller_accept_return fpdf now today user data db))
     = (Some "delivered", Some "accepted")).
Proof.
  intros Hk. split; [|split; [|split]].
  - intros Hnone. unfold return_overlay. rewrite fetchone_none; [reflexivity|].
    intros r Hr. destruct (same_return o c r) eqn:E; [|reflexivity].
    apply same_return_true in E. destruct (Hnone r Hr E).
  - rewrite supplier_accept_return_unfold, Hk. cbv zeta. unfold return_overlay.
    simpl. rewrite fetchone_app_last; [reflexivity | apply existsb_filter_negb|].
    apply same_return_true. reflexivity.
  - intros Hnd. rewrite supplier_deliver_return_unfold, Hk. cbv zeta.
    destruct (existsb _ (return_status db)) eqn:Ex; [|discriminate].
    intros _. apply existsb_exists in Ex as (r & Hin & Hg).
    pose proof Hg as Hg'. apply guard_true in Hg' as [Hkey _].
    unfold return_overlay. cbn [snd return_status with_return_status].
    rewrite fetchone_update by reflexivity.
    rewrite (fetchone_unique o c _ r Hnd Hin Hkey). simpl. rewrite Hg.
    reflexivity.
  - intros Hnd. rewrite seller_accept_return_unfold, Hk. cbv zeta.
    destruct (existsb _ (return_status db)) eqn:Ex; [|discriminate].
    intros _. apply existsb_exists in Ex as (r & Hin & Hg).
    pose proof Hg as Hg'. apply guard_true in Hg' as [Hkey Hst].
    unfold return_overlay. cbn [snd return_status with_return_status].
    rewrite fetchone_update by reflexivity.
    rewrite (fetchone_unique o c _ r Hnd Hin Hkey). simpl. rewrite Hg.
    simpl. rewrite Hst. reflexivity.
Qed.

Lemma return_overlay_follows_workflow_witness :
  ((∀ r, In r (return_status return_delivered) → return_key r ≠ ("O2", "C1")) →
   return_overlay "C1" "O2" return_delivered = (Some "pending", Some "pending"))
  ∧ return_overlay "C1" "O2"
      (snd (supplier_accept_return 30 sup1 O2_C1 return_delivered))
    = (Some "accepted", Some "pending")
  ∧ (unique_keys return_delivered →
     code (fst (supplier_deliver_return no_fpdf 30 "2024-05-01" sup1 O2_C1
                  return_delivered)) = 200 →
     fst (return_overlay "C1" "O2"
            (snd (supplier_deliver_return no_fpdf 30 "2024-05-01" sup1 O2_C1
                    return_delivered)))
     = Some "delivered")
  ∧ (unique_keys return_delivered →
     code (fst (seller_accept_return no_fpdf 30 "2024-05-01" sup1 O2_C1
                  return_delivered)) = 200 →
     return_overlay "C1" "O2"
       (snd (seller_accept_return no_fpdf 30 "2024-05-01" sup1 O2_C1
               return_delivered))
     = (Some "delivered", Some "accepted")).
Proof.
  apply (return_overlay_follows_workflow no_fpdf 30 "2024-05-01" sup1 O2_C1
           "O2" "C1" return_delivered).
  reflexivity.
Defined.

(** The seller's acceptance of the delivered return, as the supplier
    then sees it. *)
Example overlay_after_seller_accept :
  return_overlay "C1" "O2" return_closed = (Some "delivered", Some "accepted").
Proof. reflexivity. Qed.

(** ** Daily orders, as they are shown *)

Lemma find_app_last {A} (p : A → bool) l x :
  List.find p (l ++ [x])
  = match List.find p l with
    | Some r => Some r
    | None => if p x then Some x else None
    end.
Proof.
  induction l as [|y l IH]; simpl; [reflexivity|].
  destruct (p y); [reflexivity | exact IH].
Qed.

Lemma find_is_some {A} (p : A → bool) l :
  (∃ r, In r l ∧ p r = true) → ∃ r, List.find p l = Some r.
Proof.
  intros (r & Hin & Hr). destruct (List.find p l) as [r'|] eqn:E; [eauto|].
  rewrite (find_none _ _ E r Hin) in Hr. discriminate.
Qed.

(** X11. What [get_daily_orders] shows for an order and a campaign is
    the first decision saved for the pair: while the pair has no row,
    a saved decision is shown with its status, the seller's as
    ['seller_accepted'] and the supplier's as ['supplier_accepted'];
    once the pair has a row, no later save changes what is shown; and
    a save never changes what is shown for another pair. *)
Theorem daily_overlay_after_save now user data o c d db :
  daily_fields data = Some (o, c, d) →
  role user = "seller" ∨ role user = "supplier" →
  (¬ has_daily_row o c db →
   daily_overlay c o (snd (save_daily_decision now user data db))
   = if String.eqb (role user) "seller"
     then (Some d, None, Some "seller_accepted")
     else (None, Some d, Some "supplier_accepted"))
  ∧ (∀ o' c', has_daily_row o' c' db →
       daily_overlay c' o' (snd (save_daily_decision now user data db))
       = daily_overlay c' o' db)
  ∧ (∀ o' c', (o', c') ≠ (o, c) →
       daily_overlay c' o' (snd (save_daily_decision now user data db))
       = daily_overlay c' o' db).
Proof.
  intros Hf Hrole. rewrite save_daily_decision_unfold, Hf. cbv zeta.
  assert (Hkey : ∀ o' c' (r : daily_orders.row),
            String.eqb (daily_orders.order_id r) o'
            && String.eqb (daily_orders.campaign_id r) c' = true
            ↔ daily_orders.order_id r = o' ∧ daily_orders.campaign_id r = c').
  { intros. rewrite andb_true_iff, !String.eqb_eq. reflexivity. }
  unfold daily_overlay, fetchone.
  destruct Hrole as [Hr | Hr]; rewrite Hr; simpl.
  - split; [|split].
    + intros Hno. rewrite find_app_last.
      destruct (List.find _ (daily_orders db)) as [r|] eqn:E;
        [|simpl; rewrite !String.eqb_refl; reflexivity].
      apply find_some in E as [Hin Hk%Hkey]. destruct Hno. exists r. tauto.
    + intros o' c' (r & Hin & Ho & Hc). rewrite find_app_last.
      destruct (find_is_some
                  (fun r => String.eqb (daily_orders.order_id r) o'
                            && String.eqb (daily_orders.campaign_id r) c')
                  (daily_orders db)) as [r' ->]; [|reflexivity].
      exists r. split; [exact Hin | apply Hkey; auto].
    + intros o' c' Hne. rewrite find_app_last.
      destruct (List.find _ (daily_orders db)); [reflexivity|]. simpl.
      destruct (String.eqb_spec o o') as [->|]; [|reflexivity].
      destruct (String.eqb_spec c c') as [->|]; [|reflexivity].
      destruct Hne. reflexivity.
  - split; [|split].
    + intros Hno. rewrite find_app_last.
      destruct (List.find _ (daily_orders db)) as [r|] eqn:E;
        [|simpl; rewrite !String.eqb_refl; reflexivity].
      apply find_some in E as [Hin Hk%Hkey]. destruct Hno. exists r. tauto.
    + intros o' c' (r & Hin & Ho & Hc). rewrite find_app_last.
      destruct (find_is_some
                  (fun r => String.eqb (daily_orders.order_id r) o'
                            && String.eqb (daily_orders.campaign_id r) c')
                  (daily_orders db)) as [r' ->]; [|reflexivity].
      exists r. split; [exact Hin | apply Hkey; auto].
    + intros o' c' Hne. rewrite find_app_last.
      destruct (List.find _ (daily_orders db)); [reflexivity|]. simpl.
      destruct (String.eqb_spec o o') as [->|]; [|reflexivity].
      destruct (String.eqb_spec c c') as [->|]; [|reflexivity].
      destruct Hne. reflexivity.
Qed.

Lemma daily_overlay_after_save_witness :
  (¬ has_daily_row "O1" "C1" empty_db →
   daily_overlay "C1" "O1"
     (snd (save_daily_decision 10 sel1 (daily "no" Absent) empty_db))
   = if String.eqb (role sel1) "seller"
     then (Some "no", None, Some "seller_accepted")
     else (None, Some "no", Some "supplier_accepted"))
  ∧ (∀ o' c', has_daily_row o' c' empty_db →
       daily_overlay c' o'
         (snd (save_daily_decision 10 sel1 (daily "no" Absent) empty_db))
       = daily_overlay c' o' empty_db)
  ∧ (∀ o' c', (o', c') ≠ ("O1", "C1") →
       daily_overlay c' o'
         (snd (save_daily_decision 10 sel1 (daily "no" Absent) empty_db))
       = daily_overlay c' o' empty_db).
Proof.
  apply (daily_overlay_after_save 10 sel1 (daily "no" Absent) "O1" "C1" "no"
           empty_db).
  - reflexivity.
  - left. reflexivity.
Defined.

(** ** The ledger, as it is read after a save *)


(** A save succeeds exactly when every line item names the NOT NULL
    columns: the first one that does not stops the loop with an
    [IntegrityError]. *)
Lemma well_formed_dec d : well_formed d ∨ ¬ well_formed d.
Proof.
  unfold well_formed.
  destruct (get (li_order_id d)), (get (li_decision d)),
    (get_or (li_campaign_id d) "");
    first [ left; repeat split; eexists; reflexivity
          | right; intros (H1 & H2 & H3); first [ destruct H1 as [? H1]; discriminate H1
                                                | destruct H2 as [? H2]; discriminate H2
                                                | destruct H3 as [? H3]; discriminate H3 ] ].
Qed.

Lemma all_well_formed_dec items :
  Forall well_formed items ∨ ¬ Forall well_formed items.
Proof.
  induction items as [|d items [IH|IH]].
  - left. constructor.
  - destruct (well_formed_dec d) as [Hd|Hd].
    + left. constructor; assumption.
    + right. intros Hall. inversion Hall. contradiction.
  - right. intros Hall. inversion Hall. contradiction.
Qed.

Lemma save_one_fails now user temp_save d db :
  ¬ well_formed d →
  ∃ e db', save_one now user temp_save d db = (inl e, db').
Proof.
  intros Hnot. unfold save_one, mbind, M_bind, insert_decisions,
    insert_accepted_returned, well_formed in *.
  destruct (get (li_order_id d)) as [oid|]; [|eauto].
  destruct (get (li_decision d)) as [dec|]; [|eauto].
  destruct (get_or (li_campaign_id d) "") as [cid|]; [|eauto].
  destruct Hnot. repeat split; eexists; reflexivity.
Qed.

Lemma for_each_save_one_fails now user temp_save items db :
  ¬ Forall well_formed items →
  ∃ e db', for_each (save_one now user temp_save) items db = (inl e, db').
Proof.
  revert db. induction items as [|d items IH]; intros db Hnot.
  - destruct Hnot. constructor.
  - destruct (well_formed_dec d) as [Hd|Hd].
    + destruct (save_one_ok now user temp_save d db Hd) as (db1 & r & a & Hone & _).
      destruct (IH db1) as (e & db' & Hrun).
      { intros Hall. apply Hnot. constructor; assumption. }
      exists e, db'. simpl. unfold mbind, M_bind at 1. rewrite Hone. exact Hrun.
    + destruct (save_one_fails now user temp_save d db Hd) as (e & db' & Hone).
      exists e, db'. simpl. unfold mbind, M_bind at 1. rewrite Hone. reflexivity.
Qed.

Lemma save_decisions_succeeds_iff fpdf now today user data items db :
  get_or (sr_decisions data) [] = Some items →
  items ≠ [] →
  (∃ resp, fst (save_decisions fpdf now today user (Some data) db) = inr resp)
  ↔ Forall well_formed items.
Proof.
  intros Hitems Hne. split.
  - intros (resp & Hresp).
    destruct (all_well_formed_dec items) as [Hall|Hnot]; [exact Hall|].
    destruct (for_each_save_one_fails now user
                (default false (get_or (sr_temp_save data) false)) items db Hnot)
      as (e & db' & Hrun).
    unfold save_decisions in Hresp. rewrite Hitems in Hresp.
    change (default [] (Some items)) with items in Hresp.
    destruct items as [|d items]; [congruence|].
    change (negb (nonempty (d :: items))) with false in Hresp. cbv iota in Hresp.
    unfold mbind at 1, M_bind at 1 in Hresp. rewrite Hrun in Hresp.
    discriminate Hresp.
  - intros Hwf.
    destruct (for_each_save_one now user
                (default false (get_or (sr_temp_save data) false)) items db Hwf)
      as (db1 & rows & audit & Hrun & _).
    unfold save_decisions. rewrite Hitems.
    change (default [] (Some items)) with items.
    destruct items as [|d items]; [congruence|].
    change (negb (nonempty (d :: items))) with false. cbv iota.
    unfold mbind at 1, M_bind at 1. rewrite Hrun.
    unfold mbind, M_bind, bump_processed_orders, mret, M_ret.
    eexists. reflexivity.
Qed.




(** The temp save of a seller, a final save, and a temp save that
    stops at its second item. *)
Example supplier_orders_of_saves :
  List.map so_order_id
    (supplier_get_orders
       (snd (save_decisions no_fpdf 50 "2024-05-01" sel1 (Some temp_items)
               empty_db)))
  = ["O1"]
  ∧ supplier_get_orders
      (snd (save_decisions no_fpdf 50 "2024-05-01" sel1 (Some two_items)
              empty_db))
    = []
  ∧ supplier_get_orders
      (snd (save_decisions no_fpdf 50 "2024-05-01" sup1 (Some temp_items)
              empty_db))
    = [].
Proof. repeat split; vm_compute; reflexivity. Qed.



(** ** Store names *)

Lemma lstrip_idem l : lstrip (lstrip l) = lstrip l.
Proof.
  induction l as [|c l IH]; simpl; [reflexivity|].
  destruct (isspace c) eqn:E; [exact IH|]. simpl. rewrite E. reflexivity.
Qed.

Lemma lstrip_suffix l : ∃ sp, l = (sp ++ lstrip l)%list.
Proof.
  induction l as [|c l [sp IH]]; simpl; [exists []; reflexivity|].
  destruct (isspace c).
  - exists (c :: sp). simpl. f_equal. exact IH.
  - exists []. reflexivity.
Qed.

Lemma lstrip_length l : (length (lstrip l) ≤ length l)%nat.
Proof.
  induction l as [|c l IH]; simpl; [lia|].
  destruct (isspace c); simpl; lia.
Qed.

Lemma lstrip_prefix_fixed (a b : list ascii) :
  lstrip (a ++ b) = (a ++ b)%list → lstrip a = a.
Proof.
  destruct a as [|c a]; [reflexivity|]. simpl.
  destruct (isspace c); [|reflexivity].
  intros H. pose proof (lstrip_length (a ++ b)) as Hlen.
  rewrite H in Hlen. simpl in Hlen. lia.
Qed.

Lemma strip_list_idem l :
  let stripped := List.rev (lstrip (List.rev (lstrip l))) in
  List.rev (lstrip (List.rev (lstrip stripped))) = stripped.
Proof.
  cbv zeta.
  assert (Hfront : lstrip (List.rev (lstrip (List.rev (lstrip l))))
                   = List.rev (lstrip (List.rev (lstrip l)))).
  { destruct (lstrip_suffix (List.rev (lstrip l))) as [sp Hsp].
    apply (lstrip_prefix_fixed _ (List.rev sp)).
    rewrite <- rev_app_distr, <- Hsp, rev_involutive. apply lstrip_idem. }
  rewrite Hfront, rev_involutive, lstrip_idem. reflexivity.
Qed.

Lemma strip_idem s : strip (strip s) = strip s.
Proof.
  unfold strip. rewrite list_ascii_of_string_of_list_ascii.
  f_equal. apply strip_list_idem.
Qed.

Lemma has_char_in c s : has_char c s = true ↔ In c (list_ascii_of_string s).
Proof.
  unfold has_char. rewrite existsb_exists. split.
  - intros (x & Hin & Hx). apply Ascii.eqb_eq in Hx. subst. exact Hin.
  - intros Hin. exists c. split; [exact Hin | apply Ascii.eqb_refl].
Qed.

Lemma has_char_cons c x s :
  has_char c (String x s) = Ascii.eqb c x || has_char c s.
Proof. reflexivity. Qed.

Lemma has_char_app c s1 s2 :
  has_char c (s1 ++ s2) = has_char c s1 || has_char c s2.
Proof.
  unfold has_char. induction s1 as [|x s1 IH]; simpl; [reflexivity|].
  rewrite IH. apply orb_assoc.
Qed.

Lemma in_lstrip c l : In c (lstrip l) → In c l.
Proof.
  destruct (lstrip_suffix l) as [sp Hsp]. intros H. rewrite Hsp.
  apply in_or_app. right. exact H.
Qed.

Lemma has_char_strip c s : has_char c s = false → has_char c (strip s) = false.
Proof.
  intros Hs. destruct (has_char c (strip s)) eqn:E; [|reflexivity].
  apply has_char_in in E. unfold strip in E.
  rewrite list_ascii_of_string_of_list_ascii in E.
  apply in_rev, in_lstrip, in_rev, in_lstrip in E.
  apply has_char_in in E. congruence.
Qed.

Lemma split_from_pieces acc s :
  has_char ","%char acc = false →
  Forall (fun x => has_char ","%char x = false) (split_from acc s).
Proof.
  revert acc. induction s as [|c s IH]; intros acc Hacc; simpl.
  - constructor; [exact Hacc | constructor].
  - destruct (Ascii.eqb c ","%char) eqn:E.
    + constructor; [exact Hacc | apply IH; reflexivity].
    + apply IH. rewrite has_char_app, Hacc, has_char_cons, Ascii.eqb_sym, E.
      reflexivity.
Qed.

Lemma append_empty (s : string) : s ++ "" = s.
Proof.
  induction s as [|c s IH]; [reflexivity|].
  change (String c (s ++ "") = String c s). rewrite IH. reflexivity.
Qed.

Lemma append_assoc' (a b c : string) : (a ++ b) ++ c = a ++ (b ++ c).
Proof.
  induction a as [|x a IH]; [reflexivity|].
  change (String x ((a ++ b) ++ c) = String x (a ++ (b ++ c))).
  rewrite IH. reflexivity.
Qed.

Lemma split_from_app acc x s :
  has_char ","%char x = false →
  split_from acc (x ++ s) = split_from (acc ++ x) s.
Proof.
  revert acc. induction x as [|c x IH]; intros acc Hx; simpl.
  - rewrite append_empty. reflexivity.
  - rewrite has_char_cons in Hx. apply orb_false_iff in Hx as [Hc Hx].
    rewrite Ascii.eqb_sym, Hc. rewrite IH by exact Hx.
    f_equal. rewrite append_assoc'. reflexivity.
Qed.

Lemma split_concat acc x names :
  Forall (fun y => has_char ","%char y = false) (x :: names) →
  split_from acc (String.concat "," (x :: names)) = (acc ++ x) :: names.
Proof.
  revert acc x. induction names as [|y names IH]; intros acc x Hall.
  - inversion Hall as [|? ? Hx _]; subst.
    change (String.concat "," [x]) with x.
    rewrite <- (append_empty x) at 1. rewrite split_from_app by exact Hx.
    reflexivity.
  - inversion Hall as [|? ? Hx Hrest]; subst.
    change (String.concat "," (x :: y :: names))
      with (x ++ String ","%char (String.concat "," (y :: names))).
    rewrite split_from_app by exact Hx.
    change (split_from (acc ++ x) (String ","%char (String.concat "," (y :: names))))
      with ((acc ++ x) :: split_from "" (String.concat "," (y :: names))).
    rewrite IH by exact Hrest. reflexivity.
Qed.

Lemma filter_all {A} (p : A → bool) l :
  Forall (fun x => p x = true) l → List.filter p l = l.
Proof.
  induction 1 as [|x l Hx _ IH]; simpl; [reflexivity|].
  rewrite Hx, IH. reflexivity.
Qed.

Lemma map_fixed {A} (f : A → A) l :
  Forall (fun x => f x = x) l → List.map f l = l.
Proof.
  induction 1 as [|x l Hx _ IH]; simpl; [reflexivity|].
  rewrite Hx, IH. reflexivity.
Qed.

(** X14. The stores of a seller, as [admin_create_user] and
    [admin_update_user] read them from the form field: every one is
    a name that is not empty, has no comma and no whitespace at
    either end; and a list of such names, joined by commas, is read
    back as it was. *)
Theorem parse_stores_names :
  (∀ stores_str, Forall store_name (parse_stores stores_str))
  ∧ (∀ names, Forall store_name names →
       parse_stores (String.concat "," names) = names).
Proof.
  split.
  - intros stores_str. unfold parse_stores. apply List.Forall_forall.
    intros x Hin. apply List.filter_In in Hin as [Hin Hne].
    apply List.in_map_iff in Hin as (y & <- & Hy).
    pose proof (split_from_pieces "" stores_str eq_refl) as Hpieces.
    rewrite List.Forall_forall in Hpieces.
    split; [|split].
    + intros E. rewrite E in Hne. discriminate.
    + apply strip_idem.
    + apply has_char_strip, Hpieces, Hy.
  - intros names Hall. unfold parse_stores, split_comma.
    destruct names as [|x names]; [reflexivity|].
    rewrite split_concat.
    + change ("" ++ x) with x.
      rewrite map_fixed.
      * apply filter_all. eapply List.Forall_impl; [|exact Hall].
        intros y (Hy & _ & _). apply negb_true_iff, String.eqb_neq, Hy.
      * eapply List.Forall_impl; [|exact Hall]. intros y (_ & Hy & _). exact Hy.
    + eapply List.Forall_impl; [|exact Hall]. intros y (_ & _ & Hy). exact Hy.
Qed.

Example parse_stores_of_form :
  parse_stores " C1, C2 ,,C3 , " = ["C1"; "C2"; "C3"].
Proof. vm_compute. reflexivity. Qed.

(** ** Creating and updating users *)

Lemma admin_create_user_ok form s name password role' :
  uf_username form = Some name →
  uf_password form = Some password →
  uf_role form = Some role' →
  name ≠ "" → password ≠ "" → role' ≠ "" →
  users (acc_app s) !! name = None →
  admin_create_user form s
  = ((Obj [("status", Str "created")], 200),
     {| acc_app :=
          with_users (acc_app s)
            (<[name := {| username := name;
                          role := role';
                          assigned_stores :=
                            if String.eqb role' "seller"
                            then parse_stores (default "" (uf_assigned_stores form))
                            else [] |}]>
               (users (acc_app s)));
        password_hashes := <[name := sha256_hex password]> (password_hashes s);
        tokens := <[name := default "" (uf_token form)]> (tokens s);
        CONFIG_users := CONFIG_users s ++ [name] |}).
Proof.
  intros Hn Hp Hr Hname Hpw Hrole Hfresh. unfold admin_create_user, falsy.
  rewrite Hn, Hp, Hr.
  rewrite (proj2 (String.eqb_neq _ _) Hname), (proj2 (String.eqb_neq _ _) Hpw),
    (proj2 (String.eqb_neq _ _) Hrole).
  cbn [orb]. rewrite bool_decide_eq_false_2; [reflexivity|].
  rewrite Hfresh. intros [? ?]. discriminate.
Qed.

(** X15. A user that [admin_create_user] creates can log in at once
    with the password of the form, has the role of the form and, if a
    seller, the stores of the form; the other users and every table
    stay as they were, and a second request for the same name is
    refused with 400 and changes nothing. *)
Theorem created_user_logs_in form s name password role' :
  uf_username form = Some name →
  uf_password form = Some password →
  uf_role form = Some role' →
  name ≠ "" → password ≠ "" → role' ≠ "" →
  users (acc_app s) !! name = None →
  let s' := snd (admin_create_user form s) in
  fst (admin_create_user form s) = (Obj [("status", Str "created")], 200)
  ∧ (∀ session_token now PUBLIC_URL, ∃ body,
       fst (login_to session_token now PUBLIC_URL (credentials name password) s')
       = Answered (body, 200))
  ∧ (∃ u, users (acc_app s') !! name = Some u
          ∧ username u = name ∧ role u = role'
          ∧ assigned_stores u
            = if String.eqb role' "seller"
              then parse_stores (default "" (uf_assigned_stores form))
              else [])
  ∧ (∀ other, other ≠ name →
       users (acc_app s') !! other = users (acc_app s) !! other
       ∧ password_hashes s' !! other = password_hashes s !! other)
  ∧ db (acc_app s') = db (acc_app s)
  ∧ admin_create_user form s'
    = (detail "Foydalanuvchi allaqachon mavjud" 400, s').
Proof.
  intros Hn Hp Hr Hname Hpw Hrole Hfresh. cbv zeta.
  rewrite (admin_create_user_ok form s name password role') by assumption.
  cbn [fst snd].
  set (u := {| username := name; role := role'; assigned_stores := _ |}).
  set (s' := {| acc_app := _ |}).
  assert (Hu : users (acc_app s') !! name = Some u) by apply lookup_insert_eq.
  split; [reflexivity|]. split; [|split; [|split; [|split]]].
  - intros session_token now PUBLIC_URL. unfold login_to, credentials.
    rewrite (login_ok session_token now PUBLIC_URL (password_hashes s') name
               password u (acc_app s') Hu); [eauto | | assumption | assumption].
    unfold s'. cbn [password_hashes]. rewrite lookup_insert_eq. reflexivity.
  - exists u. repeat split; exact Hu.
  - intros other Hother. unfold s'. cbn [acc_app password_hashes with_users users].
    rewrite !lookup_insert_ne by congruence. split; reflexivity.
  - reflexivity.
  - unfold admin_create_user, falsy. rewrite Hn, Hp, Hr.
    rewrite (proj2 (String.eqb_neq _ _) Hname), (proj2 (String.eqb_neq _ _) Hpw),
      (proj2 (String.eqb_neq _ _) Hrole).
    cbn [orb]. rewrite bool_decide_eq_true_2; [reflexivity|].
    rewrite Hu. eauto.
Qed.

Lemma created_user_logs_in_witness :
  fst (admin_create_user new_seller some_accounts)
  = (Obj [("status", Str "created")], 200)
  ∧ (∀ session_token now PUBLIC_URL, ∃ body,
       fst (login_to session_token now PUBLIC_URL (credentials "sel9" "pw9")
              (snd (admin_create_user new_seller some_accounts)))
       = Answered (body, 200))
  ∧ (∃ u, users (acc_app (snd (admin_create_user new_seller some_accounts))) !! "sel9"
          = Some u
          ∧ username u = "sel9" ∧ role u = "seller"
          ∧ assigned_stores u
            = if String.eqb "seller" "seller"
              then parse_stores (default "" (uf_assigned_stores new_seller))
              else [])
  ∧ (∀ other, other ≠ "sel9" →
       users (acc_app (snd (admin_create_user new_seller some_accounts))) !! other
       = users (acc_app some_accounts) !! other
       ∧ password_hashes (snd (admin_create_user new_seller some_accounts)) !! other
         = password_hashes some_accounts !! other)
  ∧ db (acc_app (snd (admin_create_user new_seller some_accounts)))
    = db (acc_app some_accounts)
  ∧ admin_create_user new_seller (snd (admin_create_user new_seller some_accounts))
    = (detail "Foydalanuvchi allaqachon mavjud" 400,
       snd (admin_create_user new_seller some_accounts)).
Proof.
  apply (created_user_logs_in new_seller some_accounts "sel9" "pw9" "seller").
  - reflexivity.
  - reflexivity.
  - reflexivity.
  - discriminate.
  - discriminate.
  - discriminate.
  - reflexivity.
Defined.

(** X16. [admin_create_user] answers 200 or 400; whatever the form,
    it leaves every user that exists as it was, with its password,
    and no table changes; with 400 nothing changes at all. *)
Theorem admin_create_user_keeps_users form s :
  (snd (fst (admin_create_user form s)) = 200
   ∨ (snd (fst (admin_create_user form s)) = 400
      ∧ snd (admin_create_user form s) = s))
  ∧ db (acc_app (snd (admin_create_user form s))) = db (acc_app s)
  ∧ ∀ name u,
      users (acc_app s) !! name = Some u →
      users (acc_app (snd (admin_create_user form s))) !! name = Some u
      ∧ password_hashes (snd (admin_create_user form s)) !! name
        = password_hashes s !! name.
Proof.
  unfold admin_create_user.
  destruct (uf_username form) as [name|];
    [|split; [right; split; reflexivity | split; [reflexivity | auto]]].
  destruct (uf_password form) as [password|];
    [|split; [right; split; reflexivity | split; [reflexivity | auto]]].
  destruct (uf_role form) as [role'|];
    [|split; [right; split; reflexivity | split; [reflexivity | auto]]].
  destruct (falsy (Some name) || falsy (Some password) || falsy (Some role'));
    [split; [right; split; reflexivity | split; [reflexivity | auto]]|].
  destruct (bool_decide (is_Some (users (acc_app s) !! name))) eqn:E;
    [split; [right; split; reflexivity | split; [reflexivity | auto]]|].
  apply bool_decide_eq_false_1 in E.
  split; [left; reflexivity|]. split; [reflexivity|].
  intros other u Hother. cbn [snd acc_app password_hashes with_users users].
  assert (other ≠ name) by (intros ->; apply E; eauto).
  rewrite !lookup_insert_ne by congruence. split; [exact Hother | reflexivity].
Qed.

Lemma given_some f x : given f = Some x → f = Some x ∧ x ≠ "".
Proof.
  destruct f as [y|]; simpl; [|discriminate].
  destruct (String.eqb y "") eqn:E; [discriminate|].
  intros [= ->]. split; [reflexivity | apply String.eqb_neq, E].
Qed.

(** X17. [admin_update_user] on a user that exists answers 200 and
    touches no table, so no session is closed: a session of that
    user that was open stays open and carries, from the next request
    on, the role and the stores of the form (the stores are emptied
    when the role is sent without them); a password of the form is
    the one [login] accepts from then on; the other users stay as
    they were. *)
Theorem admin_update_user_reaches_sessions form s name u :
  given (uf_username form) = Some name →
  users (acc_app s) !! name = Some u →
  let s' := snd (admin_update_user form s) in
  fst (admin_update_user form s) = (Obj [("status", Str "updated")], 200)
  ∧ db (acc_app s') = db (acc_app s)
  ∧ (∀ other, other ≠ name →
       users (acc_app s') !! other = users (acc_app s) !! other
       ∧ password_hashes s' !! other = password_hashes s !! other)
  ∧ (∃ u', users (acc_app s') !! name = Some u'
           ∧ username u' = username u
           ∧ (∀ r, given (uf_role form) = Some r →
                role u' = r
                ∧ assigned_stores u'
                  = if String.eqb r "seller"
                    then parse_stores (default "" (uf_assigned_stores form))
                    else [])
           ∧ (given (uf_role form) = None → u' = u)
           ∧ ∀ now token, open_session now token name (acc_app s) →
               authenticates now token (acc_app s') u')
  ∧ (∀ password, given (uf_password form) = Some password →
       ∀ session_token now PUBLIC_URL, ∃ body,
         fst (login_to session_token now PUBLIC_URL (credentials name password) s')
         = Answered (body, 200))
  ∧ (given (uf_password form) = None →
     password_hashes s' !! name = password_hashes s !! name).
Proof.
  intros Hn Hu. cbv zeta. unfold admin_update_user. rewrite Hn, Hu.
  cbv zeta. cbn [fst snd acc_app password_hashes with_users users db].
  set (u' := match given (uf_role form) with Some _ => _ | None => u end).
  split; [reflexivity|]. split; [reflexivity|].
  split; [|split; [|split]].
  - intros other Hother. rewrite lookup_insert_ne by congruence.
    split; [reflexivity|].
    destruct (given (uf_password form));
      [rewrite lookup_insert_ne by congruence|]; reflexivity.
  - exists u'. split; [apply lookup_insert_eq|]. split; [|split; [|split]].
    + unfold u'. destruct (given (uf_role form)); reflexivity.
    + intros r Hr. unfold u'. rewrite Hr. split; reflexivity.
    + intros Hr. unfold u'. rewrite Hr. reflexivity.
    + intros now token (Htok & row & Hrow & Hopen & Hname).
      split; [exact Htok|]. exists row.
      split; [exact Hrow|]. split; [exact Hopen|].
      cbn [users]. rewrite Hname. apply lookup_insert_eq.
  - intros password Hp session_token now PUBLIC_URL.
    unfold login_to, credentials. cbn [acc_app password_hashes].
    rewrite Hp. apply given_some in Hp as [_ Hpw].
    apply given_some in Hn as [_ Hname].
    erewrite login_ok; [eauto | apply lookup_insert_eq | | assumption | assumption].
    rewrite lookup_insert_eq. reflexivity.
  - intros Hp. rewrite Hp. reflexivity.
Qed.

Lemma admin_update_user_reaches_sessions_witness :
  fst (admin_update_user demote_root some_accounts)
  = (Obj [("status", Str "updated")], 200)
  ∧ (∃ u', users (acc_app (snd (admin_update_user demote_root some_accounts)))
           !! "root" = Some u'
           ∧ role u' = "supplier"
           ∧ authenticates 1000 "tok"
               (acc_app (snd (admin_update_user demote_root some_accounts))) u').
Proof.
  destruct (admin_update_user_reaches_sessions demote_root some_accounts "root" root)
    as (Hanswer & _ & _ & (u' & Hu' & _ & Hrole & _ & Hsession) & _).
  - reflexivity.
  - reflexivity.
  - split; [exact Hanswer|]. exists u'. split; [exact Hu'|]. split.
    + apply (Hrole "supplier"). reflexivity.
    + apply Hsession. split; [discriminate|].
      exists {| sessions.username := "root"; sessions.expiry := 1000 |}.
      split; [reflexivity|]. split; [reflexivity|]. reflexivity.
Defined.

(** ** The list of users after a save *)





(** ** Orders of a campaign *)





(** X20. A seller reads nothing of a store that is not among the
    assigned ones: the orders, the orders of the day, the canceled
    orders and the daily decisions of such a store are each refused
    with 403, whatever the marketplace and the tables hold. *)
Theorem seller_reads_assigned_stores_only {E}
    (fetch : string → string → user → option (list E))
    (orders : option (list string)) user campaign_id db :
  role user = "seller" →
  ¬ In campaign_id (assigned_stores user) →
  get_orders fetch user campaign_id
  = inl (Detail "Bu campaign ga ruxsatingiz yo'q", 403)
  ∧ get_today_orders fetch user campaign_id = inl (Detail "Ruxsat yo'q", 403)
  ∧ get_canceled_orders fetch user campaign_id db = inl (Detail "Ruxsat yo'q", 403)
  ∧ get_daily_orders orders user campaign_id db = inl (Detail "Ruxsat yo'q", 403).
Proof.
  intros Hrole Hnot.
  assert (Hex : existsb (String.eqb campaign_id) (assigned_stores user) = false).
  { destruct (existsb _ _) eqn:Hin; [|reflexivity].
    apply existsb_eqb_in in Hin. contradiction. }
  unfold get_orders, get_today_orders, get_canceled_orders, get_daily_orders.
  rewrite Hrole, Hex. simpl.
  repeat split; reflexivity.
Qed.

Lemma seller_reads_assigned_stores_only_witness :
  get_orders no_orders sel1 "C2"
  = inl (Detail "Bu campaign ga ruxsatingiz yo'q", 403)
  ∧ get_today_orders no_orders sel1 "C2" = inl (Detail "Ruxsat yo'q", 403)
  ∧ get_canceled_orders no_orders sel1 "C2" empty_db = inl (Detail "Ruxsat yo'q", 403)
  ∧ get_daily_orders (Some ["O1"]) sel1 "C2" empty_db = inl (Detail "Ruxsat yo'q", 403).
Proof.
  apply (seller_reads_assigned_stores_only no_orders (Some ["O1"]) sel1 "C2" empty_db).
  - reflexivity.
  - intros [H|[]]. discriminate.
Defined.

(** ** The backend URL *)

(** X21. [update_backend_url] never answers 200.  Without a URL it
    answers 400 and changes nothing; with one it sets the backend
    URL of the configuration and then fails on the statement that
    sets [metadata], which is no column of [sessions], so the
    request ends in that exception with the configuration changed
    and the sessions as they were. *)
Theorem update_backend_url_fails PUBLIC_URL metadata url backend_url a :
  let result := update_backend_url PUBLIC_URL metadata url backend_url a in
  (∀ r, fst result = inr r →
        r = detail "URL talab qilinadi" 400 ∧ snd result = (backend_url, a)
        ∧ falsy (get_or url "") = true)
  ∧ (∀ e, fst result = inl e →
          e = OperationalError "no such column: metadata"
          ∧ snd result = (get_or url "", a)
          ∧ falsy (get_or url "") = false).
Proof.
  cbv zeta. unfold update_backend_url.
  destruct (falsy (get_or url "")) eqn:Hurl.
  - split; [|discriminate]. intros r [= <-]. auto.
  - change (update_sessions_set "metadata" metadata (db a))
      with (@inl exn unit (OperationalError "no such column: metadata"), db a).
    cbv iota. rewrite with_db_same.
    split; [discriminate|]. intros e [= <-]. auto.
Qed.

Example update_backend_url_of_admin :
  update_backend_url None "{}" (Given "https://x.example") None (some_app false)
  = (inl (OperationalError "no such column: metadata"),
     (Some "https://x.example", some_app false)).
Proof. reflexivity. Qed.

(** ** The names of the reports *)

Lemma basename_from_app acc x s :
  has_char "/"%char x = false →
  basename_from acc (x ++ s) = basename_from (acc ++ x) s.
Proof.
  revert acc. induction x as [|c x IH]; intros acc Hx.
  - rewrite append_empty. reflexivity.
  - rewrite has_char_cons in Hx. apply orb_false_iff in Hx as [Hc Hx].
    change (basename_from acc (String c x ++ s))
      with (if Ascii.eqb c "/"%char then basename_from "" (x ++ s)
            else basename_from (acc ++ String c "") (x ++ s)).
    rewrite Ascii.eqb_sym, Hc. rewrite IH by exact Hx.
    f_equal. rewrite append_assoc'. reflexivity.
Qed.

Lemma basename_temp x :
  has_char "/"%char x = false → basename ("temp/" ++ x) = x.
Proof.
  intros Hx. unfold basename.
  change (basename_from "" ("temp/" ++ x)) with (basename_from "" x).
  rewrite <- (append_empty x) at 1. rewrite basename_from_app by exact Hx.
  reflexivity.
Qed.

(** X22. The reports that [save_decisions] names in its answer, for
    a day and a user name without a slash: they are among three
    names that the day and the user name fix, in that order, so a
    later save of the same user on the same day writes over the
    reports of an earlier one; and each was rendered under [temp/]
    with the name reported. *)
Theorem save_pdfs_names fpdf today user items :
  has_char "/"%char today = false →
  has_char "/"%char (username user) = false →
  sublist (save_pdfs fpdf today user items) (report_names today user)
  ∧ Forall (fun f => fpdf ("temp/" ++ f) = true) (save_pdfs fpdf today user items).
Proof.
  intros Hday Hname.
  assert (Hstem : ∀ kind, has_char "/"%char kind = false →
            has_char "/"%char (kind ++ today ++ "_" ++ username user ++ ".pdf") = false).
  { intros kind Hk. rewrite !has_char_app, Hk, Hday, Hname. reflexivity. }
  pose proof (Hstem "positive_report_" eq_refl) as Hpos.
  pose proof (Hstem "negative_report_" eq_refl) as Hneg.
  pose proof (Hstem "returned_report_" eq_refl) as Hret.
  unfold save_pdfs, generate_pdf, generate_returned_pdf, report_names. cbv zeta.
  change ("temp/" ++ "positive" ++ "_report_" ++ today ++ "_" ++ username user ++ ".pdf")
    with ("temp/" ++ ("positive_report_" ++ today ++ "_" ++ username user ++ ".pdf")).
  change ("temp/" ++ "negative" ++ "_report_" ++ today ++ "_" ++ username user ++ ".pdf")
    with ("temp/" ++ ("negative_report_" ++ today ++ "_" ++ username user ++ ".pdf")).
  change ("temp/returned_report_" ++ today ++ "_" ++ username user ++ ".pdf")
    with ("temp/" ++ ("returned_report_" ++ today ++ "_" ++ username user ++ ".pdf")).
  cbv beta.
  set (pos := "positive_report_" ++ _) in *.
  set (neg := "negative_report_" ++ _) in *.
  set (ret := "returned_report_" ++ _) in *.
  repeat (match goal with
          | |- context [if ?b then _ else _] => destruct b eqn:?
          end; cbv beta iota);
    cbn [List.app]; rewrite ?basename_temp by assumption;
    (split;
     [repeat first [apply sublist_nil | apply sublist_skip | apply sublist_cons]
     |repeat constructor; assumption]).
Qed.

Lemma save_pdfs_names_witness :
  sublist (save_pdfs fpdf_ok "2024-05-01" sup1 [item "O1" "yes"; item "O2" "no"])
    (report_names "2024-05-01" sup1)
  ∧ Forall (fun f => fpdf_ok ("temp/" ++ f) = true)
      (save_pdfs fpdf_ok "2024-05-01" sup1 [item "O1" "yes"; item "O2" "no"]).
Proof.
  apply (save_pdfs_names fpdf_ok "2024-05-01" sup1 [item "O1" "yes"; item "O2" "no"]).
  - reflexivity.
  - reflexivity.
Defined.

Example save_pdfs_of_slash :
  save_pdfs fpdf_ok "2024-05-01" sup_slash [item "O1" "yes"] = ["b.pdf"].
Proof. vm_compute. reflexivity. Qed.

(** ** Files of [temp/] *)

(** X23. A file of [temp/], a report among them, is given to every
    request for [/temp/<name>]: with any credential or none, and in
    maintenance mode as well, since the path is not under [/api/];
    a name that is no file of [temp/] is answered 404, and the
    request changes nothing. *)
Theorem serve_temp_is_public now authorization filename a :
  serve_serve_temp now authorization filename a = (inr (serve_temp filename a), a)
  ∧ (∀ content, temp a !! filename = Some content →
       fst (serve_serve_temp now authorization filename a) = inr (File content))
  ∧ (temp a !! filename = None →
     fst (serve_serve_temp now authorization filename a) = inr NotFound).
Proof.
  assert (Hopen : serve_serve_temp now authorization filename a
                  = (inr (serve_temp filename a), a)).
  { unfold serve_serve_temp, check_maintenance. cbn [path].
    change (String.prefix "/api/" ("/temp/" ++ filename)) with false.
    rewrite andb_false_r. reflexivity. }
  split; [exact Hopen|]. rewrite Hopen. unfold serve_temp.
  split; [intros content Hfile | intros Hfile]; rewrite Hfile; reflexivity.
Qed.

Example serve_temp_in_maintenance :
  fst (serve_serve_temp 500 None "m.pdf" (some_app true)) = inr (File "%PDF-1.3")
  ∧ fst (serve_get_pdf 500 None "m.pdf" (some_app true)) = locked.
Proof. split; vm_compute; reflexivity. Qed.
